(** * Fraud detection service: a shallow embedding of
      [src/frauddetectionservice/fraud_detection_server.py]

    The service keeps a per-user list of [(timestamp, amount)] events,
    validates the credit card (Luhn checksum, expiry), applies amount and
    velocity heuristics, asks an optional external assessor for a score
    and aggregates everything into a [FraudCheckResponse].

    Python floats are IEEE 754 binary64 values: they are modelled by
    Rocq's primitive floats, so comparisons with NaN, rounding of the
    decimal literals of the source and the order of additions are those
    of the interpreter.  Python strings are modelled by [string], a
    character being a code point below 256. *)

From Stdlib Require Import ZArith Floats Ascii String List Lia Bool.
From Stdlib Require Import DecimalString.
From stdpp Require Import gmap strings list.

#[local] Set Warnings "-inexact-float".
#[local] Open Scope Z_scope.

(** ** Python builtins on strings *)

Module PyStr.

#[local] Open Scope string_scope.

(** [c.isdigit()] for a pattern [\d]: in the code points below 256 the
    decimal digits are ['0'..'9']. *)
Definition is_digit (c : ascii) : bool :=
  let n := nat_of_ascii c in ((48 <=? n) && (n <=? 57))%nat.

(** [str.isspace] on one character: TAB..CR, FS..US, space, NEL, NBSP. *)
Definition is_space (c : ascii) : bool :=
  let n := nat_of_ascii c in
  (((9 <=? n) && (n <=? 13)) || ((28 <=? n) && (n <=? 32))
   || (n =? 133) || (n =? 160))%nat.

(** [int(d)] for a digit character. *)
Definition digit_value (c : ascii) : Z := Z.of_nat (nat_of_ascii c) - 48.

(** [re.sub(r'\D', '', s)]. *)
Fixpoint re_sub_nondigits (s : string) : string :=
  match s with
  | EmptyString => EmptyString
  | String c s' =>
      if is_digit c then String c (re_sub_nondigits s') else re_sub_nondigits s'
  end.

Fixpoint lstrip (s : string) : string :=
  match s with
  | EmptyString => EmptyString
  | String c s' => if is_space c then lstrip s' else s
  end.

(** [rstrip]: a character is kept when it is not a space or when
    something is kept after it. *)
Fixpoint rstrip (s : string) : string :=
  match s with
  | EmptyString => EmptyString
  | String c s' =>
      match rstrip s' with
      | EmptyString => if is_space c then EmptyString else String c EmptyString
      | r => String c r
      end
  end.

(** [s.strip()]. *)
Definition strip (s : string) : string := rstrip (lstrip s).

(** [sub in s], for a non-empty or empty [sub]. *)
Fixpoint contains (sub s : string) : bool :=
  String.prefix sub s ||
  match s with
  | EmptyString => false
  | String _ s' => contains sub s'
  end.

(** [s.replace(old, new)] for a non-empty [old]: the occurrences are
    found from the left and do not overlap; [skip] counts the characters
    of an occurrence still to be dropped. *)
Fixpoint replace_from (old new : string) (skip : nat) (s : string) : string :=
  match s with
  | EmptyString => EmptyString
  | String c s' =>
      match skip with
      | S k => replace_from old new k s'
      | O =>
          if String.prefix old s
          then new ++ replace_from old new (String.length old - 1) s'
          else String c (replace_from old new O s')
      end
  end.

Definition replace (old new s : string) : string := replace_from old new O s.

(** [s.split(sep)] for a separator of one character: the result always
    has at least one part. *)
Fixpoint split (sep : ascii) (s : string) : list string :=
  match s with
  | EmptyString => [EmptyString]
  | String c s' =>
      if Ascii.eqb c sep then EmptyString :: split sep s'
      else match split sep s' with
           | p :: ps => String c p :: ps
           | [] => [String c EmptyString]
           end
  end.

(** [s[:n]]. *)
Definition take (n : nat) (s : string) : string := String.substring 0 n s.

(** [str(n)] for an integer. *)
Definition str_of_Z (z : Z) : string := NilZero.string_of_int (Z.to_int z).

(** Lower-casing of the ASCII letters, as [s.lower()] does on them. *)
Definition lower_char (c : ascii) : ascii :=
  let n := nat_of_ascii c in
  if ((65 <=? n) && (n <=? 90))%nat then ascii_of_nat (n + 32) else c.

Fixpoint lower (s : string) : string :=
  match s with
  | EmptyString => EmptyString
  | String c s' => String (lower_char c) (lower s')
  end.

End PyStr.

(** ** Python floats *)

Module PyFloat.

#[local] Open Scope float_scope.

Definition is_nan (x : float) : bool := negb (x =? x).

(** [min(a, b)] and [max(a, b)] of two arguments: the first argument is
    kept unless the second compares strictly below (above) it, so a NaN
    in first position is returned. *)
Definition py_min (a b : float) : float := if b <? a then b else a.
Definition py_max (a b : float) : float := if a <? b then b else a.

(** The binary64 value nearest to [num / den] (ties to even), with the
    given sign; [num] and [den] are positive integers. *)
Definition round_ratio (neg : bool) (num den : positive) : spec_float :=
  let '(q, e, l) := SFdiv_core_binary prec emax (Zpos num) 0 (Zpos den) 0 in
  binary_round_aux prec emax neg q e l.

(** Conversion of a Python [int] to [float]: correctly rounded;
    [None] stands for [OverflowError] (int too large to convert). *)
Definition of_int (z : Z) : option float :=
  match binary_normalize prec emax z 0 false with
  | S754_infinity _ => None
  | f => Some (SF2Prim f)
  end.

(** *** [float(s)] on a string *)

#[local] Open Scope string_scope.

(** The digits of [digit (["_"] digit)*] after its first digit, and
    the rest of the input. *)
Fixpoint digitpart_tail (s : string) : string * string :=
  match s with
  | String c s' =>
      if PyStr.is_digit c then
        let '(d, r) := digitpart_tail s' in (String c d, r)
      else if Ascii.eqb c "_" then
        match s' with
        | String c' s'' =>
            if PyStr.is_digit c' then
              let '(d, r) := digitpart_tail s'' in (String c' d, r)
            else (EmptyString, s)
        | EmptyString => (EmptyString, s)
        end
      else (EmptyString, s)
  | EmptyString => (EmptyString, s)
  end.

Definition digitpart (s : string) : option (string * string) :=
  match s with
  | String c s' =>
      if PyStr.is_digit c then
        let '(d, r) := digitpart_tail s' in Some (String c d, r)
      else None
  | EmptyString => None
  end.

(** [number ::= [digitpart] "." digitpart | digitpart ["."]]: the
    integer digits, the fraction digits and the rest. *)
Definition number (s : string) : option (string * string * string) :=
  match digitpart s with
  | Some (i, r) =>
      match r with
      | String "." r' =>
          match digitpart r' with
          | Some (f, r'') => Some (i, f, r'')
          | None => Some (i, EmptyString, r')
          end
      | _ => Some (i, EmptyString, r)
      end
  | None =>
      match s with
      | String "." r' =>
          match digitpart r' with
          | Some (f, r'') => Some (EmptyString, f, r'')
          | None => None
          end
      | _ => None
      end
  end.

(** The value of a string of digits. *)
Fixpoint digits_value (acc : Z) (s : string) : Z :=
  match s with
  | EmptyString => acc
  | String c s' => digits_value (10 * acc + PyStr.digit_value c) s'
  end.

Definition sign_of (s : string) : bool * string :=
  match s with
  | String "-" s' => (true, s')
  | String "+" s' => (false, s')
  | _ => (false, s)
  end.

(** [exponent ::= ("e" | "E") [sign] digitpart], which must end the
    input; an absent exponent is 0. *)
Definition exponent (s : string) : option Z :=
  match s with
  | EmptyString => Some 0%Z
  | String c s' =>
      if Ascii.eqb c "e" || Ascii.eqb c "E" then
        let '(neg, r) := sign_of s' in
        match digitpart r with
        | Some (d, EmptyString) =>
            Some (if neg then (- digits_value 0 d)%Z else digits_value 0 d)
        | _ => None
        end
      else None
  end.

(** The float written [m * 10^e], for a non-negative [m]. *)
Definition of_decimal (neg : bool) (m e : Z) : float :=
  match m with
  | Zpos p =>
      let num := (Zpos p * 10 ^ Z.max e 0)%Z in
      let den := (10 ^ Z.max (- e) 0)%Z in
      SF2Prim (round_ratio neg (Z.to_pos num) (Z.to_pos den))
  | _ => if neg then (-0)%float else 0%float
  end.

(** [float(s)]: [None] stands for [ValueError].  Leading and trailing
    whitespace is ignored, ["inf"], ["infinity"] and ["nan"] are
    accepted in any letter case and with a sign. *)
Definition py_float (s : string) : option float :=
  let '(neg, r) := sign_of (PyStr.strip s) in
  let word := PyStr.lower r in
  if String.eqb word "nan" then Some nan
  else if String.eqb word "inf" || String.eqb word "infinity" then
    Some (if neg then neg_infinity else infinity)
  else
    match number r with
    | Some (i, f, r') =>
        match exponent r' with
        | Some e =>
            Some (of_decimal neg (digits_value 0 (i ++ f))
                    (e - Z.of_nat (String.length f)))
        | None => None
        end
    | None => None
    end.

(** *** [f"{x:.2f}"] *)

(** [value * 100] rounded to an integer, ties to even, for the finite
    positive value [m * 2^e]. *)
Definition hundredths (m : positive) (e : Z) : Z :=
  if (0 <=? e)%Z then (Zpos m * 2 ^ e * 100)%Z
  else
    let den := (2 ^ (- e))%Z in
    let q := (Zpos m * 100 / den)%Z in
    let r := (Zpos m * 100 mod den)%Z in
    match (2 * r ?= den)%Z with
    | Lt => q
    | Gt => (q + 1)%Z
    | Eq => if Z.even q then q else (q + 1)%Z
    end.

Definition two_digits (n : Z) : string :=
  (if (n <? 10)%Z then "0" else "") ++ PyStr.str_of_Z n.

Definition fixed2 (neg : bool) (h : Z) : string :=
  (if neg then "-" else "") ++ PyStr.str_of_Z (h / 100) ++ "."
    ++ two_digits (h mod 100).

Definition format_2f (x : float) : string :=
  match Prim2SF x with
  | S754_nan => "nan"
  | S754_infinity neg => if neg then "-inf" else "inf"
  | S754_zero neg => fixed2 neg 0
  | S754_finite neg m e => fixed2 neg (hundredths m e)
  end.

End PyFloat.


(** ** Data model *)

(** The protobuf messages of the request and of the response.  A request
    is any object with these attributes: [amount] and [credit_card] may
    be [None], and [user_id] may be absent ([getattr] then gives
    ["anonymous"]).  The integer fields are Python [int]s. *)
Module demo_pb2.

Record Money := {
  currency_code : string;
  units : Z;
  nanos : Z
}.

Record CreditCardInfo := {
  credit_card_number : string;
  credit_card_cvv : Z;
  credit_card_expiration_year : Z;
  credit_card_expiration_month : Z
}.

Record FraudCheckRequest := {
  amount : option Money;
  credit_card : option CreditCardInfo;
  user_id : option string
}.

Record FraudCheckResponse := {
  is_fraud : bool;
  risk_score : float;
  reason : string
}.

End demo_pb2.
Import demo_pb2.

(** A naive [datetime]; the order of two of them is the lexicographic
    order of their fields. *)
Record datetime := {
  year : Z; month : Z; day : Z;
  hour : Z; minute : Z; second : Z; microsecond : Z
}.

Definition datetime_fields (d : datetime) : list Z :=
  [year d; month d; day d; hour d; minute d; second d; microsecond d].

Fixpoint lex_lt (a b : list Z) : bool :=
  match a, b with
  | x :: a', y :: b' => (x <? y) || ((x =? y) && lex_lt a' b')
  | [], _ :: _ => true
  | _, [] => false
  end.

(** [a < b] on datetimes. *)
Definition datetime_lt (a b : datetime) : bool :=
  lex_lt (datetime_fields a) (datetime_fields b).

(** [datetime(year, month, 1)] for a month already known to be in
    [1..12]: [None] stands for the [ValueError] of a year outside
    [MINYEAR..MAXYEAR]. *)
Definition datetime_first_of_month (y m : Z) : option datetime :=
  if (1 <=? y) && (y <=? 9999) then
    Some {| year := y; month := m; day := 1;
            hour := 0; minute := 0; second := 0; microsecond := 0 |}
  else None.

(** One entry of a user's history: [(timestamp, amount)]. *)
Definition event : Type := float * float.

(** What [generate_content(prompt)] followed by [response.text] does:
    it raises, or it gives a text. *)
Inductive generated :=
  | GenRaises (msg : string)
  | GenText (text : string).

(** The snapshot handed to the assessor. *)
Record transaction_data := {
  td_amount : float;
  td_currency : string;
  td_card_type : string;
  td_timestamp : datetime;
  td_user_pattern : string
}.

(** The service object.  [gemini_model] is [None] when no API key was
    configured; a model maps the snapshot it is prompted with to what
    the call does.  [transaction_history] is the [defaultdict(list)]. *)
Record service := {
  gemini_model : option (transaction_data -> generated);
  transaction_history : gmap string (list event);
  max_amount_threshold : float;
  velocity_threshold : Z;
  daily_limit : float
}.

(** [FraudDetectionService.__init__], given the model (if any). *)
Definition init (model : option (transaction_data -> generated)) : service :=
  {| gemini_model := model;
     transaction_history := ∅;
     max_amount_threshold := 10000.0;
     velocity_threshold := 5;
     daily_limit := 50000.0 |}.

Definition set_history (self : service) (h : gmap string (list event)) : service :=
  {| gemini_model := gemini_model self;
     transaction_history := h;
     max_amount_threshold := max_amount_threshold self;
     velocity_threshold := velocity_threshold self;
     daily_limit := daily_limit self |}.

(** [self.transaction_history[user_id]] read from the [defaultdict]. *)
Definition history_of (self : service) (user_id : string) : list event :=
  default [] (transaction_history self !! user_id).

(** The clock readings of one call, in the order the code takes them:
    [datetime.now()] in the card validation, [time.time()] in the
    velocity check, [datetime.now()] in the snapshot and [time.time()]
    when recording. *)
Record clock := {
  now_validate : datetime;
  time_velocity : float;
  now_snapshot : datetime;
  time_record : float
}.

(** The gRPC context: the status code and details set on it. *)
Inductive status_code := INTERNAL.

Record context := {
  code : option status_code;
  details : option string
}.

Definition fresh_context : context := {| code := None; details := None |}.

(** ** Exceptions and the state of the service *)

Inductive exn :=
  | AttributeError (msg : string)
  | OverflowError (msg : string)
  | Exception (msg : string).

Definition exn_str (e : exn) : string :=
  match e with AttributeError m | OverflowError m | Exception m => m end.

Inductive result (A : Type) :=
  | Return (a : A)
  | Raise (e : exn).
Arguments Return {A} a.
Arguments Raise {A} e.

(** A statement of a method: it runs on the service object, may change
    it and returns or raises; the changes made before a raise stay. *)
Definition M (A : Type) : Type := service -> service * result A.

#[global] Instance M_ret : MRet M := fun A a self => (self, Return a).
#[global] Instance M_bind : MBind M := fun A B k c self =>
  match c self with
  | (self', Return a) => k a self'
  | (self', Raise e) => (self', Raise e)
  end.

Definition raise {A} (e : exn) : M A := fun self => (self, Raise e).
Definition get_self : M service := fun self => (self, Return self).
Definition put_history (h : gmap string (list event)) : M unit :=
  fun self => (set_history self h, Return tt).

(** [obj.attr] when [obj] may be [None]. *)
Definition getattr {A} (obj : option A) (attr : string) : M A :=
  match obj with
  | Some a => mret a
  | None => raise (AttributeError ("'NoneType' object has no attribute '" +:+ attr +:+ "'"))
  end.

(** The implicit conversion of an [int] operand of a float operation. *)
Definition int_to_float (z : Z) : M float :=
  match PyFloat.of_int z with
  | Some f => mret f
  | None => raise (OverflowError "int too large to convert to float")
  end.

(** ** The methods of [FraudDetectionService] *)

#[local] Open Scope string_scope.
#[local] Open Scope Z_scope.

(** [range(start, -1, -2)]: the indices [start, start - 2, ...] down to
    0 or 1; empty for a negative [start]. *)
Definition range_down2 (start : Z) : list nat :=
  (fun k => Z.to_nat (start - 2 * Z.of_nat k)) <$> seq 0 (Z.to_nat ((start + 2) / 2)).

(** The body of the loop of [luhn_check] at index [i]:
    [digits[i] *= 2; if digits[i] > 9: digits[i] -= 9]. *)
Definition luhn_step (digits : list Z) (i : nat) : list Z :=
  match digits !! i with
  | Some d =>
      let d2 := d * 2 in
      <[i := if 9 <? d2 then d2 - 9 else d2]> digits
  | None => digits
  end.

Definition py_sum_int (l : list Z) : Z := foldl Z.add 0 l.

(** The inner function [luhn_check(card_num)]. *)
Definition luhn_check (card_num : string) : bool :=
  let digits := PyStr.digit_value <$> list_ascii_of_string card_num in
  let digits := foldl luhn_step digits (range_down2 (Z.of_nat (length digits) - 2)) in
  py_sum_int digits mod 10 =? 0.

(** [_validate_credit_card(credit_card)], [now] being what
    [datetime.now()] gives. *)
Definition _validate_credit_card (now : datetime) (credit_card : option CreditCardInfo)
  : bool * string :=
  match credit_card with
  | None => (false, "Missing credit card number")
  | Some cc =>
      if String.eqb (credit_card_number cc) "" then (false, "Missing credit card number")
      else
        let card_number := PyStr.re_sub_nondigits (credit_card_number cc) in
        let len := Z.of_nat (String.length card_number) in
        if (len <? 13) || (19 <? len) then (false, "Invalid credit card number length")
        else if negb (luhn_check card_number) then (false, "Invalid credit card number")
        else
          let exp_month := credit_card_expiration_month cc in
          let exp_year := credit_card_expiration_year cc in
          if (exp_month <? 1) || (12 <? exp_month) then (false, "Invalid expiration month")
          else
            let current_date := now in
            match datetime_first_of_month exp_year exp_month with
            | Some exp_date =>
                if datetime_lt exp_date current_date then (false, "Credit card expired")
                else (true, "Valid")
            | None => (false, "Invalid expiration date")
            end
  end.

(** [sum(...)] of floats, added from the left starting at 0, as CPython
    does up to 3.11 (later versions compensate the rounding errors of
    the partial sums; the two agree on lists of at most one element). *)
Definition py_sum_float (l : list float) : float := foldl PrimFloat.add 0%float l.

(** [[(ts, amt) for ts, amt in history if current_time - ts < 60]]. *)
Definition last_minute (current_time : float) (history : list event) : list event :=
  List.filter (fun '(ts, amt) => (current_time - ts <? 60)%float) history.

(** [(amt for ts, amt in history if ts > daily_cutoff)]. *)
Definition after_cutoff (daily_cutoff : float) (history : list event) : list float :=
  snd <$> List.filter (fun '(ts, amt) => (daily_cutoff <? ts)%float) history.

(** [_check_velocity_fraud(user_id, amount)], [current_time] being what
    [time.time()] gives.  The pruned list is stored back before anything
    is read from it. *)
Definition _check_velocity_fraud (current_time : float) (user_id : string) (amount : float)
  : M (bool * string) :=
  self ← get_self;
  put_history (<[user_id := last_minute current_time (history_of self user_id)]>
                 (transaction_history self));;
  self ← get_self;
  let recent_transactions := Z.of_nat (length (history_of self user_id)) in
  if velocity_threshold self <=? recent_transactions then
    mret (true, "Too many transactions: " +:+ PyStr.str_of_Z recent_transactions
                +:+ " in last minute")
  else
    let daily_cutoff := (current_time - 86400)%float in
    let daily_spending :=
      (py_sum_float (after_cutoff daily_cutoff (history_of self user_id)) + amount)%float in
    if (daily_limit self <? daily_spending)%float then
      mret (true, "Daily spending limit exceeded: $" +:+ PyFloat.format_2f daily_spending)
    else mret (false, "Velocity check passed").

(** [_check_amount_fraud(amount)]. *)
Definition _check_amount_fraud (self : service) (amount : float) : bool * string :=
  if (amount <=? 0)%float then (true, "Invalid amount")
  else if (max_amount_threshold self <? amount)%float then
    (true, "Amount too high: $" +:+ PyFloat.format_2f amount)
  else
    let suspicious_amounts := [9999.99; 5000.00; 1000.00]%float in
    if existsb (fun a => (amount =? a)%float) suspicious_amounts then
      (true, "Suspicious amount pattern: $" +:+ PyFloat.format_2f amount)
    else (false, "Amount check passed").

(** The [try] block of [_get_ai_fraud_assessment], for a model that is
    present.  A [ValueError] of [float(score_part)] is passed over and
    the block goes on to its last [return]. *)
Definition ai_assessment_try (model : transaction_data -> generated) (data : transaction_data)
  : result (float * string) :=
  match model data with
  | GenRaises msg => Raise (Exception msg)
  | GenText text =>
      let response_text := PyStr.strip text in
      if PyStr.contains "|" response_text then
        let parts := PyStr.split "|" response_text in
        let score_part := PyStr.strip (PyStr.replace "SCORE:" "" (nth 0 parts "")) in
        let reason_part :=
          if (1 <? length parts)%nat
          then PyStr.strip (PyStr.replace "REASON:" "" (nth 1 parts ""))
          else "AI assessment" in
        match PyFloat.py_float score_part with
        | Some score => Return (PyFloat.py_min (PyFloat.py_max score 0.0) 1.0, reason_part)
        | None => Return (0.2%float, "AI assessment completed")
        end
      else Return (0.2%float, "AI assessment completed")
  end.

(** [_get_ai_fraud_assessment(transaction_data)]: without a model the
    answer is fixed; otherwise whatever the [try] block raises is caught. *)
Definition _get_ai_fraud_assessment (self : service) (data : transaction_data)
  : float * string :=
  match gemini_model self with
  | None => (0.0%float, "AI assessment not available")
  | Some model =>
      match ai_assessment_try model data with
      | Return r => r
      | Raise e => (0.0%float, "AI assessment failed")
      end
  end.

(** [sep.join(l)]. *)
Fixpoint join (sep : string) (l : list string) : string :=
  match l with
  | [] => ""
  | [x] => x
  | x :: l' => x +:+ sep +:+ join sep l'
  end.

(** [float(request.amount.units + request.amount.nanos / 1e9)]: the
    attribute of the left operand is read first, then the quotient is
    computed, then the sum. *)
Definition request_amount (request : FraudCheckRequest) : M float :=
  money ← getattr (amount request) "units";
  nanos_f ← int_to_float (nanos money);
  units_f ← int_to_float (units money);
  mret (units_f + nanos_f / 1e9)%float.

(** The [try] block of [CheckFraud]. *)
Definition CheckFraud_try (clk : clock) (request : FraudCheckRequest) : M FraudCheckResponse :=
  amount ← request_amount request;
  money ← getattr (demo_pb2.amount request) "currency_code";
  let currency := currency_code money in
  let credit_card := demo_pb2.credit_card request in
  let user_id := default "anonymous" (demo_pb2.user_id request) in
  let fraud_reasons : list string := [] in
  let risk_score := 0.0%float in
  (* 1. Credit card validation *)
  let '(is_valid, card_message) := _validate_credit_card (now_validate clk) credit_card in
  let fraud_reasons := if negb is_valid then (fraud_reasons ++ [card_message])%list else fraud_reasons in
  let risk_score := if negb is_valid then (risk_score + 0.8)%float else risk_score in
  (* 2. Amount-based checks *)
  self ← get_self;
  let '(is_amount_fraud, amount_message) := _check_amount_fraud self amount in
  let fraud_reasons := if is_amount_fraud then (fraud_reasons ++ [amount_message])%list else fraud_reasons in
  let risk_score := if is_amount_fraud then (risk_score + 0.6)%float else risk_score in
  (* 3. Velocity checks *)
  velocity ← _check_velocity_fraud (time_velocity clk) user_id amount;
  let '(is_velocity_fraud, velocity_message) := (velocity : bool * string) in
  let fraud_reasons := if is_velocity_fraud then (fraud_reasons ++ [velocity_message])%list else fraud_reasons in
  let risk_score := if is_velocity_fraud then (risk_score + 0.7)%float else risk_score in
  (* 4. AI-based assessment *)
  card ← getattr credit_card "credit_card_number";
  self ← get_self;
  let data :=
    {| td_amount := amount;
       td_currency := currency;
       td_card_type :=
         if String.eqb (credit_card_number card) "" then "Unknown"
         else PyStr.take 4 (credit_card_number card);
       td_timestamp := now_snapshot clk;
       td_user_pattern :=
         PyStr.str_of_Z (Z.of_nat (length (history_of self user_id)))
           +:+ " recent transactions" |} in
  let '(ai_score, ai_reason) := _get_ai_fraud_assessment self data in
  let risk_score := (risk_score + ai_score * 0.3)%float in
  (* Normalize risk score *)
  let risk_score := PyFloat.py_min risk_score 1.0 in
  (* Determine if transaction should be blocked *)
  let is_fraud := (0.7 <? risk_score)%float || (0 <? length fraud_reasons)%nat in
  (if negb is_fraud then
     put_history (<[user_id := (history_of self user_id ++ [(time_record clk, amount)])%list]>
                    (transaction_history self))
   else mret tt);;
  mret {| is_fraud := is_fraud;
          risk_score := risk_score;
          reason := if (0 <? length fraud_reasons)%nat then join "; " fraud_reasons
                    else ai_reason |}.

(** [CheckFraud(request, context)]: the [try] block and its handler,
    which sets the status of the context and answers with the safe
    default.  The service is left as the [try] block left it.  Logging
    and the construction of the response message from a [bool], a
    [float] and a [str] do not raise and are not modelled. *)
Definition CheckFraud (self : service) (clk : clock) (request : FraudCheckRequest)
  (ctx : context) : service * context * FraudCheckResponse :=
  match CheckFraud_try clk request self with
  | (self', Return response) => (self', ctx, response)
  | (self', Raise e) =>
      (self',
       {| code := Some INTERNAL;
          details := Some ("Fraud detection error: " +:+ exn_str e) |},
       {| is_fraud := true;
          risk_score := 1.0;
          reason := "System error - transaction blocked for safety" |})
  end.

(** ** Definitions used in the statements *)

(** The service after the velocity check stored the pruned list of
    [user_id] back. *)
Definition pruned (current_time : float) (user_id : string) (self : service) : service :=
  set_history self
    (<[user_id := last_minute current_time (history_of self user_id)]>
       (transaction_history self)).

(** The service after [transaction_history[user_id].append(ev)]. *)
Definition recorded (ev : event) (user_id : string) (self : service) : service :=
  set_history self
    (<[user_id := (history_of self user_id ++ [ev])%list]> (transaction_history self)).

(** What the velocity check answers once [kept] is the stored list. *)
Definition velocity_verdict (self : service) (kept : list event) (current_time amount : float)
  : bool * string :=
  let recent_transactions := Z.of_nat (length kept) in
  if velocity_threshold self <=? recent_transactions then
    (true, "Too many transactions: " +:+ PyStr.str_of_Z recent_transactions
           +:+ " in last minute")
  else
    let daily_spending :=
      (py_sum_float (after_cutoff (current_time - 86400) kept) + amount)%float in
    if (daily_limit self <? daily_spending)%float then
      (true, "Daily spending limit exceeded: $" +:+ PyFloat.format_2f daily_spending)
    else (false, "Velocity check passed").

(** The response built by the [try] block from what the three checks
    and the assessor answered. *)
Definition response_of (card amt vel : bool * string) (ai : float * string)
  : FraudCheckResponse :=
  let fraud_reasons :=
    ((if negb (fst card) then [snd card] else [])
     ++ (if fst amt then [snd amt] else [])
     ++ (if fst vel then [snd vel] else []))%list in
  let s0 := 0.0%float in
  let s1 := if negb (fst card) then (s0 + 0.8)%float else s0 in
  let s2 := if fst amt then (s1 + 0.6)%float else s1 in
  let s3 := if fst vel then (s2 + 0.7)%float else s2 in
  let risk_score := PyFloat.py_min (s3 + fst ai * 0.3)%float 1.0 in
  {| is_fraud := (0.7 <? risk_score)%float || (0 <? length fraud_reasons)%nat;
     risk_score := risk_score;
     reason := if (0 <? length fraud_reasons)%nat then join "; " fraud_reasons
               else snd ai |}.

(** The snapshot built by the [try] block. *)
Definition snapshot (clk : clock) (amt : float) (currency : string)
  (card : CreditCardInfo) (kept : list event) : transaction_data :=
  {| td_amount := amt;
     td_currency := currency;
     td_card_type :=
       if String.eqb (credit_card_number card) "" then "Unknown"
       else PyStr.take 4 (credit_card_number card);
     td_timestamp := now_snapshot clk;
     td_user_pattern :=
       PyStr.str_of_Z (Z.of_nat (length kept)) +:+ " recent transactions" |}.

(** *** The Luhn checksum as the specification words it *)

(** A doubled digit, less 9 when it exceeds 9. *)
Definition luhn_double (d : Z) : Z :=
  let d2 := d * 2 in if 9 <? d2 then d2 - 9 else d2.

(** The digits read from the rightmost one, every second one doubled;
    [second] tells whether the head is a second digit. *)
Fixpoint luhn_from_right (second : bool) (rdigits : list Z) : list Z :=
  match rdigits with
  | [] => []
  | d :: r => (if second then luhn_double d else d) :: luhn_from_right (negb second) r
  end.

(** The standard check: the sum of these is a multiple of 10. *)
Definition luhn_standard (card_num : string) : bool :=
  let rdigits := rev (PyStr.digit_value <$> list_ascii_of_string card_num) in
  foldr Z.add 0 (luhn_from_right false rdigits) mod 10 =? 0.

(** The reasons with which the card number itself is refused. *)
Definition number_failures : list string :=
  ["Missing credit card number"; "Invalid credit card number length";
   "Invalid credit card number"].

(** A card number that passes the presence, length and Luhn checks. *)
Definition number_passes (cc : CreditCardInfo) : Prop :=
  let card_number := PyStr.re_sub_nondigits (credit_card_number cc) in
  credit_card_number cc <> ""
  /\ 13 <= Z.of_nat (String.length card_number) <= 19
  /\ luhn_check card_number = true.

(** *** Expiry *)

(** The expiration instant of a card: the first moment of its month,
    when the month and the year denote one. *)
Definition expiration (cc : CreditCardInfo) : option datetime :=
  if (credit_card_expiration_month cc <? 1) || (12 <? credit_card_expiration_month cc)
  then None
  else datetime_first_of_month (credit_card_expiration_year cc)
         (credit_card_expiration_month cc).

(** The card expires in the month of [now] or in a later month. *)
Definition expires_this_month_or_later (now : datetime) (cc : CreditCardInfo) : Prop :=
  year now < credit_card_expiration_year cc
  \/ (year now = credit_card_expiration_year cc
      /\ month now <= credit_card_expiration_month cc).

(** The card expires in a month after the month of [now]. *)
Definition expires_in_later_month (now : datetime) (cc : CreditCardInfo) : Prop :=
  year now < credit_card_expiration_year cc
  \/ (year now = credit_card_expiration_year cc
      /\ month now < credit_card_expiration_month cc).

(** *** The daily spend as the specification words it *)

(** The amounts of the events newer than [now - 24h], plus the proposed
    amount, over a history that kept its events up to that horizon. *)
Definition daily_spending_24h (history : list event) (now amount : float) : float :=
  (py_sum_float (after_cutoff (now - 86400) history) + amount)%float.

(** *** Floats that are numbers and not below zero *)

(** A specification float that is not NaN and not below zero (either
    zero counts). *)
Definition sf_nonneg (x : spec_float) : Prop :=
  match x with
  | S754_zero _ => True
  | S754_finite s _ _ | S754_infinity s => s = false
  | S754_nan => False
  end.

Definition nonneg (x : float) : Prop := sf_nonneg (Prim2SF x).

(** *** The answer of the assessor *)

(** The score field of an answer: what [float] is applied to. *)
Definition score_part_of (text : string) : string :=
  PyStr.strip (PyStr.replace "SCORE:" "" (nth 0 (PyStr.split "|" (PyStr.strip text)) "")).

(** *** Inputs used in the examples *)

Definition card_4532 (exp_month exp_year : Z) : CreditCardInfo :=
  {| credit_card_number := "4532015112830366";
     credit_card_cvv := 123;
     credit_card_expiration_year := exp_year;
     credit_card_expiration_month := exp_month |}.

Definition usd (u n : Z) : Money :=
  {| currency_code := "USD"; units := u; nanos := n |}.

Definition request_of (m : Money) (cc : CreditCardInfo) (uid : string) : FraudCheckRequest :=
  {| amount := Some m; credit_card := Some cc; user_id := Some uid |}.

Definition at_noon (y m d : Z) : datetime :=
  {| year := y; month := m; day := d;
     hour := 12; minute := 0; second := 0; microsecond := 0 |}.

(** A call on 15 June 2025 at noon, epoch second 1000 on the clock of
    the velocity check. *)
Definition clock_2025 : clock :=
  {| now_validate := at_noon 2025 6 15;
     time_velocity := 1000.0;
     now_snapshot := at_noon 2025 6 15;
     time_record := 1000.5 |}.

Definition with_history (uid : string) (events : list event) : service :=
  set_history (init None) {[ uid := events ]}.

Definition answering (text : string) : service :=
  init (Some (fun _ => GenText text)).

(** ** Definitions for the further properties *)

#[local] Open Scope list_scope.

(** *** The Luhn sum, digit by digit *)

(** The digits of a string, as [luhn_check] reads them. *)
Definition digits_of (s : string) : list Z :=
  PyStr.digit_value <$> list_ascii_of_string s.

(** The Luhn sum of a list of digits. *)
Definition luhn_sum (digits : list Z) : Z :=
  foldr Z.add 0 (luhn_from_right false (rev digits)).

(** The weight of the digit that has [n] digits on its right. *)
Definition luhn_weight (n : nat) (d : Z) : Z :=
  if Nat.odd n then luhn_double d else d.


(** *** Requests, rule messages and sequences of calls *)


(** The score of the response when only the rules speak. *)
Definition rule_score (card_reason amount_reason velocity_reason : bool) : float :=
  match card_reason, amount_reason, velocity_reason with
  | false, false, false => 0.0
  | true, false, false => 0.8
  | false, true, false => 0.6
  | false, false, true => 0.7
  | _, _, _ => 1.0
  end.

(** The rule messages of a response, in the order of the checks. *)
Definition rule_reasons (card amt vel : bool * string) : list string :=
  (if negb (fst card) then [snd card] else [])
  ++ (if fst amt then [snd amt] else [])
  ++ (if fst vel then [snd vel] else []).

(** [CheckFraud] called on each request of a list in turn. *)
Fixpoint serve (self : service) (calls : list (clock * FraudCheckRequest))
  : service * list FraudCheckResponse :=
  match calls with
  | [] => (self, [])
  | (clk, request) :: calls' =>
      let '(self', _, response) := CheckFraud self clk request fresh_context in
      let '(self'', responses) := serve self' calls' in
      (self'', response :: responses)
  end.

(** [FraudDetectionService.__init__]: [environ] is [os.environ];
    [genai_model key] is what [genai.configure(api_key=key)] followed by
    [genai.GenerativeModel('gemini-pro')] gives, [None] when one of
    them raises. *)
Definition FraudDetectionService_init (environ : gmap string string)
  (genai_model : string -> option (transaction_data -> generated)) : service :=
  let gemini_api_key := environ !! "GEMINI_API_KEY" in
  init match gemini_api_key with
       | Some key => if String.eqb key "" then None else genai_model key
       | None => None
       end.

(** *** The rate limit *)

(** The number of events of [u] that a velocity check at time [t] would
    count. *)
Definition counted (t : float) (u : string) (self : service) : nat :=
  length (last_minute t (history_of self u)).

(** *** Bounds on specification floats, and the rules alone *)

(** A specification float that is zero, or positive and at most
    [2 ^ n]: its exponent is below that of [2 ^ n], or it is [2 ^ n]
    itself. *)
Definition sf_at_most_pow2 (n : Z) (x : spec_float) : Prop :=
  match x with
  | S754_zero _ => True
  | S754_finite false m e => e < n - 52 \/ (e = n - 52 /\ Z.pos m <= 2 ^ 52)
  | _ => False
  end.

(** A specification float that is at least the positive float of
    mantissa [mc] and exponent [ec]. *)
Definition sf_at_least (mc : positive) (ec : Z) (x : spec_float) : Prop :=
  match x with
  | S754_infinity false => True
  | S754_finite false m e => ec < e \/ (e = ec /\ Z.pos mc <= Z.pos m)
  | _ => False
  end.

(** [service.gemini_model = model]: the same service with another
    assessor (or none). *)
Definition set_model (self : service) (model : option (transaction_data -> generated))
  : service :=
  {| gemini_model := model;
     transaction_history := transaction_history self;
     max_amount_threshold := max_amount_threshold self;
     velocity_threshold := velocity_threshold self;
     daily_limit := daily_limit self |}.

(** *** Start-up: the profiler *)

(** What the start-up code does to the outside, in order. *)
Inductive effect :=
  | ProfilerStart (service service_version : string) (verbose : Z)
      (project_id : option string)
  | LogInfo (msg : string)
  | LogWarning (msg : string)
  | Sleep (seconds : Z).

(** The loop of [initStackdriverProfiling] over the values of [retry]
    still to come.  [start n] is what the [n]-th call of
    [googlecloudprofiler.start] does: [None] when it returns, the text
    of the exception when it raises. *)
Fixpoint profiling_loop (project_id : option string) (start : nat -> option string)
  (retries : list Z) (n : nat) : list effect :=
  match retries with
  | [] => []
  | retry :: retries' =>
      ProfilerStart "fraud_detection_server" "1.0.0" 0
        match project_id with
        | Some p => if String.eqb p "" then None else Some p
        | None => None
        end
      :: match start n with
         | None => [LogInfo "Successfully started Stackdriver Profiler."]
         | Some exc =>
             LogInfo ("Unable to start Stackdriver Profiler Python agent. " +:+ exc)
             :: (if retry <? 4 then
                   [LogInfo ("Sleeping " +:+ PyStr.str_of_Z (retry * 10)
                             +:+ " seconds to retry Stackdriver Profiler agent initialization");
                    Sleep 1]
                 else
                   [LogWarning
                      "Could not initialize Stackdriver Profiler after retrying, giving up"])
                ++ profiling_loop project_id start retries' (S n)
         end
  end.

(** [initStackdriverProfiling()]: [environ] is [os.environ], and
    [range(1, 4)] is [1, 2, 3]. *)
Definition initStackdriverProfiling (environ : gmap string string)
  (start : nat -> option string) : list effect :=
  let project_id := environ !! "GCP_PROJECT_ID" in
  profiling_loop project_id start [1; 2; 3] 0.

Definition is_start (e : effect) : bool :=
  match e with ProfilerStart _ _ _ _ => true | _ => false end.

Definition is_warning (e : effect) : bool :=
  match e with LogWarning _ => true | _ => false end.

Definition slept (e : effect) : Z :=
  match e with Sleep s => s | _ => 0 end.

(** The seconds slept in a trace. *)
Definition total_sleep (trace : list effect) : Z := foldr Z.add 0 (slept <$> trace).

(** The number of calls of the profiler's [start] in a trace. *)
Definition starts (trace : list effect) : nat := length (List.filter is_start trace).

(** The index of the first of the first [n] attempts that succeeds. *)
Fixpoint first_success (start : nat -> option string) (from n : nat) : option nat :=
  match n with
  | O => None
  | S n' => match start from with
            | None => Some from
            | Some _ => first_success start (S from) n'
            end
  end.

(** ** Tactics *)

(** Membership of a literal in a literal list of strings, and its
    negation. *)
Ltac in_strings :=
  rewrite list_elem_of_In; cbn [In]; repeat first [left; reflexivity | right].
Ltac not_in_strings :=
  let H := fresh in
  intros H; apply list_elem_of_In in H; cbn [In] in H;
  repeat (destruct H as [H|H]; [discriminate H|]); exact H.

(** Case analysis on the tests of a conditional definition. *)
Ltac split_ifs :=
  repeat match goal with
    | |- context [if ?b then _ else _] => destruct b
    | |- context [match ?o with Some _ => _ | None => _ end] => destruct o
    end.

(** The ten cases of a digit. *)
Ltac each_digit H :=
  let H' := fresh in
  match type of H with
  | 0 <= ?d <= 9 =>
      assert (d = 0 \/ d = 1 \/ d = 2 \/ d = 3 \/ d = 4
              \/ d = 5 \/ d = 6 \/ d = 7 \/ d = 8 \/ d = 9) as H' by lia;
      clear H; repeat (destruct H' as [H'|H']); subst
  end.

(** * Properties *)

#[local] Open Scope list_scope.

(** ** The builtins on examples *)

Example strip_ex : PyStr.strip "  SCORE:0.3 " = "SCORE:0.3"%string.
Proof. reflexivity. Qed.

Example split_ex :
PyStr.split "|" "SCORE:0.3|REASON:ok|x" = ["SCORE:0.3"; "REASON:ok"; "x"]%string.
Proof. reflexivity. Qed.

Example replace_ex : PyStr.replace "SCORE:" "" "SCORE:0.3" = "0.3"%string.
Proof. reflexivity. Qed.

Example re_sub_ex : PyStr.re_sub_nondigits "4532-0151 1283" = "453201511283"%string.
Proof. reflexivity. Qed.

Example str_of_Z_ex : PyStr.str_of_Z 15000 = "15000"%string /\ PyStr.str_of_Z 0 = "0"%string.
Proof. split; reflexivity. Qed.

Section PyFloatExamples.
#[local] Open Scope float_scope.
#[local] Open Scope string_scope.

Example py_float_ex1 : PyFloat.py_float "0.3" = Some 0.3.
Proof. vm_compute. reflexivity. Qed.
Example py_float_ex2 : PyFloat.py_float " 9999.99 " = Some 9999.99.
Proof. vm_compute. reflexivity. Qed.
Example py_float_ex3 : PyFloat.py_float "1e23" = Some 1e23.
Proof. vm_compute. reflexivity. Qed.
Example py_float_ex4 : PyFloat.py_float "-2.2250738585072014e-308" = Some (-2.2250738585072014e-308).
Proof. vm_compute. reflexivity. Qed.
Example py_float_ex5 : PyFloat.py_float "5e-324" = Some 5e-324.
Proof. vm_compute. reflexivity. Qed.
Example py_float_ex6 : PyFloat.py_float "1e400" = Some infinity.
Proof. vm_compute. reflexivity. Qed.
Example py_float_ex7 : PyFloat.py_float "1_0.5E+1" = Some 105.
Proof. vm_compute. reflexivity. Qed.
Example py_float_ex8 :
  PyFloat.py_float "high" = None /\ PyFloat.py_float "" = None
  /\ PyFloat.py_float "0.X" = None /\ PyFloat.py_float "1e" = None
  /\ PyFloat.py_float "." = None /\ PyFloat.py_float "1__0" = None.
Proof. vm_compute. repeat split. Qed.
Example py_float_ex9 :
  PyFloat.py_float "NaN" = Some nan /\ PyFloat.py_float "-Infinity" = Some neg_infinity
  /\ PyFloat.py_float "5." = Some 5 /\ PyFloat.py_float ".5" = Some 0.5.
Proof. vm_compute. repeat split. Qed.
Example py_float_ex10 : PyFloat.py_float "0.1000000000000000055511151231257827021181583404541015625" = Some 0.1
  /\ PyFloat.py_float "9007199254740993" = Some 9007199254740992
  /\ PyFloat.py_float "9007199254740995" = Some 9007199254740996
  /\ PyFloat.py_float "1.7976931348623159e308" = Some infinity
  /\ PyFloat.py_float "1.7976931348623158e308" = Some 1.7976931348623157e308
  /\ PyFloat.py_float "2.4703282292062327e-324" = Some 0
  /\ PyFloat.py_float "2.4703282292062328e-324" = Some 5e-324.
Proof. vm_compute. repeat split. Qed.

Example format_2f_ex :
  PyFloat.format_2f 15000 = "15000.00" /\ PyFloat.format_2f 9999.99 = "9999.99"
  /\ PyFloat.format_2f 0.125 = "0.12" /\ PyFloat.format_2f 0.375 = "0.38"
  /\ PyFloat.format_2f (-0.001) = "-0.00" /\ PyFloat.format_2f 2.675 = "2.67"
  /\ PyFloat.format_2f nan = "nan" /\ PyFloat.format_2f 55000 = "55000.00"
  /\ PyFloat.format_2f 1e22 = "10000000000000000000000.00"
  /\ PyFloat.format_2f 0.995 = "0.99" /\ PyFloat.format_2f 1.005 = "1.00".
Proof. vm_compute. repeat split. Qed.

Example of_int_ex :
  PyFloat.of_int 15000 = Some 15000 /\ PyFloat.of_int (-3) = Some (-3)
  /\ PyFloat.of_int 0 = Some 0 /\ PyFloat.of_int (2 ^ 1024) = None
  /\ PyFloat.of_int 9007199254740993 = Some 9007199254740992.
Proof. vm_compute. repeat split. Qed.

Example py_min_max_nan :
  PyFloat.is_nan (PyFloat.py_min (PyFloat.py_max nan 0) 1) = true
  /\ PyFloat.py_min (PyFloat.py_max 7 0) 1 = 1
  /\ PyFloat.py_min (PyFloat.py_max (-7) 0) 1 = 0.
Proof. vm_compute. repeat split. Qed.
End PyFloatExamples.

(** ** Card validation: the Luhn loop *)

Section Luhn.

Lemma range_down2_neg z : z < 0 -> range_down2 z = [].
Proof.
  intros Hz. unfold range_down2.
  replace (Z.to_nat ((z + 2) / 2)) with 0%nat; [done|].
  assert ((z + 2) / 2 < 1) by (apply Z.div_lt_upper_bound; lia). lia.
Qed.

Lemma range_down2_cons (m : nat) :
  range_down2 (Z.of_nat m) = m :: range_down2 (Z.of_nat m - 2).
Proof.
  unfold range_down2.
  replace (Z.to_nat ((Z.of_nat m + 2) / 2)) with (S (Z.to_nat ((Z.of_nat m - 2 + 2) / 2))).
  2:{ replace (Z.of_nat m + 2) with ((Z.of_nat m - 2 + 2) + 1 * 2) by lia.
      rewrite Z.div_add by lia.
      assert (0 <= (Z.of_nat m - 2 + 2) / 2) by (apply Z.div_pos; lia). lia. }
  cbn [seq fmap list_fmap]. f_equal; [lia|].
  rewrite <- fmap_S_seq, <- list_fmap_compose.
  apply list_fmap_ext. intros _ k _. cbn. lia.
Qed.

Lemma range_down2_bound z : Forall (fun i => Z.of_nat i <= z) (range_down2 z).
Proof.
  unfold range_down2. apply Forall_fmap, Forall_forall. intros k Hk.
  apply elem_of_seq in Hk. cbn.
  destruct (Z.le_gt_cases 0 (z - 2 * Z.of_nat k)); [lia|].
  assert ((z + 2) / 2 < Z.of_nat k + 1); [|lia].
  apply Z.div_lt_upper_bound; lia.
Qed.

Example range_down2_16 : range_down2 (16 - 2) = [14; 12; 10; 8; 6; 4; 2; 0]%nat.
Proof. reflexivity. Qed.

Example range_down2_13 : range_down2 (13 - 2) = [11; 9; 7; 5; 3; 1]%nat.
Proof. reflexivity. Qed.

Lemma luhn_step_length digits i : length (luhn_step digits i) = length digits.
Proof. unfold luhn_step. destruct (digits !! i); [apply length_insert | done]. Qed.

Lemma luhn_step_app l t i :
  (i < length l)%nat -> luhn_step (l ++ t) i = luhn_step l i ++ t.
Proof.
  intros Hi. unfold luhn_step. rewrite lookup_app_l by done.
  destruct (l !! i) as [d|] eqn:E; [|done].
  by rewrite insert_app_l.
Qed.

(** Steps at indices inside a prefix leave the rest of the list alone. *)
Lemma luhn_loop_app idxs : forall l t,
  Forall (fun i => (i < length l)%nat) idxs ->
  foldl luhn_step (l ++ t) idxs = foldl luhn_step l idxs ++ t.
Proof.
  induction idxs as [|i idxs IH]; intros l t Hall; [done|].
  inversion Hall as [|? ? Hi Hrest]; subst. cbn.
  rewrite luhn_step_app by done. apply IH.
  by rewrite luhn_step_length.
Qed.

Lemma luhn_step_last l a b :
  luhn_step (l ++ [a; b]) (length l) = l ++ [luhn_double a; b].
Proof.
  unfold luhn_step. rewrite list_lookup_middle by done.
  rewrite insert_app_r_alt by lia. by rewrite Nat.sub_diag.
Qed.

(** Induction on a list two elements at a time, from its end. *)
Lemma list_two_step_ind {A} (P : list A -> Prop) :
  P [] -> (forall a, P [a]) -> (forall l a b, P l -> P (l ++ [a; b])) ->
  forall l, P l.
Proof.
  intros H0 H1 H2 l.
  assert (forall n l, (length l <= n)%nat -> P l) as Hn; [|by eapply Hn].
  clear l. induction n as [|n IH]; intros l Hl.
  - destruct l; [done | cbn in Hl; lia].
  - destruct l as [|x l] using rev_ind; [done|].
    destruct l as [|y l _] using rev_ind; [apply H1|].
    rewrite <- app_assoc. cbn. apply H2, IH.
    rewrite !length_app in Hl. cbn in Hl. lia.
Qed.

(** The loop of [luhn_check] doubles every second digit from the right. *)
Lemma luhn_loop_from_right digits :
  foldl luhn_step digits (range_down2 (Z.of_nat (length digits) - 2))
  = rev (luhn_from_right false (rev digits)).
Proof.
  induction digits as [|a|l a b IH] using list_two_step_ind.
  - done.
  - done.
  - rewrite length_app. cbn [length].
    replace (Z.of_nat (length l + 2) - 2) with (Z.of_nat (length l)) by lia.
    rewrite range_down2_cons. cbn [foldl]. rewrite luhn_step_last.
    rewrite luhn_loop_app.
    + rewrite IH, rev_app_distr. cbn. by rewrite <- app_assoc.
    + eapply Forall_impl; [apply range_down2_bound|]. cbn. lia.
Qed.

Lemma foldr_add_acc a l : foldr Z.add a l = a + foldr Z.add 0 l.
Proof. induction l as [|x l IH]; cbn; [lia|]. rewrite IH. lia. Qed.

Lemma py_sum_int_foldr l : py_sum_int l = foldr Z.add 0 l.
Proof.
  unfold py_sum_int.
  assert (forall a, foldl Z.add a l = a + foldr Z.add 0 l) as H; [|by rewrite H].
  induction l as [|x l IH]; intros a; cbn; [lia|]. rewrite IH. lia.
Qed.

Lemma foldr_add_rev l : foldr Z.add 0 (rev l) = foldr Z.add 0 l.
Proof.
  induction l as [|x l IH]; [done|]. cbn. rewrite foldr_app. cbn.
  rewrite foldr_add_acc, IH. lia.
Qed.

(** The inner function of the source computes the standard checksum. *)
Lemma luhn_check_standard card_num : luhn_check card_num = luhn_standard card_num.
Proof.
  unfold luhn_check, luhn_standard. cbv zeta.
  by rewrite luhn_loop_from_right, py_sum_int_foldr, foldr_add_rev.
Qed.

End Luhn.

Example luhn_check_valid : luhn_check "4532015112830366" = true.
Proof. reflexivity. Qed.

Example luhn_check_invalid : luhn_check "1234567890123456" = false.
Proof. reflexivity. Qed.

Example luhn_check_one_digit_off : luhn_check "4532015112830367" = false.
Proof. reflexivity. Qed.

Lemma re_sub_nondigits_filter s :
  list_ascii_of_string (PyStr.re_sub_nondigits s)
  = List.filter PyStr.is_digit (list_ascii_of_string s).
Proof.
  induction s as [|c s IH]; [done|]. cbn.
  destruct (PyStr.is_digit c); cbn; by rewrite IH.
Qed.

(** C6: for every card number, validation strips the non-digit
    characters; when the length of what is left is outside [13, 19] it
    fails on the number, and otherwise the number check is passed if and
    only if the digits satisfy the standard Luhn checksum (every second
    digit from the rightmost doubled, 9 subtracted from a doubled value
    above 9, the sum a multiple of 10). *)
Theorem C6_number_check_is_luhn (now : datetime) (cc : CreditCardInfo) :
  let digits := PyStr.re_sub_nondigits (credit_card_number cc) in
  let len := Z.of_nat (String.length digits) in
  list_ascii_of_string digits
    = List.filter PyStr.is_digit (list_ascii_of_string (credit_card_number cc))
  /\ (len < 13 \/ 19 < len ->
      fst (_validate_credit_card now (Some cc)) = false
      /\ snd (_validate_credit_card now (Some cc)) ∈ number_failures)
  /\ (13 <= len <= 19 ->
      (snd (_validate_credit_card now (Some cc)) ∉ number_failures
       <-> luhn_standard digits = true)).
Proof.
  cbv zeta. split; [apply re_sub_nondigits_filter|]. split.
  - intros Hlen. unfold _validate_credit_card, number_failures.
    destruct (String.eqb _ ""); [cbn; split; [done | in_strings]|].
    replace (_ || _) with true; [cbn; split; [done | in_strings]|].
    symmetry. apply orb_true_iff. lia.
  - intros Hlen. unfold _validate_credit_card, number_failures.
    destruct (String.eqb_spec (credit_card_number cc) "") as [Heq|_].
    { rewrite Heq in Hlen. cbn in Hlen. lia. }
    replace (_ || _) with false by (symmetry; apply orb_false_iff; lia).
    rewrite luhn_check_standard.
    destruct (luhn_standard _); cbn [negb].
    + split; [done|]. intros _. split_ifs; cbn [snd]; not_in_strings.
    + cbn [snd]. split; [|done]. intros H. exfalso. apply H. in_strings.
Qed.

(** ** Card validation: expiry *)

(** Once the number is accepted, the answer is that of the expiry test. *)
Lemma validate_after_number now cc :
  number_passes cc ->
  _validate_credit_card now (Some cc) =
  match expiration cc with
  | Some exp_date =>
      if datetime_lt exp_date now then (false, "Credit card expired") else (true, "Valid")
  | None =>
      if (credit_card_expiration_month cc <? 1) || (12 <? credit_card_expiration_month cc)
      then (false, "Invalid expiration month")
      else (false, "Invalid expiration date")
  end.
Proof.
  intros (Hne & Hlen & Hluhn). cbv zeta in Hlen, Hluhn.
  unfold _validate_credit_card, expiration.
  destruct (String.eqb_spec (credit_card_number cc) "") as [Heq|_]; [done|].
  replace ((_ <? 13) || _) with false by (symmetry; apply orb_false_iff; lia).
  rewrite Hluhn. cbn [negb].
  destruct ((_ <? 1) || _); [done|].
  by destruct (datetime_first_of_month _ _).
Qed.

(** The first moment of a later month is not before [now]. *)
Lemma later_month_not_before now y m :
  year now < y \/ (year now = y /\ month now < m) ->
  datetime_lt {| year := y; month := m; day := 1;
                 hour := 0; minute := 0; second := 0; microsecond := 0 |} now = false.
Proof.
  intros H. unfold datetime_lt, datetime_fields. cbn [lex_lt year month].
  destruct H as [H | [H1 H2]].
  - replace (y <? year now) with false by lia.
    replace (y =? year now) with false by lia. done.
  - replace (y <? year now) with false by lia.
    replace (m <? month now) with false by lia.
    replace (m =? month now) with false by lia.
    cbn. by rewrite andb_false_r.
Qed.

(** C5 (as amended): for every card passing the Luhn and length checks,
    validation succeeds exactly when the expiration instant (the first
    moment of the given month and year) exists and is not before the
    current time, which is the case whenever the card expires in a month
    after the current one; it fails with a reason containing "expired",
    namely "Credit card expired", exactly when that instant is strictly
    in the past. *)
Theorem C5_expiry_first_moment (now : datetime) (cc : CreditCardInfo) :
  number_passes cc ->
  (_validate_credit_card now (Some cc) = (true, "Valid")
   <-> exists exp_date, expiration cc = Some exp_date /\ datetime_lt exp_date now = false)
  /\ (PyStr.contains "expired" (snd (_validate_credit_card now (Some cc))) = true
      <-> exists exp_date, expiration cc = Some exp_date /\ datetime_lt exp_date now = true)
  /\ (PyStr.contains "expired" (snd (_validate_credit_card now (Some cc))) = true
      -> _validate_credit_card now (Some cc) = (false, "Credit card expired"))
  /\ (expires_in_later_month now cc ->
      1 <= year now -> credit_card_expiration_year cc <= 9999 ->
      1 <= credit_card_expiration_month cc <= 12 ->
      _validate_credit_card now (Some cc) = (true, "Valid")).
Proof.
  intros Hnum. rewrite (validate_after_number now cc Hnum).
  repeat split.
  - destruct (expiration cc) as [e|]; [|by split_ifs].
    destruct (datetime_lt e now) eqn:E; [done|]. eauto.
  - intros (e & -> & ->). done.
  - destruct (expiration cc) as [e|]; [|by split_ifs].
    destruct (datetime_lt e now) eqn:E; [eauto | done].
  - intros (e & -> & ->). done.
  - destruct (expiration cc) as [e|]; [|by split_ifs].
    by destruct (datetime_lt e now).
  - intros Hlater Hy1 Hy2 Hm. unfold expiration, datetime_first_of_month.
    replace ((_ <? 1) || _) with false by (symmetry; apply orb_false_iff; lia).
    replace ((1 <=? _) && _) with true.
    2:{ symmetry. apply andb_true_iff. unfold expires_in_later_month in Hlater. lia. }
    by rewrite later_month_not_before.
Qed.

(** On 15 June 2025 the card of the tests, expiring in December 2025,
    is valid. *)
Lemma C5_expiry_first_moment_witness :
  number_passes (card_4532 12 2025)
  /\ _validate_credit_card (at_noon 2025 6 15) (Some (card_4532 12 2025)) = (true, "Valid").
Proof.
  assert (number_passes (card_4532 12 2025)) as Hnum.
  { split; [discriminate|]. split; [vm_compute; split; discriminate | reflexivity]. }
  split; [exact Hnum|].
  destruct (C5_expiry_first_moment (at_noon 2025 6 15) (card_4532 12 2025) Hnum)
    as (_ & _ & _ & Hlater).
  apply Hlater; [right | | |]; cbn; lia.
Defined.

(** The claim as first stated fails: on 4 November 2026 a card expiring
    in November 2026 passes the number checks and expires in the
    current month, and is refused as expired. *)
Lemma C5_current_month_refused :
  number_passes (card_4532 11 2026)
  /\ expires_this_month_or_later (at_noon 2026 11 4) (card_4532 11 2026)
  /\ _validate_credit_card (at_noon 2026 11 4) (Some (card_4532 11 2026))
     = (false, "Credit card expired").
Proof.
  split; [|split].
  - split; [discriminate|]. split; [vm_compute; split; discriminate | reflexivity].
  - right. cbn. lia.
  - reflexivity.
Qed.

Example expired_2020 :
  _validate_credit_card (at_noon 2025 6 15) (Some (card_4532 1 2020))
  = (false, "Credit card expired").
Proof. reflexivity. Qed.

Example expiry_malformed :
  _validate_credit_card (at_noon 2025 6 15) (Some (card_4532 13 2030))
  = (false, "Invalid expiration month")
  /\ _validate_credit_card (at_noon 2025 6 15) (Some (card_4532 12 0))
     = (false, "Invalid expiration date").
Proof. split; reflexivity. Qed.

(** ** Amount heuristics *)

(** C7 (as amended): for every amount, the amount heuristic answers
    suspicious with reason "Invalid amount" when the amount is
    non-positive; otherwise suspicious with reason "Amount too high: $"
    followed by the amount with two decimals when the amount is strictly
    greater than the ceiling (10,000 by default); otherwise suspicious
    with reason "Suspicious amount pattern: $" followed by the amount
    exactly when the amount equals one of 9999.99, 5000.00, 1000.00; and
    not suspicious, with reason "Amount check passed", in every other
    case. *)
Theorem C7_amount_heuristic (self : service) (amount : float) :
  let answer := _check_amount_fraud self amount in
  let literal :=
    (amount =? 9999.99)%float || (amount =? 5000.00)%float || (amount =? 1000.00)%float in
  (forall model, max_amount_threshold (init model) = 10000%float)
  /\ ((amount <=? 0)%float = true -> answer = (true, "Invalid amount"))
  /\ ((amount <=? 0)%float = false ->
      (max_amount_threshold self <? amount)%float = true ->
      answer = (true, "Amount too high: $" +:+ PyFloat.format_2f amount))
  /\ ((amount <=? 0)%float = false ->
      (max_amount_threshold self <? amount)%float = false ->
      (fst answer = literal)
      /\ (literal = true ->
          answer = (true, "Suspicious amount pattern: $" +:+ PyFloat.format_2f amount))
      /\ (literal = false -> answer = (false, "Amount check passed"))).
Proof.
  cbv zeta. unfold _check_amount_fraud. cbn [existsb].
  rewrite orb_false_r, orb_assoc.
  split; [done|]. split; [by intros ->|]. split; [by intros -> ->|].
  intros -> ->.
  destruct ((amount =? _)%float || _ || _); done.
Qed.

(** The claim as first stated fails on the reason texts: the answers to
    -1 and to 15000 are not the lower-case labels. *)
Lemma C7_reason_texts_differ :
  ((-1) <=? 0)%float = true
  /\ _check_amount_fraud (init None) (-1)%float <> (true, "invalid amount")
  /\ (max_amount_threshold (init None) <? 15000)%float = true
  /\ _check_amount_fraud (init None) 15000%float <> (true, "amount too high").
Proof. vm_compute. repeat split; discriminate. Qed.

Example amount_examples :
  _check_amount_fraud (init None) (-100)%float = (true, "Invalid amount")
  /\ _check_amount_fraud (init None) 15000%float = (true, "Amount too high: $15000.00")
  /\ _check_amount_fraud (init None) 9999.99%float
     = (true, "Suspicious amount pattern: $9999.99")
  /\ _check_amount_fraud (init None) 99.99%float = (false, "Amount check passed")
  /\ _check_amount_fraud (init None) 10000%float = (false, "Amount check passed")
  /\ _check_amount_fraud (init None) nan = (false, "Amount check passed").
Proof. vm_compute. repeat split. Qed.

(** ** The velocity check and the history *)

Lemma history_of_set self h u : history_of (set_history self h) u = default [] (h !! u).
Proof. done. Qed.

Lemma history_of_pruned t u self :
  history_of (pruned t u self) u = last_minute t (history_of self u).
Proof. unfold pruned. by rewrite history_of_set, lookup_insert_eq. Qed.

Lemma history_of_pruned_ne t u u' self :
  u <> u' -> history_of (pruned t u self) u' = history_of self u'.
Proof. intros. unfold pruned. by rewrite history_of_set, lookup_insert_ne. Qed.

Lemma history_of_recorded ev u self :
  history_of (recorded ev u self) u = history_of self u ++ [ev].
Proof. unfold recorded. by rewrite history_of_set, lookup_insert_eq. Qed.

Lemma history_of_recorded_ne ev u u' self :
  u <> u' -> history_of (recorded ev u self) u' = history_of self u'.
Proof. intros. unfold recorded. by rewrite history_of_set, lookup_insert_ne. Qed.

(** Pruning only removes events. *)
Lemma last_minute_sublist t l : sublist (last_minute t l) l.
Proof.
  unfold last_minute. induction l as [|[ts amt] l IH]; cbn; [constructor|].
  destruct (PrimFloat.ltb _ _); by constructor.
Qed.

Lemma pruned_sublist t u u' self :
  sublist (history_of (pruned t u self) u') (history_of self u').
Proof.
  destruct (decide (u = u')) as [<-|Hne].
  - rewrite history_of_pruned. apply last_minute_sublist.
  - by rewrite history_of_pruned_ne.
Qed.

(** The velocity check always returns; it leaves the pruned list of the
    user in the service and answers from that list alone. *)
Lemma velocity_run t u a self :
  _check_velocity_fraud t u a self
  = (pruned t u self,
     Return (velocity_verdict self (last_minute t (history_of self u)) t a)).
Proof.
  unfold _check_velocity_fraud, mbind, M_bind, get_self, put_history, mret, M_ret.
  cbn -[last_minute after_cutoff PyFloat.format_2f PyStr.str_of_Z].
  fold (pruned t u self). rewrite history_of_pruned.
  unfold velocity_verdict. cbv zeta.
  split_ifs; reflexivity.
Qed.

(** C1: at the input of the repository's own daily-limit test (one
    event of 40000 recorded at second 500, a check at second 1000
    proposing 15000) the event is inside the 24-hour window and the
    24-hour sum, 55000, exceeds the limit of 50000; the code has pruned
    the event with the 60-second filter before summing, answers "not
    suspicious" and leaves the user's list empty. *)
Theorem C1_prune_drops_daily_event :
  let self := with_history "test-user" [(500.0, 40000.0)%float] in
  let answer := _check_velocity_fraud 1000.0 "test-user" 15000.0 self in
  after_cutoff (1000.0 - 86400) (history_of self "test-user") = [40000.0%float]
  /\ daily_spending_24h (history_of self "test-user") 1000.0 15000.0 = 55000.0%float
  /\ (daily_limit self <? 55000.0)%float = true
  /\ snd answer = Return (false, "Velocity check passed")
  /\ history_of (fst answer) "test-user" = [].
Proof. vm_compute. repeat split. Qed.

Example velocity_daily_limit_within_minute :
  snd (_check_velocity_fraud 1000.0 "test-user" 15000.0
         (with_history "test-user" [(990.0, 40000.0)%float]))
  = Return (true, "Daily spending limit exceeded: $55000.00").
Proof. vm_compute. reflexivity. Qed.

Example velocity_too_many :
  snd (_check_velocity_fraud 1000.0 "test-user" 10.0
         (with_history "test-user" (replicate 6 (999.0, 10.0)%float)))
  = Return (true, "Too many transactions: 6 in last minute").
Proof. vm_compute. reflexivity. Qed.

Example velocity_fresh_user :
  snd (_check_velocity_fraud 1000.0 "test-user" 100.0 (init None))
  = Return (false, "Velocity check passed").
Proof. vm_compute. reflexivity. Qed.

(** ** The [try] block of [CheckFraud] *)

(** Reading the amount does not touch the service. *)
Lemma request_amount_state request self self' r :
  request_amount request self = (self', r) -> self' = self.
Proof.
  unfold request_amount, getattr, int_to_float, raise, mbind, M_bind, mret, M_ret.
  destruct (demo_pb2.amount request) as [money|]; [|by intros [= <- _]].
  destruct (PyFloat.of_int (nanos money)); [|by intros [= <- _]].
  destruct (PyFloat.of_int (units money)); by intros [= <- _].
Qed.

Lemma request_amount_money request self amt :
  request_amount request self = (self, Return amt) ->
  exists money, demo_pb2.amount request = Some money.
Proof.
  unfold request_amount, getattr, raise, mbind, M_bind.
  destruct (demo_pb2.amount request); [eauto | discriminate].
Qed.

(** The [try] block, statement by statement: it raises when the amount
    cannot be read (nothing has been touched yet) or when the card is
    [None] (the velocity check has pruned by then); otherwise it
    returns the response of the checks and records the event when that
    response is not fraud. *)
Lemma CheckFraud_try_run clk request self :
  CheckFraud_try clk request self =
  match request_amount request self with
  | (_, Raise e) => (self, Raise e)
  | (_, Return amt) =>
      let uid := default "anonymous" (demo_pb2.user_id request) in
      let self1 := pruned (time_velocity clk) uid self in
      let kept := last_minute (time_velocity clk) (history_of self uid) in
      match demo_pb2.credit_card request, demo_pb2.amount request with
      | Some card, Some money =>
          let response :=
            response_of (_validate_credit_card (now_validate clk) (Some card))
              (_check_amount_fraud self amt)
              (velocity_verdict self kept (time_velocity clk) amt)
              (_get_ai_fraud_assessment self1
                 (snapshot clk amt (currency_code money) card kept)) in
          (if is_fraud response then self1
           else recorded (time_record clk, amt) uid self1, Return response)
      | _, _ =>
          (self1,
           Raise (AttributeError "'NoneType' object has no attribute 'credit_card_number'"))
      end
  end.
Proof.
  destruct (request_amount request self) as [self0 [amt|e]] eqn:Hamt;
    pose proof (request_amount_state _ _ _ _ Hamt) as ->.
  2:{ unfold CheckFraud_try, mbind, M_bind. by rewrite Hamt. }
  destruct (request_amount_money _ _ _ Hamt) as [money Hm].
  unfold CheckFraud_try, mbind, M_bind. rewrite Hamt, Hm.
  unfold getattr, raise, get_self, put_history, mret, M_ret.
  set (uid := default "anonymous" (demo_pb2.user_id request)).
  set (kept := last_minute (time_velocity clk) (history_of self uid)).
  unfold response_of.
  destruct (demo_pb2.credit_card request) as [card|].
  2:{ destruct (_validate_credit_card _ _).
      cbv beta iota zeta. destruct (_check_amount_fraud _ _).
      rewrite velocity_run. by destruct (velocity_verdict _ _ _ _). }
  destruct (_validate_credit_card _ _) as [is_valid card_message].
  cbv beta iota zeta.
  destruct (_check_amount_fraud _ _) as [is_amount_fraud amount_message].
  rewrite velocity_run. fold kept.
  destruct (velocity_verdict _ _ _ _) as [is_velocity_fraud velocity_message].
  rewrite history_of_pruned. fold kept.
  fold (snapshot clk amt (currency_code money) card kept).
  destruct (_get_ai_fraud_assessment _ _) as [ai_score ai_reason].
  destruct is_valid, is_amount_fraud, is_velocity_fraud;
    cbn [fst snd negb app length Nat.ltb Nat.leb orb is_fraud];
    rewrite ?orb_true_r; cbn [negb]; try reflexivity.
  all: unfold recorded; rewrite ?history_of_pruned, orb_false_r;
    destruct (PrimFloat.ltb _ _); reflexivity.
Qed.

(** What a normal return of the [try] block tells. *)
Lemma CheckFraud_try_returns clk request self self' response :
  CheckFraud_try clk request self = (self', Return response) ->
  exists amt money card,
    let uid := default "anonymous" (demo_pb2.user_id request) in
    let self1 := pruned (time_velocity clk) uid self in
    let kept := last_minute (time_velocity clk) (history_of self uid) in
    request_amount request self = (self, Return amt)
    /\ demo_pb2.amount request = Some money
    /\ demo_pb2.credit_card request = Some card
    /\ response =
         response_of (_validate_credit_card (now_validate clk) (Some card))
           (_check_amount_fraud self amt)
           (velocity_verdict self kept (time_velocity clk) amt)
           (_get_ai_fraud_assessment self1
              (snapshot clk amt (currency_code money) card kept))
    /\ self' = if is_fraud response then self1
               else recorded (time_record clk, amt) uid self1.
Proof.
  rewrite CheckFraud_try_run.
  destruct (request_amount request self) as [self0 [amt|e]] eqn:Hamt; [|discriminate].
  pose proof (request_amount_state _ _ _ _ Hamt) as ->.
  cbv zeta.
  destruct (demo_pb2.credit_card request) as [card|]; [|discriminate].
  destruct (demo_pb2.amount request) as [money|]; [|discriminate].
  intros [= <- <-]. by exists amt, money, card.
Qed.

(** What a raise of the [try] block tells: the service is untouched or
    pruned. *)
Lemma CheckFraud_try_raises clk request self self' e :
  CheckFraud_try clk request self = (self', Raise e) ->
  self' = self
  \/ self' = pruned (time_velocity clk) (default "anonymous" (demo_pb2.user_id request)) self.
Proof.
  rewrite CheckFraud_try_run.
  destruct (request_amount request self) as [self0 [amt|e0]] eqn:Hamt;
    [|intros [= <- _]; by left].
  cbv zeta.
  destruct (demo_pb2.credit_card request) as [card|]; [|intros [= <- _]; by right].
  destruct (demo_pb2.amount request) as [money|]; [|intros [= <- _]; by right].
  discriminate.
Qed.

(** C2 (as amended): for every input on which the [try] block raises,
    the operation returns exactly the response
    [{is_fraud: true, risk_score: 1.0,
      reason: "System error - transaction blocked for safety"}]
    (the reason with a capital S), and no event is added to any user's
    history by that call: every history is a sublist of what it was. *)
Theorem C2_fail_closed (self : service) (clk : clock) (request : FraudCheckRequest)
  (ctx : context) (self' : service) (e : exn) :
  CheckFraud_try clk request self = (self', Raise e) ->
  CheckFraud self clk request ctx
  = (self',
     {| code := Some INTERNAL;
        details := Some ("Fraud detection error: " +:+ exn_str e) |},
     {| is_fraud := true;
        risk_score := 1.0;
        reason := "System error - transaction blocked for safety" |})
  /\ forall u, sublist (history_of self' u) (history_of self u).
Proof.
  intros Htry. split; [unfold CheckFraud; by rewrite Htry|].
  intros u. destruct (CheckFraud_try_raises _ _ _ _ _ Htry) as [-> | ->];
    [done | apply pruned_sublist].
Qed.

(** A request without a card, for a user with one event of 40000 at
    second 500: the velocity check has pruned when the card is read. *)
Lemma C2_fail_closed_witness :
  let self := with_history "test-user" [(500.0, 40000.0)%float] in
  let request :=
    {| amount := Some (usd 100 0); credit_card := None; user_id := Some "test-user" |} in
  let e := AttributeError "'NoneType' object has no attribute 'credit_card_number'" in
  CheckFraud_try clock_2025 request self = (pruned 1000.0 "test-user" self, Raise e)
  /\ snd (CheckFraud self clock_2025 request fresh_context)
     = {| is_fraud := true; risk_score := 1.0;
          reason := "System error - transaction blocked for safety" |}
  /\ history_of (fst (fst (CheckFraud self clock_2025 request fresh_context))) "test-user"
     = [].
Proof.
  cbv zeta.
  assert (CheckFraud_try clock_2025
            {| amount := Some (usd 100 0); credit_card := None;
               user_id := Some "test-user" |}
            (with_history "test-user" [(500.0, 40000.0)%float])
          = (pruned 1000.0 "test-user" (with_history "test-user" [(500.0, 40000.0)%float]),
             Raise (AttributeError
                      "'NoneType' object has no attribute 'credit_card_number'")))
    as Htry by (vm_compute; reflexivity).
  split; [exact Htry|].
  destruct (C2_fail_closed _ _ _ fresh_context _ _ Htry) as [-> _].
  split; [reflexivity | vm_compute; reflexivity].
Defined.

(** The claim as first stated fails on the reason: a request without an
    amount makes the [try] block raise, and the response is not the one
    with the lower-case reason. *)
Lemma C2_reason_is_capitalised :
  let request := {| amount := None; credit_card := None; user_id := None |} in
  snd (CheckFraud_try clock_2025 request (init None))
  = Raise (AttributeError "'NoneType' object has no attribute 'units'")
  /\ snd (CheckFraud (init None) clock_2025 request fresh_context)
     <> {| is_fraud := true; risk_score := 1.0;
           reason := "system error - transaction blocked for safety" |}.
Proof. vm_compute. split; [reflexivity | discriminate]. Qed.

Example amount_too_large_to_convert :
  snd (CheckFraud (init None) clock_2025
         (request_of (usd (2 ^ 1024) 0) (card_4532 12 2025) "test-user") fresh_context)
  = {| is_fraud := true; risk_score := 1.0;
       reason := "System error - transaction blocked for safety" |}.
Proof. vm_compute. reflexivity. Qed.

(** C3: for every evaluation that returns normally, the history of the
    transaction's user is the list the velocity check kept, followed by
    exactly one event (the time of recording and the amount) if the
    response is not fraud and by nothing if it is fraud; the histories
    of the other users are unchanged, and no history gains an event when
    the response is fraud. *)
Theorem C3_recorded_iff_not_fraud (self : service) (clk : clock)
  (request : FraudCheckRequest) (self' : service) (response : FraudCheckResponse) :
  CheckFraud_try clk request self = (self', Return response) ->
  exists amt,
    let uid := default "anonymous" (demo_pb2.user_id request) in
    let kept := last_minute (time_velocity clk) (history_of self uid) in
    request_amount request self = (self, Return amt)
    /\ sublist kept (history_of self uid)
    /\ history_of self' uid
       = kept ++ (if is_fraud response then [] else [(time_record clk, amt)])
    /\ (forall u, u <> uid -> history_of self' u = history_of self u)
    /\ (is_fraud response = false ->
        history_of self' uid = kept ++ [(time_record clk, amt)])
    /\ (is_fraud response = true ->
        forall u, sublist (history_of self' u) (history_of self u)).
Proof.
  intros Htry.
  destruct (CheckFraud_try_returns _ _ _ _ _ Htry)
    as (amt & money & card & Hamt & _ & _ & _ & Hself).
  cbv zeta in Hself. exists amt. cbv zeta.
  split; [done|]. split; [apply last_minute_sublist|].
  destruct (is_fraud response); subst self'.
  - rewrite history_of_pruned, app_nil_r. repeat split; try done.
    + intros u Hu. by rewrite history_of_pruned_ne.
    + intros _ u. apply pruned_sublist.
  - rewrite history_of_recorded, history_of_pruned. repeat split; try done.
    intros u Hu. by rewrite history_of_recorded_ne, history_of_pruned_ne.
Qed.

(** The accepted transaction of the tests (100 USD, valid card, a fresh
    user): one event is recorded. *)
Lemma C3_recorded_iff_not_fraud_witness :
  let self := init None in
  let request := request_of (usd 100 0) (card_4532 12 2025) "test-user" in
  let response :=
    {| is_fraud := false; risk_score := 0; reason := "AI assessment not available" |} in
  CheckFraud_try clock_2025 request self
  = (recorded (1000.5, 100)%float "test-user" (pruned 1000.0 "test-user" self),
     Return response)
  /\ history_of (fst (CheckFraud_try clock_2025 request self)) "test-user"
     = [(1000.5, 100)%float].
Proof.
  cbv zeta.
  assert (CheckFraud_try clock_2025
            (request_of (usd 100 0) (card_4532 12 2025) "test-user") (init None)
          = (recorded (1000.5, 100)%float "test-user"
               (pruned 1000.0 "test-user" (init None)),
             Return {| is_fraud := false; risk_score := 0;
                       reason := "AI assessment not available" |}))
    as Htry by (vm_compute; reflexivity).
  split; [exact Htry|].
  destruct (C3_recorded_iff_not_fraud _ _ _ _ _ Htry) as (amt & Hamt & _ & _ & _ & Hrec & _).
  assert (amt = 100%float) as -> by (vm_compute in Hamt; congruence).
  rewrite Htry. etransitivity; [apply Hrec; reflexivity|].
  vm_compute. reflexivity.
Defined.

Example rejected_not_recorded :
  let out :=
    CheckFraud (init None) clock_2025
      (request_of (usd 15000 0) (card_4532 12 2025) "test-user") fresh_context in
  snd out = {| is_fraud := true; risk_score := 0.6;
               reason := "Amount too high: $15000.00" |}
  /\ history_of (fst (fst out)) "test-user" = [].
Proof. vm_compute. split; reflexivity. Qed.

(** The reasons of the three checks are present exactly when one of
    them found something. *)
Lemma response_of_is_fraud card amt vel ai :
  is_fraud (response_of card amt vel ai)
  = (0.7 <? risk_score (response_of card amt vel ai))%float
    || (negb (fst card) || fst amt || fst vel).
Proof.
  unfold response_of. cbn [is_fraud risk_score]. f_equal.
  by destruct (fst card), (fst amt), (fst vel).
Qed.

(** C4: for every evaluation that returns normally, [is_fraud] equals
    (clamped score > 0.7) OR (the card, the amount or the velocity check
    produced a reason); so a single rule violation forces [is_fraud]
    whatever the assessor answered, and without any rule reason the
    response is fraud only when the clamped score is above 0.7. *)
Theorem C4_decision_rule (self : service) (clk : clock)
  (request : FraudCheckRequest) (self' : service) (response : FraudCheckResponse) :
  CheckFraud_try clk request self = (self', Return response) ->
  exists amt velocity,
    let uid := default "anonymous" (demo_pb2.user_id request) in
    let card_reason :=
      negb (fst (_validate_credit_card (now_validate clk) (demo_pb2.credit_card request))) in
    let amount_reason := fst (_check_amount_fraud self amt) in
    let velocity_reason := fst velocity in
    let rule := card_reason || amount_reason || velocity_reason in
    request_amount request self = (self, Return amt)
    /\ snd (_check_velocity_fraud (time_velocity clk) uid amt self) = Return velocity
    /\ is_fraud response = (0.7 <? risk_score response)%float || rule
    /\ (rule = true -> is_fraud response = true)
    /\ (rule = false -> is_fraud response = (0.7 <? risk_score response)%float).
Proof.
  intros Htry.
  destruct (CheckFraud_try_returns _ _ _ _ _ Htry)
    as (amt & money & card & Hamt & _ & Hcard & Hresp & _).
  cbv zeta in Hresp. exists amt. eexists. cbv zeta.
  rewrite velocity_run, Hcard. split; [done|]. split; [reflexivity|].
  rewrite Hresp, response_of_is_fraud. split; [done|].
  split; intros ->; [apply orb_true_r | apply orb_false_r].
Qed.

(** The invalid card of the tests: fraud, although no assessor spoke. *)
Lemma C4_decision_rule_witness :
  let request := request_of (usd 100 0)
                   {| credit_card_number := "1234567890123456"; credit_card_cvv := 0;
                      credit_card_expiration_year := 2025;
                      credit_card_expiration_month := 12 |} "test-user" in
  let response :=
    {| is_fraud := true; risk_score := 0.8; reason := "Invalid credit card number" |} in
  CheckFraud_try clock_2025 request (init None)
  = (pruned 1000.0 "test-user" (init None), Return response)
  /\ is_fraud response = true.
Proof.
  cbv zeta.
  assert (CheckFraud_try clock_2025
            (request_of (usd 100 0)
               {| credit_card_number := "1234567890123456"; credit_card_cvv := 0;
                  credit_card_expiration_year := 2025;
                  credit_card_expiration_month := 12 |} "test-user") (init None)
          = (pruned 1000.0 "test-user" (init None),
             Return {| is_fraud := true; risk_score := 0.8;
                       reason := "Invalid credit card number" |}))
    as Htry by (vm_compute; reflexivity).
  split; [exact Htry|].
  destruct (C4_decision_rule _ _ _ _ _ Htry) as (amt & vel & _ & _ & _ & Hrule & _).
  apply Hrule. vm_compute. reflexivity.
Defined.

(** ** The external assessor *)

Lemma assessment_absent self data :
  gemini_model self = None ->
  _get_ai_fraud_assessment self data = (0.0%float, "AI assessment not available").
Proof. unfold _get_ai_fraud_assessment. by intros ->. Qed.

Lemma assessment_raising self data model msg :
  gemini_model self = Some model -> model data = GenRaises msg ->
  _get_ai_fraud_assessment self data = (0.0%float, "AI assessment failed").
Proof.
  unfold _get_ai_fraud_assessment, ai_assessment_try. by intros -> ->.
Qed.

(** C9: without an assessor the contribution is (0.0, "AI assessment
    not available"); when its invocation raises, the contribution is
    (0.0, "AI assessment failed"); in both cases a request whose amount
    and card can be read is answered by the normal path: the [try]
    block returns the response built from the three checks with a zero
    contribution, and the context is left untouched. *)
Theorem C9_assessor_absent_or_failing (self : service) (clk : clock)
  (request : FraudCheckRequest) (ctx : context) (data : transaction_data) :
  (gemini_model self = None ->
   _get_ai_fraud_assessment self data = (0.0%float, "AI assessment not available"))
  /\ (forall model msg,
        gemini_model self = Some model -> model data = GenRaises msg ->
        _get_ai_fraud_assessment self data = (0.0%float, "AI assessment failed"))
  /\ (forall amt card,
        request_amount request self = (self, Return amt) ->
        demo_pb2.credit_card request = Some card ->
        gemini_model self = None
        \/ (exists model, gemini_model self = Some model
                          /\ forall d, exists msg, model d = GenRaises msg) ->
        exists self' ai_reason,
          let uid := default "anonymous" (demo_pb2.user_id request) in
          let response :=
            response_of (_validate_credit_card (now_validate clk) (Some card))
              (_check_amount_fraud self amt)
              (velocity_verdict self
                 (last_minute (time_velocity clk) (history_of self uid))
                 (time_velocity clk) amt)
              (0.0%float, ai_reason) in
          CheckFraud_try clk request self = (self', Return response)
          /\ CheckFraud self clk request ctx = (self', ctx, response)
          /\ (ai_reason = "AI assessment not available"
              \/ ai_reason = "AI assessment failed")).
Proof.
  split; [apply assessment_absent|]. split; [apply assessment_raising|].
  intros amt card Hamt Hcard Hmodel.
  destruct (request_amount_money _ _ _ Hamt) as [money Hm].
  pose proof (CheckFraud_try_run clk request self) as Hrun.
  rewrite Hamt, Hcard, Hm in Hrun. cbv zeta in Hrun.
  set (uid := default "anonymous" (demo_pb2.user_id request)) in *.
  set (self1 := pruned (time_velocity clk) uid self) in *.
  assert (exists ai_reason,
            (forall d, _get_ai_fraud_assessment self1 d = (0.0%float, ai_reason))
            /\ (ai_reason = "AI assessment not available"
                \/ ai_reason = "AI assessment failed")) as (ai_reason & Hai & Hor).
  { destruct Hmodel as [Hnone | (model & Hsome & Hraises)].
    - eexists. split; [|by left]. intros d. by apply assessment_absent.
    - eexists. split; [|by right]. intros d. destruct (Hraises d) as [msg Hmsg].
      by eapply assessment_raising. }
  rewrite Hai in Hrun.
  eexists. exists ai_reason. cbv zeta.
  split; [exact Hrun|]. split; [|exact Hor].
  unfold CheckFraud. by rewrite Hrun.
Qed.

Example assessor_raising_is_absorbed :
  let self := init (Some (fun _ => GenRaises "deadline exceeded")) in
  let out :=
    CheckFraud self clock_2025
      (request_of (usd 100 0) (card_4532 12 2025) "test-user") fresh_context in
  out.1.2 = fresh_context
  /\ out.2 = {| is_fraud := false; risk_score := 0; reason := "AI assessment failed" |}.
Proof. vm_compute. split; reflexivity. Qed.

(** C10: for every answer of the assessor from which no numeric score
    can be parsed (no "|" separator, or a score field that [float]
    refuses), the assessment is the fixed score 0.2 with reason "AI
    assessment completed", which is not the zero contribution of an
    absent or failing assessor. *)
Theorem C10_unparsed_answer (self : service) (data : transaction_data)
  (model : transaction_data -> generated) (text : string) :
  gemini_model self = Some model ->
  model data = GenText text ->
  PyStr.contains "|" (PyStr.strip text) = false
  \/ PyFloat.py_float (score_part_of text) = None ->
  _get_ai_fraud_assessment self data = (0.2%float, "AI assessment completed")
  /\ (0.2 =? 0.0)%float = false.
Proof.
  intros Hmodel Htext Hparse. split; [|reflexivity].
  unfold _get_ai_fraud_assessment, ai_assessment_try. rewrite Hmodel, Htext.
  destruct (PyStr.contains "|" (PyStr.strip text)) eqn:Hbar; [|done].
  destruct Hparse as [? | Hfloat]; [done|].
  unfold score_part_of in Hfloat. by rewrite Hfloat.
Qed.

(** An answer with a separator and a score field that is not a number. *)
Lemma C10_unparsed_answer_witness :
  PyFloat.py_float (score_part_of "SCORE:high|REASON:large amount") = None
  /\ _get_ai_fraud_assessment (answering "SCORE:high|REASON:large amount")
       (snapshot clock_2025 100 "USD" (card_4532 12 2025) [])
     = (0.2%float, "AI assessment completed").
Proof.
  assert (PyFloat.py_float (score_part_of "SCORE:high|REASON:large amount") = None)
    as Hfloat by (vm_compute; reflexivity).
  split; [exact Hfloat|].
  apply (C10_unparsed_answer (answering "SCORE:high|REASON:large amount")
           (snapshot clock_2025 100 "USD" (card_4532 12 2025) [])
           (fun _ => GenText "SCORE:high|REASON:large amount")
           "SCORE:high|REASON:large amount"); [reflexivity | reflexivity |].
  right. exact Hfloat.
Defined.

Example assessment_examples :
  _get_ai_fraud_assessment (answering "SCORE:0.3|REASON:Moderate risk transaction")
    (snapshot clock_2025 100 "USD" (card_4532 12 2025) [])
  = (0.3%float, "Moderate risk transaction")
  /\ _get_ai_fraud_assessment (answering "I cannot judge this transaction.")
       (snapshot clock_2025 100 "USD" (card_4532 12 2025) [])
     = (0.2%float, "AI assessment completed")
  /\ _get_ai_fraud_assessment (answering " SCORE: 7 | REASON: stolen card | sure ")
       (snapshot clock_2025 100 "USD" (card_4532 12 2025) [])
     = (1%float, "stolen card")
  /\ _get_ai_fraud_assessment (answering "SCORE:-inf|REASON:fine")
       (snapshot clock_2025 100 "USD" (card_4532 12 2025) [])
     = (0%float, "fine").
Proof. vm_compute. repeat split. Qed.

(** ** Floats: sign and order *)

Section FloatOrder.

Lemma shr_1_nonneg mrs : 0 <= shr_m mrs -> 0 <= shr_m (shr_1 mrs).
Proof.
  destruct mrs as [m r s]. cbn. destruct m as [|p|p]; [done| |lia].
  intros _. destruct p; cbn; lia.
Qed.

Lemma iter_pos_invariant {A} (f : A -> A) (P : A -> Prop) :
  (forall x, P x -> P (f x)) -> forall n x, P x -> P (SpecFloat.iter_pos f n x).
Proof.
  intros Hf. induction n as [n IH|n IH|]; intros x Hx; cbn; auto.
Qed.

Lemma shr_nonneg mrs e n : 0 <= shr_m mrs -> 0 <= shr_m (fst (shr mrs e n)).
Proof.
  intros H. unfold shr. destruct n; cbn [fst]; try done.
  by apply (iter_pos_invariant shr_1 (fun x => 0 <= shr_m x) shr_1_nonneg).
Qed.

Lemma shr_fexp_nonneg m e l :
  0 <= m -> 0 <= shr_m (fst (shr_fexp prec emax m e l)).
Proof.
  intros H. unfold shr_fexp. apply shr_nonneg. by destruct l as [|[]].
Qed.

Lemma round_nearest_even_nonneg m l : 0 <= m -> 0 <= round_nearest_even m l.
Proof. intros H. destruct l as [|[]]; cbn; try done; [destruct (Z.even m)|]; lia. Qed.

Lemma binary_round_aux_nonneg m e l :
  0 <= m -> sf_nonneg (binary_round_aux prec emax false m e l).
Proof.
  intros H. unfold binary_round_aux.
  pose proof (shr_fexp_nonneg m e l H) as H1.
  destruct (shr_fexp prec emax m e l) as [mrs' e'] eqn:E1. cbn [fst] in H1.
  pose proof (shr_fexp_nonneg _ e' loc_Exact
                (round_nearest_even_nonneg _ (loc_of_shr_record mrs') H1)) as H2.
  destruct (shr_fexp prec emax (round_nearest_even _ _) e' loc_Exact) as [mrs'' e''].
  cbn [fst] in H2. destruct (shr_m mrs''); [done| |lia].
  by destruct (_ <=? _).
Qed.

Lemma SFmul_nonneg x y : sf_nonneg x -> sf_nonneg y ->
  (forall s, x = S754_zero s -> forall s', y <> S754_infinity s') ->
  (forall s, y = S754_zero s -> forall s', x <> S754_infinity s') ->
  sf_nonneg (SFmul prec emax x y).
Proof.
  destruct x as [sx|sx| |sx mx ex], y as [sy|sy| |sy my ey]; cbn; try done.
  - intros _ _ H. by destruct (H _ eq_refl sy).
  - intros _ _ _ H. by destruct (H _ eq_refl sx).
  - by intros -> ->.
  - by intros -> ->.
  - by intros -> ->.
  - intros -> -> _ _. by apply binary_round_aux_nonneg.
Qed.

Lemma SFadd_nonneg x y : sf_nonneg x -> sf_nonneg y -> sf_nonneg (SFadd prec emax x y).
Proof.
  destruct x as [sx|sx| |sx mx ex], y as [sy|sy| |sy my ey]; cbn; try done.
  - by destruct sx, sy.
  - by intros -> ->.
  - intros -> -> . unfold cond_Zopp.
    set (a := fst (shl_align mx ex _)). set (b := fst (shl_align my ey _)).
    change (Z.pos a + Z.pos b) with (Z.pos (a + b)).
    unfold binary_normalize, binary_round.
    destruct (shl_align (a + b) _ _). by apply binary_round_aux_nonneg.
Qed.

(** The order of two specification floats, read both ways. *)
Lemma SFcompare_antisym x y :
  SFcompare y x = CompOpp <$> SFcompare x y.
Proof.
  destruct x as [sx|sx| |sx mx ex], y as [sy|sy| |sy my ey]; cbn;
    try done; try (by destruct sx); try (by destruct sy); try (by destruct sx, sy).
  destruct sx, sy; cbn; try done.
  - rewrite (Z.compare_antisym ey ex). destruct (ey ?= ex); cbn; try done.
    by rewrite (Pos.compare_cont_antisym mx my Eq).
  - rewrite (Z.compare_antisym ey ex). destruct (ey ?= ex); cbn; try done.
    by rewrite (Pos.compare_cont_antisym mx my Eq).
Qed.

Lemma SFleb_of_not_ltb x y :
  x <> S754_nan -> y <> S754_nan -> SFltb y x = false -> SFleb x y = true.
Proof.
  intros Hx Hy. unfold SFltb, SFleb. rewrite (SFcompare_antisym x y).
  destruct (SFcompare x y) as [[]|] eqn:E; cbn; try done.
  destruct x, y; cbn in E; try done; by destruct s.
Qed.


#[local] Open Scope float_scope.

Lemma leb_zero_nonneg x : (0 <=? x) = true <-> nonneg x.
Proof.
  rewrite FloatAxioms.leb_spec. change (Prim2SF 0) with (S754_zero false). unfold nonneg.
  destruct (Prim2SF x) as [s|s| |s m e]; cbn; try done; destruct s; cbn; split; done.
Qed.

Lemma nonneg_not_nan x : nonneg x -> Prim2SF x <> S754_nan.
Proof. unfold nonneg. by destruct (Prim2SF x). Qed.

Lemma leb_of_not_ltb x y :
  Prim2SF x <> S754_nan -> Prim2SF y <> S754_nan -> (y <? x) = false -> (x <=? y) = true.
Proof. rewrite FloatAxioms.ltb_spec, FloatAxioms.leb_spec. apply SFleb_of_not_ltb. Qed.

Lemma SFcompare_refl x : x <> S754_nan -> SFcompare x x = Some Eq.
Proof.
  destruct x as [s|s| |s m e]; cbn; try done; destruct s; try done.
  - by rewrite Z.compare_refl, Pos.compare_cont_refl.
  - by rewrite Z.compare_refl, Pos.compare_cont_refl.
Qed.

Lemma is_nan_spec x : PyFloat.is_nan x = true <-> Prim2SF x = S754_nan.
Proof.
  unfold PyFloat.is_nan. rewrite FloatAxioms.eqb_spec. unfold SFeqb.
  destruct (Prim2SF x) as [s|s| |s m e] eqn:E.
  2,3: cbn; try destruct s; split; done.
  - cbn. split; done.
  - rewrite SFcompare_refl by done. split; done.
Qed.

Lemma mul_03_nonneg a : nonneg a -> nonneg (a * 0.3).
Proof.
  unfold nonneg. rewrite FloatAxioms.mul_spec. intros H.
  apply SFmul_nonneg; [exact H | vm_compute; reflexivity | |].
  - intros s _ s'. vm_compute. discriminate.
  - intros s Hs. vm_compute in Hs. discriminate.
Qed.

Lemma add_nonneg x y : nonneg x -> nonneg y -> nonneg (x + y).
Proof. unfold nonneg. rewrite FloatAxioms.add_spec. apply SFadd_nonneg. Qed.

(** [min(x, 1.0)] of a float that is a number and not below zero. *)
Lemma py_min_one_range x :
  nonneg x ->
  (0 <=? PyFloat.py_min x 1.0) = true /\ (PyFloat.py_min x 1.0 <=? 1.0) = true.
Proof.
  intros Hx. unfold PyFloat.py_min. destruct (1 <? x) eqn:E.
  - split; reflexivity.
  - split; [by apply leb_zero_nonneg|].
    apply leb_of_not_ltb; [by apply nonneg_not_nan | | done].
    vm_compute. discriminate.
Qed.

(** The score of the assessment is NaN or lies in [0, 1]. *)
Lemma assessment_score_range self data :
  let a := fst (_get_ai_fraud_assessment self data) in
  PyFloat.is_nan a = true \/ ((0 <=? a) = true /\ (a <=? 1) = true).
Proof.
  cbv zeta. unfold _get_ai_fraud_assessment, ai_assessment_try.
  destruct (gemini_model self) as [model|]; [|right; split; reflexivity].
  destruct (model data) as [msg|text]; [right; split; reflexivity|].
  destruct (PyStr.contains _ _); [|right; split; reflexivity].
  destruct (PyFloat.py_float _) as [score|]; [|right; split; reflexivity].
  cbn [fst]. unfold PyFloat.py_max.
  destruct (score <? 0) eqn:Hneg; [right; split; reflexivity|].
  unfold PyFloat.py_min. destruct (1 <? score) eqn:Hbig; [right; split; reflexivity|].
  destruct (PyFloat.is_nan score) eqn:Hnan; [by left | right].
  assert (Prim2SF score <> S754_nan) as Hnum.
  { intros H. apply is_nan_spec in H. congruence. }
  split; apply leb_of_not_ltb; try done; vm_compute; discriminate.
Qed.

(** The score of the response is within [0, 1] as soon as the score of
    the assessment is a number. *)
Lemma response_score_range card amt vel ai :
  (0 <=? fst ai) = true ->
  (0 <=? risk_score (response_of card amt vel ai)) = true
  /\ (risk_score (response_of card amt vel ai) <=? 1) = true.
Proof.
  intros Hai. unfold response_of. cbn [risk_score].
  apply py_min_one_range, add_nonneg; [|by apply mul_03_nonneg, leb_zero_nonneg].
  destruct (fst card), (fst amt), (fst vel); vm_compute; done.
Qed.

End FloatOrder.

(** ** The risk score *)

(** C8: at a valid request (100 USD, valid card, fresh user) to which
    the assessor answers "SCORE:nan|REASON:unclear", the evaluation
    returns normally with a risk score that is NaN: [float] accepts
    "nan", and neither [min(max(score, 0.0), 1.0)] nor
    [min(risk_score, 1.0)] replaces a NaN in first position.  The score
    is neither at least 0.0 nor at most 1.0, the response is not fraud
    and the transaction is recorded. *)
Theorem C8_nan_score_escapes_clamp :
  let self := answering "SCORE:nan|REASON:unclear" in
  let request := request_of (usd 100 0) (card_4532 12 2025) "test-user" in
  let out := CheckFraud self clock_2025 request fresh_context in
  PyFloat.py_float (score_part_of "SCORE:nan|REASON:unclear") = Some nan
  /\ PyFloat.is_nan (PyFloat.py_min (PyFloat.py_max nan 0.0) 1.0) = true
  /\ out.1.2 = fresh_context
  /\ PyFloat.is_nan (risk_score out.2) = true
  /\ (0.0 <=? risk_score out.2)%float = false
  /\ (risk_score out.2 <=? 1.0)%float = false
  /\ is_fraud out.2 = false
  /\ reason out.2 = "unclear"
  /\ history_of out.1.1 "test-user" = [(1000.5, 100)%float].
Proof. vm_compute. repeat split. Qed.

(** *** The score when the assessor's score is a number *)

Section ScoreRange.

#[local] Open Scope float_scope.

(** A NaN score of the assessment goes through the weighted sum and
    through [min(risk_score, 1.0)]. *)
Lemma response_score_nan card amt vel ai :
  PyFloat.is_nan (fst ai) = true ->
  PyFloat.is_nan (risk_score (response_of card amt vel ai)) = true.
Proof.
  intros Hnan%is_nan_spec. unfold response_of. cbn [risk_score].
  set (s3 := if fst vel then _ else _).
  assert (Prim2SF (s3 + fst ai * 0.3) = S754_nan) as Hsum.
  { rewrite FloatAxioms.add_spec, FloatAxioms.mul_spec, Hnan.
    unfold SF64add, SF64mul. cbn. by destruct (Prim2SF s3). }
  unfold PyFloat.py_min.
  replace (1 <? s3 + fst ai * 0.3) with false; [by apply is_nan_spec|].
  rewrite FloatAxioms.ltb_spec, Hsum. reflexivity.
Qed.

(** A NaN score of the assessment can only be what [float] made of the
    score field of an answer. *)
Lemma assessment_nan_from_answer self data :
  PyFloat.is_nan (fst (_get_ai_fraud_assessment self data)) = true ->
  exists model text score,
    gemini_model self = Some model /\ model data = GenText text
    /\ PyFloat.py_float (score_part_of text) = Some score
    /\ PyFloat.is_nan score = true.
Proof.
  unfold _get_ai_fraud_assessment, ai_assessment_try, score_part_of.
  destruct (gemini_model self) as [model|]; [|discriminate].
  destruct (model data) as [msg|text] eqn:Htext; [discriminate|].
  destruct (PyStr.contains _ _); [|discriminate].
  destruct (PyFloat.py_float _) as [score|] eqn:Hfloat; [|discriminate].
  cbn [fst]. unfold PyFloat.py_max.
  destruct (score <? 0); [discriminate|].
  unfold PyFloat.py_min. destruct (1 <? score); [discriminate|].
  intros Hnan. by exists model, text, score.
Qed.

(** Every score the operation returns is NaN or lies in [0.0, 1.0]. *)
Theorem risk_score_in_range_unless_nan (self : service) (clk : clock)
  (request : FraudCheckRequest) (ctx : context) :
  let response := snd (CheckFraud self clk request ctx) in
  PyFloat.is_nan (risk_score response) = true
  \/ ((0 <=? risk_score response) = true /\ (risk_score response <=? 1) = true).
Proof.
  cbv zeta. unfold CheckFraud.
  destruct (CheckFraud_try clk request self) as [self' [response|e]] eqn:Htry;
    [|right; split; reflexivity].
  destruct (CheckFraud_try_returns _ _ _ _ _ Htry)
    as (amt & money & card & _ & _ & _ & -> & _).
  cbn [snd].
  match goal with
  | |- context [_get_ai_fraud_assessment ?s ?d] =>
      pose proof (assessment_score_range s d) as Hai;
      destruct (_get_ai_fraud_assessment s d) as [a ai_reason]
  end.
  cbv zeta in Hai. cbn [fst] in Hai. destruct Hai as [Hnan | [Hlo _]].
  - left. by apply response_score_nan.
  - right. by apply response_score_range.
Qed.

(** The score is NaN only when the assessor answered and [float] read
    its score field as NaN. *)
Theorem risk_score_nan_only_from_answer (self : service) (clk : clock)
  (request : FraudCheckRequest) (ctx : context) :
  PyFloat.is_nan (risk_score (snd (CheckFraud self clk request ctx))) = true ->
  exists model data text score,
    gemini_model self = Some model /\ model data = GenText text
    /\ PyFloat.py_float (score_part_of text) = Some score
    /\ PyFloat.is_nan score = true.
Proof.
  unfold CheckFraud.
  destruct (CheckFraud_try clk request self) as [self' [response|e]] eqn:Htry;
    [|discriminate].
  destruct (CheckFraud_try_returns _ _ _ _ _ Htry)
    as (amt & money & card & _ & _ & _ & -> & _).
  cbn [snd]. intros Hnan.
  match type of Hnan with
  | context [_get_ai_fraud_assessment ?s ?d] =>
      pose proof (assessment_score_range s d) as Hai;
      pose proof (assessment_nan_from_answer s d) as Hfrom;
      destruct (_get_ai_fraud_assessment s d) as [a ai_reason] eqn:Ha
  end.
  cbv zeta in Hai. cbn [fst] in Hai, Hfrom.
  destruct Hai as [Ha_nan | [Hlo _]].
  - destruct (Hfrom Ha_nan) as (model & text & score & Hm & Ht & Hf & Hs).
    eauto 10.
  - destruct (response_score_range
                (_validate_credit_card (now_validate clk) (Some card))
                (_check_amount_fraud self amt)
                (velocity_verdict self
                   (last_minute (time_velocity clk)
                      (history_of self (default "anonymous" (demo_pb2.user_id request))))
                   (time_velocity clk) amt)
                (a, ai_reason) Hlo) as [Hr _].
    apply is_nan_spec in Hnan. apply leb_zero_nonneg in Hr.
    unfold nonneg in Hr. by rewrite Hnan in Hr.
Qed.

End ScoreRange.

(** * Further properties *)

(** ** What the Luhn check detects *)

Lemma luhn_check_sum s : luhn_check s = (luhn_sum (digits_of s) mod 10 =? 0).
Proof. by rewrite luhn_check_standard. Qed.

Lemma digits_of_app s1 s2 : digits_of (s1 +:+ s2) = digits_of s1 ++ digits_of s2.
Proof.
  unfold digits_of. induction s1 as [|c s1 IH]; [done|]. cbn. by rewrite <- IH.
Qed.

Lemma digits_of_cons c s : digits_of (String c s) = PyStr.digit_value c :: digits_of s.
Proof. done. Qed.

Lemma luhn_from_right_app second l1 l2 :
  luhn_from_right second (l1 ++ l2)
  = luhn_from_right second l1
    ++ luhn_from_right (xorb second (Nat.odd (length l1))) l2.
Proof.
  revert second. induction l1 as [|d l1 IH]; intros second.
  - cbn. by rewrite xorb_false_r.
  - cbn [app luhn_from_right length]. rewrite IH. cbn [app]. do 3 f_equal.
    rewrite Nat.odd_succ, <- Nat.negb_odd. by destruct second, (Nat.odd (length l1)).
Qed.

Lemma foldr_add_app l1 l2 :
  foldr Z.add 0 (l1 ++ l2) = foldr Z.add 0 l1 + foldr Z.add 0 l2.
Proof. rewrite foldr_app, foldr_add_acc. lia. Qed.

(** The sum splits at any digit: what is on its right, the digit with
    its weight, and what is on its left read with the parity shifted. *)
Lemma luhn_sum_split pre d post :
  luhn_sum (pre ++ d :: post)
  = foldr Z.add 0 (luhn_from_right false (rev post))
    + luhn_weight (length post) d
    + foldr Z.add 0 (luhn_from_right (negb (Nat.odd (length post))) (rev pre)).
Proof.
  unfold luhn_sum, luhn_weight. rewrite rev_app_distr. cbn [rev].
  rewrite <- app_assoc. cbn [app].
  rewrite luhn_from_right_app, foldr_add_app, length_rev. cbn [luhn_from_right foldr].
  rewrite xorb_false_l. lia.
Qed.

Lemma digit_value_range c : PyStr.is_digit c = true -> 0 <= PyStr.digit_value c <= 9.
Proof.
  unfold PyStr.is_digit, PyStr.digit_value. intros H.
  apply andb_true_iff in H as [H1 H2].
  apply Nat.leb_le in H1, H2. lia.
Qed.

Lemma digit_value_inj c1 c2 :
  PyStr.digit_value c1 = PyStr.digit_value c2 -> c1 = c2.
Proof.
  unfold PyStr.digit_value. intros H.
  assert (nat_of_ascii c1 = nat_of_ascii c2) as Hn by lia.
  rewrite <- (ascii_nat_embedding c1), <- (ascii_nat_embedding c2). by rewrite Hn.
Qed.

(** The weights are one-to-one on the digits, modulo 10. *)
Lemma luhn_weight_inj n a b :
  0 <= a <= 9 -> 0 <= b <= 9 ->
  (luhn_weight n a - luhn_weight n b) mod 10 = 0 -> a = b.
Proof.
  intros Ha Hb. unfold luhn_weight, luhn_double.
  destruct (Nat.odd n); each_digit Ha; each_digit Hb; cbn; intros H; try done.
Qed.

Lemma mod10_diff x y : x mod 10 = 0 -> y mod 10 = 0 -> (x - y) mod 10 = 0.
Proof.
  intros Hx Hy. rewrite Zminus_mod, Hx, Hy. done.
Qed.

Lemma mod10_iff x y : x mod 10 = 0 -> (y mod 10 = 0 <-> (x - y) mod 10 = 0).
Proof.
  intros Hx. split; intros H.
  - by apply mod10_diff.
  - replace y with (x - (x - y)) by lia. by apply mod10_diff.
Qed.

(** Replacing one digit by another one changes the outcome of a
    successful check. *)
Lemma luhn_substitution (s1 s2 : string) (a b : ascii) :
  PyStr.is_digit a = true -> PyStr.is_digit b = true -> a <> b ->
  luhn_check (s1 +:+ String a s2) = true ->
  luhn_check (s1 +:+ String b s2) = false.
Proof.
  intros Ha Hb Hab. rewrite !luhn_check_sum, !digits_of_app, !digits_of_cons.
  rewrite !luhn_sum_split. intros H1%Z.eqb_eq. apply Z.eqb_neq. intros H2.
  apply Hab, digit_value_inj.
  apply (luhn_weight_inj (length (digits_of s2)));
    [by apply digit_value_range | by apply digit_value_range |].
  match goal with
  | |- (?wa - ?wb) mod 10 = 0 =>
      match type of H1 with (?r + _ + ?l) mod 10 = 0 =>
        replace (wa - wb) with ((r + wa + l) - (r + wb + l)) by lia
      end
  end.
  by apply mod10_diff.
Qed.




Lemma luhn_sum_split2 pre a b post :
  luhn_sum (pre ++ a :: b :: post)
  = foldr Z.add 0 (luhn_from_right false (rev post))
    + luhn_weight (length post) b + luhn_weight (S (length post)) a
    + foldr Z.add 0 (luhn_from_right (Nat.odd (length post)) (rev pre)).
Proof.
  rewrite luhn_sum_split. cbn [length].
  change (foldr Z.add 0 (luhn_from_right false (rev (b :: post))))
    with (luhn_sum ([] ++ b :: post)).
  rewrite luhn_sum_split. cbn [rev luhn_from_right foldr].
  rewrite Nat.odd_succ, <- Nat.negb_odd, negb_involutive. lia.
Qed.

Lemma luhn_weight_swap n a b :
  0 <= a <= 9 -> 0 <= b <= 9 ->
  ((luhn_weight n b + luhn_weight (S n) a) - (luhn_weight n a + luhn_weight (S n) b)) mod 10 = 0
  <-> a = b \/ (a = 0 /\ b = 9) \/ (a = 9 /\ b = 0).
Proof.
  intros Ha Hb. unfold luhn_weight, luhn_double.
  rewrite Nat.odd_succ, <- Nat.negb_odd.
  destruct (Nat.odd n); cbn [negb]; each_digit Ha; each_digit Hb; cbn;
    split; intros H; try done; try lia; try (by left);
    try (right; left; done); try (right; right; done).
Qed.

Lemma digit_value_0 c : PyStr.digit_value c = 0 <-> c = "0"%char.
Proof.
  split; [|by intros ->]. intros H. apply digit_value_inj. by rewrite H.
Qed.

Lemma digit_value_9 c : PyStr.digit_value c = 9 <-> c = "9"%char.
Proof.
  split; [|by intros ->]. intros H. apply digit_value_inj. by rewrite H.
Qed.

(** Exchanging two neighbouring digits of a number that passes the
    check gives a number that passes it only when the digits are equal
    or are 0 and 9. *)
Theorem luhn_transposition (s1 s2 : string) (a b : ascii) :
  PyStr.is_digit a = true -> PyStr.is_digit b = true ->
  luhn_check (s1 +:+ String a (String b s2)) = true ->
  (luhn_check (s1 +:+ String b (String a s2)) = true
   <-> a = b \/ (a = "0"%char /\ b = "9"%char) \/ (a = "9"%char /\ b = "0"%char)).
Proof.
  intros Ha Hb. rewrite !luhn_check_sum, !digits_of_app, !digits_of_cons.
  rewrite !luhn_sum_split2. intros H1%Z.eqb_eq. rewrite Z.eqb_eq.
  pose proof (luhn_weight_swap (length (digits_of s2)) _ _
                (digit_value_range a Ha) (digit_value_range b Hb)) as Hswap.
  rewrite <- !digit_value_0, <- !digit_value_9.
  assert (a = b <-> PyStr.digit_value a = PyStr.digit_value b) as ->.
  { split; [by intros -> | apply digit_value_inj]. }
  rewrite <- Hswap. clear Hswap.
  match goal with
  | |- ?B mod 10 = 0 <-> ?D mod 10 = 0 =>
      match type of H1 with ?A mod 10 = 0 =>
        replace D with (A - B) by lia; by apply mod10_iff
      end
  end.
Qed.

Lemma luhn_transposition_witness :
  luhn_check ("" +:+ String "4" (String "5" "32015112830366")) = true
  /\ luhn_check ("" +:+ String "5" (String "4" "32015112830366")) <> true.
Proof.
  assert (luhn_check ("" +:+ String "4" (String "5" "32015112830366")) = true) as H
    by reflexivity.
  split; [exact H|]. intros H'.
  apply (luhn_transposition "" "32015112830366" "4" "5" eq_refl eq_refl H) in H'.
  destruct H' as [? | [[? ?] | [? ?]]]; discriminate.
Defined.

(** ** Validation of a card as a whole *)

Lemma re_sub_nondigits_app s1 s2 :
  PyStr.re_sub_nondigits (s1 +:+ s2)
  = PyStr.re_sub_nondigits s1 +:+ PyStr.re_sub_nondigits s2.
Proof.
  induction s1 as [|c s1 IH]; [done|].
  change (String c s1 +:+ s2) with (String c (s1 +:+ s2)).
  cbn [PyStr.re_sub_nondigits]. rewrite IH. by destruct (PyStr.is_digit c).
Qed.

Lemma string_length_app s1 s2 :
  String.length (s1 +:+ s2) = (String.length s1 + String.length s2)%nat.
Proof.
  induction s1 as [|c s1 IH]; [done|].
  change (String c s1 +:+ s2) with (String c (s1 +:+ s2)).
  cbn [String.length]. by rewrite IH.
Qed.

(** Validation accepts exactly the cards whose number passes and whose
    expiration instant exists and is not before [now]. *)
Lemma validate_true_iff now card :
  fst (_validate_credit_card now card) = true
  <-> exists cc, card = Some cc /\ number_passes cc
      /\ exists exp_date, expiration cc = Some exp_date
                          /\ datetime_lt exp_date now = false.
Proof.
  split.
  - destruct card as [cc|]; [|discriminate]. intros H. exists cc. split; [done|].
    assert (number_passes cc) as Hnum.
    { revert H. unfold _validate_credit_card, number_passes. cbv zeta.
      destruct (String.eqb_spec (credit_card_number cc) ""); [discriminate|].
      destruct ((_ <? 13) || _) eqn:Hlen; [discriminate|].
      destruct (luhn_check _); [|discriminate]. intros _.
      apply orb_false_iff in Hlen. split; [done|]. split; [lia | done]. }
    split; [done|]. rewrite (validate_after_number now cc Hnum) in H.
    destruct (expiration cc) as [e|]; [|by destruct (_ || _)].
    destruct (datetime_lt e now) eqn:E; [discriminate | eauto].
  - intros (cc & -> & Hnum & e & He & Hlt).
    by rewrite (validate_after_number now cc Hnum), He, Hlt.
Qed.

Lemma re_sub_nondigits_digit a s :
  PyStr.is_digit a = true ->
  PyStr.re_sub_nondigits (String a s) = String a (PyStr.re_sub_nondigits s).
Proof. intros H. cbn. by rewrite H. Qed.

Lemma re_sub_nondigits_nondigit c s :
  PyStr.is_digit c = false ->
  PyStr.re_sub_nondigits (String c s) = PyStr.re_sub_nondigits s.
Proof. intros H. cbn. by rewrite H. Qed.

Lemma append_cons_nonempty s1 c s2 : s1 +:+ String c s2 <> "".
Proof. by destruct s1. Qed.

(** The answer of the validation once the card number is known to be
    present, to have a length in range and to fail the checksum. *)
Lemma validate_luhn_failure now cc :
  credit_card_number cc <> "" ->
  13 <= Z.of_nat (String.length (PyStr.re_sub_nondigits (credit_card_number cc))) <= 19 ->
  luhn_check (PyStr.re_sub_nondigits (credit_card_number cc)) = false ->
  _validate_credit_card now (Some cc) = (false, "Invalid credit card number").
Proof.
  intros Hne Hlen Hluhn. unfold _validate_credit_card.
  destruct (String.eqb_spec (credit_card_number cc) ""); [done|].
  replace ((_ <? 13) || _) with false by (symmetry; apply orb_false_iff; lia).
  by rewrite Hluhn.
Qed.

(** One wrong digit in the number of an accepted card: the card is
    refused for its number, at any time and whatever its other fields. *)
Theorem one_wrong_digit_is_rejected (now now' : datetime) (cc cc' : CreditCardInfo)
  (s1 s2 : string) (a b : ascii) :
  credit_card_number cc = s1 +:+ String a s2 ->
  credit_card_number cc' = s1 +:+ String b s2 ->
  PyStr.is_digit a = true -> PyStr.is_digit b = true -> a <> b ->
  fst (_validate_credit_card now (Some cc)) = true ->
  _validate_credit_card now' (Some cc') = (false, "Invalid credit card number").
Proof.
  intros Hcc Hcc' Ha Hb Hab Hvalid.
  apply validate_true_iff in Hvalid as (cc0 & [= <-] & (_ & Hlen & Hluhn) & _).
  cbv zeta in Hlen, Hluhn.
  rewrite Hcc, re_sub_nondigits_app, re_sub_nondigits_digit in Hlen, Hluhn by done.
  apply validate_luhn_failure; rewrite Hcc'.
  - apply append_cons_nonempty.
  - rewrite re_sub_nondigits_app, re_sub_nondigits_digit by done.
    rewrite string_length_app in *. cbn [String.length] in *. lia.
  - rewrite re_sub_nondigits_app, re_sub_nondigits_digit by done.
    by apply (luhn_substitution _ _ a b).
Qed.

Lemma one_wrong_digit_is_rejected_witness :
  let cc' := {| credit_card_number := "4532015112830367"; credit_card_cvv := 123;
                credit_card_expiration_year := 2030;
                credit_card_expiration_month := 1 |} in
  fst (_validate_credit_card (at_noon 2025 6 15) (Some (card_4532 12 2025))) = true
  /\ _validate_credit_card (at_noon 2026 11 4) (Some cc')
     = (false, "Invalid credit card number").
Proof.
  cbv zeta.
  assert (fst (_validate_credit_card (at_noon 2025 6 15) (Some (card_4532 12 2025))) = true)
    as H by (vm_compute; reflexivity).
  split; [exact H|].
  apply (one_wrong_digit_is_rejected (at_noon 2025 6 15) (at_noon 2026 11 4)
           (card_4532 12 2025) _ "453201511283036" "" "6" "7");
    [reflexivity | reflexivity | reflexivity | reflexivity | discriminate | exact H].
Defined.

(** A character that is not a digit, put anywhere into a card number
    that is not empty, does not change the answer. *)
Theorem validation_ignores_separators (now : datetime) (cc cc' : CreditCardInfo)
  (s1 s2 : string) (c : ascii) :
  PyStr.is_digit c = false ->
  credit_card_number cc = s1 +:+ s2 ->
  credit_card_number cc <> "" ->
  credit_card_number cc' = s1 +:+ String c s2 ->
  credit_card_expiration_month cc' = credit_card_expiration_month cc ->
  credit_card_expiration_year cc' = credit_card_expiration_year cc ->
  _validate_credit_card now (Some cc') = _validate_credit_card now (Some cc).
Proof.
  intros Hc Hcc Hne Hcc' Hm Hy. unfold _validate_credit_card.
  destruct (String.eqb_spec (credit_card_number cc) ""); [done|].
  destruct (String.eqb_spec (credit_card_number cc') "") as [He|_].
  { rewrite Hcc' in He. by apply append_cons_nonempty in He. }
  rewrite Hcc', Hcc, !re_sub_nondigits_app, re_sub_nondigits_nondigit, Hm, Hy by done.
  reflexivity.
Qed.

Lemma validation_ignores_separators_witness :
  let cc' := {| credit_card_number := "4532-015112830366"; credit_card_cvv := 123;
                credit_card_expiration_year := 2025;
                credit_card_expiration_month := 12 |} in
  _validate_credit_card (at_noon 2025 6 15) (Some cc') = (true, "Valid").
Proof.
  cbv zeta.
  rewrite (validation_ignores_separators (at_noon 2025 6 15) (card_4532 12 2025)
             {| credit_card_number := "4532-015112830366"; credit_card_cvv := 123;
                credit_card_expiration_year := 2025;
                credit_card_expiration_month := 12 |}
             "4532" "015112830366" "-" eq_refl eq_refl ltac:(discriminate)
             eq_refl eq_refl eq_refl).
  vm_compute. reflexivity.
Defined.

(** ** More on the velocity check *)

Lemma last_minute_forall t l :
  Forall (fun ev : event => (t - fst ev <? 60)%float = true) (last_minute t l).
Proof.
  unfold last_minute. induction l as [|[ts amt] l IH]; cbn; [constructor|].
  destruct (t - ts <? 60)%float eqn:E; [constructor|]; done.
Qed.

Lemma last_minute_keeps t l ev :
  ev ∈ l -> (t - fst ev <? 60)%float = true -> ev ∈ last_minute t l.
Proof.
  unfold last_minute. rewrite !list_elem_of_In, filter_In.
  destruct ev as [ts amt]. cbn. done.
Qed.

Lemma last_minute_idem t l : last_minute t (last_minute t l) = last_minute t l.
Proof.
  unfold last_minute. induction l as [|[ts amt] l IH]; cbn; [done|].
  destruct (t - ts <? 60)%float eqn:E; [|done]. cbn. by rewrite E, IH.
Qed.

Lemma last_minute_app t l1 l2 :
  last_minute t (l1 ++ l2) = last_minute t l1 ++ last_minute t l2.
Proof. unfold last_minute. apply List.filter_app. Qed.

Lemma pruned_idem t u self : pruned t u (pruned t u self) = pruned t u self.
Proof.
  unfold pruned at 1. rewrite history_of_pruned, last_minute_idem.
  unfold pruned, set_history. cbn. by rewrite insert_insert_eq.
Qed.

(** After the velocity check the stored list of the user holds exactly
    the events of the last minute, in their order; the entries of the
    other users are untouched. *)
Theorem velocity_check_prunes_to_last_minute (t : float) (u : string) (a : float)
  (self : service) :
  let self' := fst (_check_velocity_fraud t u a self) in
  Forall (fun ev : event => (t - fst ev <? 60)%float = true) (history_of self' u)
  /\ sublist (history_of self' u) (history_of self u)
  /\ (forall ev, ev ∈ history_of self u -> (t - fst ev <? 60)%float = true ->
                 ev ∈ history_of self' u)
  /\ (forall u', u' <> u ->
        transaction_history self' !! u' = transaction_history self !! u').
Proof.
  cbv zeta. rewrite velocity_run. cbn [fst]. rewrite history_of_pruned.
  split; [apply last_minute_forall|]. split; [apply last_minute_sublist|].
  split; [apply last_minute_keeps|].
  intros u' Hu. unfold pruned, set_history. cbn. by rewrite lookup_insert_ne.
Qed.

(** Asking twice at the same time is asking once. *)
Theorem velocity_check_idempotent (t : float) (u : string) (a : float) (self : service) :
  _check_velocity_fraud t u a (fst (_check_velocity_fraud t u a self))
  = _check_velocity_fraud t u a self.
Proof.
  rewrite !velocity_run. cbn [fst].
  rewrite pruned_idem, history_of_pruned, last_minute_idem. reflexivity.
Qed.



(** Whatever a call does, it leaves the model and the thresholds of the
    service alone, does not touch the entry of another user and removes
    no entry; once the amount is read the user has an entry, even when
    the transaction is refused. *)
Theorem call_frame (self : service) (clk : clock) (request : FraudCheckRequest)
  (ctx : context) :
  let self' := (CheckFraud self clk request ctx).1.1 in
  let uid := default "anonymous" (demo_pb2.user_id request) in
  gemini_model self' = gemini_model self
  /\ max_amount_threshold self' = max_amount_threshold self
  /\ velocity_threshold self' = velocity_threshold self
  /\ daily_limit self' = daily_limit self
  /\ (forall u, u <> uid ->
        transaction_history self' !! u = transaction_history self !! u)
  /\ dom (transaction_history self) ⊆ dom (transaction_history self')
  /\ ((exists amt, request_amount request self = (self, Return amt)) ->
      uid ∈ dom (transaction_history self')).
Proof.
  cbv zeta. unfold CheckFraud. rewrite CheckFraud_try_run.
  destruct (request_amount request self) as [self0 [amt|e]] eqn:Hamt;
    pose proof (request_amount_state _ _ _ _ Hamt) as ->.
  2:{ cbn. repeat split; try done. intros [amt H]. discriminate. }
  cbv zeta.
  set (uid := default "anonymous" (demo_pb2.user_id request)).
  assert (forall s : service,
            s = pruned (time_velocity clk) uid self
            \/ s = recorded (time_record clk, amt) uid (pruned (time_velocity clk) uid self) ->
            gemini_model s = gemini_model self
            /\ max_amount_threshold s = max_amount_threshold self
            /\ velocity_threshold s = velocity_threshold self
            /\ daily_limit s = daily_limit self
            /\ (forall u, u <> uid ->
                  transaction_history s !! u = transaction_history self !! u)
            /\ dom (transaction_history self) ⊆ dom (transaction_history s)
            /\ uid ∈ dom (transaction_history s)) as Hframe.
  { intros s [-> | ->]; unfold recorded, pruned, set_history; cbn;
      (repeat split; try done);
      try (intros u Hu; by rewrite ?lookup_insert_ne);
      rewrite ?dom_insert_L; set_solver. }
  assert (forall s : service,
            s = pruned (time_velocity clk) uid self
            \/ s = recorded (time_record clk, amt) uid (pruned (time_velocity clk) uid self) ->
            gemini_model s = gemini_model self
            /\ max_amount_threshold s = max_amount_threshold self
            /\ velocity_threshold s = velocity_threshold self
            /\ daily_limit s = daily_limit self
            /\ (forall u, u <> uid ->
                  transaction_history s !! u = transaction_history self !! u)
            /\ dom (transaction_history self) ⊆ dom (transaction_history s)
            /\ ((exists amt0, (self, Return amt) = (self, Return amt0 : result float)) ->
                uid ∈ dom (transaction_history s))) as Hframe'.
  { intros s Hs. destruct (Hframe s Hs) as (? & ? & ? & ? & ? & ? & ?). by repeat split. }
  destruct (demo_pb2.credit_card request) as [card|];
    [destruct (demo_pb2.amount request) as [money|]|]; cbn [fst snd].
  - destruct (is_fraud _); apply Hframe'; auto.
  - apply Hframe'; auto.
  - apply Hframe'; auto.
Qed.

(** A user who already has [velocity_threshold] or more events in the
    last minute is refused, whatever the card, the amount and the
    assessor, and nothing is recorded. *)
Theorem velocity_threshold_blocks (self : service) (clk : clock)
  (request : FraudCheckRequest) (ctx : context) :
  velocity_threshold self
  <= Z.of_nat (length (last_minute (time_velocity clk)
                         (history_of self (default "anonymous" (demo_pb2.user_id request))))) ->
  is_fraud (CheckFraud self clk request ctx).2 = true
  /\ forall u, sublist (history_of (CheckFraud self clk request ctx).1.1 u)
                       (history_of self u).
Proof.
  intros Hcount. unfold CheckFraud.
  destruct (CheckFraud_try clk request self) as [self' [response|e]] eqn:Htry; cbn [fst snd].
  - destruct (CheckFraud_try_returns _ _ _ _ _ Htry)
      as (amt & money & card & _ & _ & _ & Hresp & Hself).
    cbv zeta in Hresp, Hself.
    assert (is_fraud response = true) as Hfraud.
    { rewrite Hresp, response_of_is_fraud. unfold velocity_verdict.
      replace (velocity_threshold self <=? _) with true by (symmetry; apply Z.leb_le; lia).
      cbn [fst]. by rewrite !orb_true_r. }
    split; [done|]. rewrite Hfraud in Hself. subst self'. intros u. apply pruned_sublist.
  - split; [done|]. intros u.
    destruct (CheckFraud_try_raises _ _ _ _ _ Htry) as [-> | ->];
      [done | apply pruned_sublist].
Qed.

Lemma velocity_threshold_blocks_witness :
  let self := with_history "test-user" (replicate 5 (999.0, 10.0)%float) in
  let request := request_of (usd 10 0) (card_4532 12 2025) "test-user" in
  is_fraud (CheckFraud self clock_2025 request fresh_context).2 = true
  /\ reason (CheckFraud self clock_2025 request fresh_context).2
     = "Too many transactions: 5 in last minute".
Proof.
  cbv zeta. split; [|vm_compute; reflexivity].
  apply (velocity_threshold_blocks
           (with_history "test-user" (replicate 5 (999.0, 10.0)%float)) clock_2025
           (request_of (usd 10 0) (card_4532 12 2025) "test-user") fresh_context).
  vm_compute. discriminate.
Defined.

(** An accepted transaction counts in the next velocity check of the
    same user when that check comes less than 60 seconds after the
    recording, and not otherwise. *)
Theorem accepted_transaction_is_counted (self : service) (clk : clock)
  (request : FraudCheckRequest) (self' : service) (response : FraudCheckResponse)
  (t2 : float) :
  CheckFraud_try clk request self = (self', Return response) ->
  is_fraud response = false ->
  let uid := default "anonymous" (demo_pb2.user_id request) in
  let kept := last_minute (time_velocity clk) (history_of self uid) in
  length (last_minute t2 (history_of self' uid))
  = (length (last_minute t2 kept)
     + (if (t2 - time_record clk <? 60)%float then 1 else 0))%nat.
Proof.
  intros Htry Hok.
  destruct (CheckFraud_try_returns _ _ _ _ _ Htry)
    as (amt & money & card & _ & _ & _ & _ & Hself).
  cbv zeta in *. rewrite Hok in Hself. subst self'.
  rewrite history_of_recorded, history_of_pruned, last_minute_app, length_app. f_equal.
  unfold last_minute. cbn. by destruct (t2 - time_record clk <? 60)%float.
Qed.

Lemma accepted_transaction_is_counted_witness :
  let request := request_of (usd 100 0) (card_4532 12 2025) "test-user" in
  let self' := recorded (1000.5, 100)%float "test-user" (pruned 1000.0 "test-user" (init None)) in
  CheckFraud_try clock_2025 request (init None)
  = (self', Return {| is_fraud := false; risk_score := 0;
                      reason := "AI assessment not available" |})
  /\ length (last_minute 1030.0 (history_of self' "test-user")) = 1%nat
  /\ length (last_minute 1060.5 (history_of self' "test-user")) = 0%nat.
Proof.
  cbv zeta.
  assert (CheckFraud_try clock_2025
            (request_of (usd 100 0) (card_4532 12 2025) "test-user") (init None)
          = (recorded (1000.5, 100)%float "test-user"
               (pruned 1000.0 "test-user" (init None)),
             Return {| is_fraud := false; risk_score := 0;
                       reason := "AI assessment not available" |}))
    as Htry by (vm_compute; reflexivity).
  split; [exact Htry|].
  split.
  - etransitivity;
      [exact (accepted_transaction_is_counted _ _ _ _ _ 1030.0%float Htry eq_refl)|].
    vm_compute. reflexivity.
  - etransitivity;
      [exact (accepted_transaction_is_counted _ _ _ _ _ 1060.5%float Htry eq_refl)|].
    vm_compute. reflexivity.
Defined.

(** ** The rules alone *)

Lemma response_of_rule_based card amt vel ai_reason :
  let rule := negb (fst card) || fst amt || fst vel in
  is_fraud (response_of card amt vel (0.0%float, ai_reason)) = rule
  /\ risk_score (response_of card amt vel (0.0%float, ai_reason))
     = rule_score (negb (fst card)) (fst amt) (fst vel)
  /\ reason (response_of card amt vel (0.0%float, ai_reason))
     = if rule then join "; " (rule_reasons card amt vel) else ai_reason.
Proof.
  cbv zeta. unfold response_of, rule_score, rule_reasons.
  destruct (fst card), (fst amt), (fst vel); cbn [negb orb is_fraud risk_score reason];
    (split; [vm_compute; reflexivity | split; [vm_compute; reflexivity | reflexivity]]).
Qed.

(** Without an assessor the decision is that of the rules: the
    response is fraud exactly when a check produced a reason, its score
    is the clamped sum of the weights of those checks, and an accepted
    transaction carries the reason "AI assessment not available". *)
Theorem rule_based_decision (self : service) (clk : clock)
  (request : FraudCheckRequest) (self' : service) (response : FraudCheckResponse) :
  gemini_model self = None ->
  CheckFraud_try clk request self = (self', Return response) ->
  exists amt velocity,
    let uid := default "anonymous" (demo_pb2.user_id request) in
    let card := _validate_credit_card (now_validate clk) (demo_pb2.credit_card request) in
    let amount := _check_amount_fraud self amt in
    let rule := negb (fst card) || fst amount || fst velocity in
    request_amount request self = (self, Return amt)
    /\ snd (_check_velocity_fraud (time_velocity clk) uid amt self) = Return velocity
    /\ is_fraud response = rule
    /\ risk_score response = rule_score (negb (fst card)) (fst amount) (fst velocity)
    /\ reason response
       = if rule then join "; " (rule_reasons card amount velocity)
         else "AI assessment not available".
Proof.
  intros Hmodel Htry.
  destruct (CheckFraud_try_returns _ _ _ _ _ Htry)
    as (amt & money & card & Hamt & _ & Hcard & Hresp & _).
  cbv zeta in Hresp. exists amt. eexists. cbv zeta.
  rewrite velocity_run, Hcard. split; [done|]. split; [reflexivity|].
  rewrite assessment_absent in Hresp by done.
  rewrite Hresp. apply response_of_rule_based.
Qed.

Lemma rule_based_decision_witness :
  let request := request_of (usd 15000 0) (card_4532 1 2020) "test-user" in
  let response :=
    {| is_fraud := true; risk_score := 1;
       reason := "Credit card expired; Amount too high: $15000.00" |} in
  CheckFraud_try clock_2025 request (init None)
  = (pruned 1000.0 "test-user" (init None), Return response)
  /\ risk_score response = rule_score true true false.
Proof.
  cbv zeta.
  assert (CheckFraud_try clock_2025
            (request_of (usd 15000 0) (card_4532 1 2020) "test-user") (init None)
          = (pruned 1000.0 "test-user" (init None),
             Return {| is_fraud := true; risk_score := 1;
                       reason := "Credit card expired; Amount too high: $15000.00" |}))
    as Htry by (vm_compute; reflexivity).
  split; [exact Htry|].
  destruct (rule_based_decision (init None) clock_2025 _ _ _ eq_refl Htry)
    as (amt & velocity & Hamt & Hvel & _ & Hscore & _).
  cbv zeta in Hscore. rewrite Hscore.
  assert (amt = 15000%float) as -> by (vm_compute in Hamt; congruence).
  vm_compute. reflexivity.
Defined.

Lemma assessment_frame self h data :
  _get_ai_fraud_assessment (set_history self h) data = _get_ai_fraud_assessment self data.
Proof. done. Qed.

(** The reason of a response lists the messages of the checks that
    found something, in the order card, amount, velocity, joined by
    "; "; the reason of the assessor is given only when no check found
    anything. *)
Theorem reason_lists_rule_messages (self : service) (clk : clock)
  (request : FraudCheckRequest) (self' : service) (response : FraudCheckResponse) :
  CheckFraud_try clk request self = (self', Return response) ->
  exists amt velocity data,
    let uid := default "anonymous" (demo_pb2.user_id request) in
    let card := _validate_credit_card (now_validate clk) (demo_pb2.credit_card request) in
    let amount := _check_amount_fraud self amt in
    request_amount request self = (self, Return amt)
    /\ snd (_check_velocity_fraud (time_velocity clk) uid amt self) = Return velocity
    /\ td_amount data = amt
    /\ reason response
       = match rule_reasons card amount velocity with
         | [] => snd (_get_ai_fraud_assessment self data)
         | reasons => join "; " reasons
         end
    /\ (is_fraud response = false ->
        reason response = snd (_get_ai_fraud_assessment self data)).
Proof.
  intros Htry.
  destruct (CheckFraud_try_returns _ _ _ _ _ Htry)
    as (amt & money & card & Hamt & _ & Hcard & Hresp & _).
  cbv zeta in Hresp. exists amt. do 2 eexists. cbv zeta.
  rewrite velocity_run, Hcard. split; [done|]. split; [reflexivity|].
  unfold pruned in Hresp. rewrite assessment_frame in Hresp.
  split; [|split].
  2:{ rewrite Hresp. unfold response_of, rule_reasons. cbn [reason].
      by destruct (fst (_validate_credit_card _ _)), (fst (_check_amount_fraud _ _)),
           (fst (velocity_verdict _ _ _ _)). }
  - reflexivity.
  - rewrite Hresp, response_of_is_fraud. intros Hnot.
    apply orb_false_iff in Hnot as [_ Hrule].
    unfold response_of. cbn [reason].
    by destruct (fst (_validate_credit_card _ _)), (fst (_check_amount_fraud _ _)),
         (fst (velocity_verdict _ _ _ _)).
Qed.

Lemma reason_lists_rule_messages_witness :
  let request := request_of (usd 15000 0) (card_4532 1 2020) "test-user" in
  let response :=
    {| is_fraud := true; risk_score := 1;
       reason := "Credit card expired; Amount too high: $15000.00" |} in
  CheckFraud_try clock_2025 request (init None)
  = (pruned 1000.0 "test-user" (init None), Return response)
  /\ reason response = join "; " ["Credit card expired"; "Amount too high: $15000.00"].
Proof.
  cbv zeta.
  assert (CheckFraud_try clock_2025
            (request_of (usd 15000 0) (card_4532 1 2020) "test-user") (init None)
          = (pruned 1000.0 "test-user" (init None),
             Return {| is_fraud := true; risk_score := 1;
                       reason := "Credit card expired; Amount too high: $15000.00" |}))
    as Htry by (vm_compute; reflexivity).
  split; [exact Htry|].
  destruct (reason_lists_rule_messages _ _ _ _ _ Htry)
    as (amt & velocity & data & Hamt & Hvel & _ & Hreason & _).
  reflexivity.
Defined.

(** ** Sequences of calls *)

(** What one call does to the service and what it answers. *)
Lemma CheckFraud_outcome self clk request ctx :
  let uid := default "anonymous" (demo_pb2.user_id request) in
  let self1 := pruned (time_velocity clk) uid self in
  let out := CheckFraud self clk request ctx in
  (out.2 = {| is_fraud := true; risk_score := 1.0;
              reason := "System error - transaction blocked for safety" |}
   /\ (out.1.1 = self \/ out.1.1 = self1))
  \/ (exists amt card ai,
        out.2 = response_of (_validate_credit_card (now_validate clk) (Some card))
                  (_check_amount_fraud self amt)
                  (velocity_verdict self
                     (last_minute (time_velocity clk) (history_of self uid))
                     (time_velocity clk) amt) ai
        /\ (exists data, ai = _get_ai_fraud_assessment self data)
        /\ out.1.1 = if is_fraud out.2 then self1
                     else recorded (time_record clk, amt) uid self1).
Proof.
  cbv zeta. unfold CheckFraud.
  destruct (CheckFraud_try clk request self) as [self' [response|e]] eqn:Htry; cbn [fst snd].
  - right. destruct (CheckFraud_try_returns _ _ _ _ _ Htry)
      as (amt & money & card & _ & _ & _ & Hresp & Hself).
    cbv zeta in Hresp, Hself. exists amt, card. eexists.
    split; [exact Hresp|]. split; [|exact Hself].
    unfold pruned. rewrite assessment_frame. eauto.
  - left. split; [done|]. by apply (CheckFraud_try_raises _ _ _ _ _ Htry).
Qed.

Lemma serve_cons self clk request calls :
  serve self ((clk, request) :: calls)
  = let out := CheckFraud self clk request fresh_context in
    ((serve out.1.1 calls).1, out.2 :: (serve out.1.1 calls).2).
Proof.
  cbn [serve]. destruct (CheckFraud self clk request fresh_context) as [[self' ctx'] response].
  cbn [fst snd]. by destruct (serve self' calls).
Qed.

(** A service constructed without an API key (or with an empty one, or
    whose model could not be made) never takes an assessor's word: over
    any sequence of calls every score is one of 0, 0.6, 0.7, 0.8 and 1,
    and every accepted transaction has score 0 and the reason "AI
    assessment not available". *)
Theorem service_without_model_is_rule_based (environ : gmap string string)
  (genai_model : string -> option (transaction_data -> generated))
  (calls : list (clock * FraudCheckRequest)) :
  environ !! "GEMINI_API_KEY" = None
  \/ environ !! "GEMINI_API_KEY" = Some ""
  \/ (forall key, genai_model key = None) ->
  Forall (fun response =>
            risk_score response ∈ [0.0; 0.6; 0.7; 0.8; 1.0]%float
            /\ (is_fraud response = false ->
                risk_score response = 0.0%float
                /\ reason response = "AI assessment not available"))
    (serve (FraudDetectionService_init environ genai_model) calls).2.
Proof.
  intros Henv.
  assert (gemini_model (FraudDetectionService_init environ genai_model) = None) as Hnone.
  { unfold FraudDetectionService_init. cbn.
    destruct Henv as [-> | [-> | Hgen]]; [done | done |].
    destruct (environ !! "GEMINI_API_KEY") as [key|]; [|done].
    destruct (String.eqb key ""); [done | apply Hgen]. }
  revert Hnone. generalize (FraudDetectionService_init environ genai_model).
  induction calls as [|[clk request] calls IH]; intros self Hnone; [constructor|].
  rewrite serve_cons. cbv zeta. cbn [snd].
  destruct (CheckFraud_outcome self clk request fresh_context)
    as [[Hresp Hself] | (amt & card & ai & Hresp & [data Hai] & Hself)]; cbv zeta in *.
  - constructor.
    + rewrite Hresp. cbn. split; [|discriminate]. repeat constructor.
    + apply IH. by destruct Hself as [-> | ->].
  - rewrite assessment_absent in Hai by done. subst ai. constructor.
    + rewrite Hresp.
      destruct (response_of_rule_based
                  (_validate_credit_card (now_validate clk) (Some card))
                  (_check_amount_fraud self amt)
                  (velocity_verdict self
                     (last_minute (time_velocity clk)
                        (history_of self (default "anonymous" (demo_pb2.user_id request))))
                     (time_velocity clk) amt) "AI assessment not available")
        as (Hf & Hs & Hr).
      cbv zeta in Hf, Hs, Hr. rewrite Hf, Hs, Hr. split.
      * unfold rule_score.
        destruct (negb _), (fst (_check_amount_fraud _ _)), (fst (velocity_verdict _ _ _ _));
          rewrite list_elem_of_In; cbn [In]; auto 10.
      * intros Hrule. rewrite Hrule. split; [|done]. unfold rule_score.
        by destruct (negb _), (fst (_check_amount_fraud _ _)),
             (fst (velocity_verdict _ _ _ _)).
    + apply IH. rewrite Hself. by destruct (is_fraud _).
Qed.

Lemma service_without_model_is_rule_based_witness :
  let calls :=
    [(clock_2025, request_of (usd 100 0) (card_4532 12 2025) "test-user");
     (clock_2025, request_of (usd 15000 0) (card_4532 12 2025) "test-user")] in
  (∅ : gmap string string) !! "GEMINI_API_KEY" = None
  /\ risk_score <$> (serve (FraudDetectionService_init ∅ (fun _ => None)) calls).2
     = [0.0; 0.6]%float
  /\ Forall (fun response =>
               risk_score response ∈ [0.0; 0.6; 0.7; 0.8; 1.0]%float
               /\ (is_fraud response = false ->
                   risk_score response = 0.0%float
                   /\ reason response = "AI assessment not available"))
       (serve (FraudDetectionService_init ∅ (fun _ => None)) calls).2.
Proof.
  cbv zeta. split; [reflexivity|]. split; [vm_compute; reflexivity|].
  apply service_without_model_is_rule_based. left. reflexivity.
Defined.

(** Over any sequence of calls the history of a user grows by at most
    one event per accepted transaction. *)
Theorem history_grows_only_by_acceptance (self : service)
  (calls : list (clock * FraudCheckRequest)) (u : string) :
  (length (history_of (serve self calls).1 u)
   <= length (history_of self u)
      + length (List.filter (fun response => negb (is_fraud response)) (serve self calls).2))%nat.
Proof.
  revert self. induction calls as [|[clk request] calls IH]; intros self; [cbn; lia|].
  rewrite serve_cons. cbv zeta. cbn [fst snd List.filter].
  set (out := CheckFraud self clk request fresh_context).
  specialize (IH out.1.1).
  assert (length (history_of out.1.1 u)
          <= length (history_of self u) + (if is_fraud out.2 then 0 else 1))%nat as Hstep.
  { pose proof (sublist_length _ _ (pruned_sublist (time_velocity clk)
                  (default "anonymous" (demo_pb2.user_id request)) u self)) as Hp.
    destruct (CheckFraud_outcome self clk request fresh_context)
      as [[Hresp Hself] | (amt & card & ai & _ & _ & Hself)]; cbv zeta in *; fold out in Hself.
    - fold out in Hresp. rewrite Hresp. cbn [is_fraud].
      destruct Hself as [-> | ->]; lia.
    - rewrite Hself. destruct (is_fraud out.2); [lia|].
      destruct (decide (default "anonymous" (demo_pb2.user_id request) = u)) as [<-|Hne].
      + rewrite history_of_recorded, length_app. cbn. lia.
      + rewrite history_of_recorded_ne by done. lia. }
  destruct (is_fraud out.2); cbn [negb length] in *; lia.
Qed.

(** ** The rate limit over a sequence of calls *)

Lemma counted_pruned t u self : counted t u (pruned t u self) = counted t u self.
Proof. unfold counted. by rewrite history_of_pruned, last_minute_idem. Qed.

Lemma counted_recorded t u self ts amt :
  (t - ts <? 60)%float = true ->
  counted t u (recorded (ts, amt) u (pruned t u self)) = S (counted t u self).
Proof.
  intros Hts. unfold counted.
  rewrite history_of_recorded, history_of_pruned, last_minute_app, last_minute_idem.
  rewrite length_app. unfold last_minute at 2. cbn. rewrite Hts. cbn. lia.
Qed.

(** One call, seen from the rate limit: the threshold stays, and the
    count of the user goes up by one exactly when the transaction is
    accepted, which needs the count to be below the threshold. *)
Lemma CheckFraud_counted self clk request ctx :
  let uid := default "anonymous" (demo_pb2.user_id request) in
  let t := time_velocity clk in
  let out := CheckFraud self clk request ctx in
  (t - time_record clk <? 60)%float = true ->
  velocity_threshold out.1.1 = velocity_threshold self
  /\ if is_fraud out.2 then counted t uid out.1.1 = counted t uid self
     else counted t uid out.1.1 = S (counted t uid self)
          /\ Z.of_nat (counted t uid self) < velocity_threshold self.
Proof.
  cbv zeta. intros Hrec.
  destruct (CheckFraud_outcome self clk request ctx)
    as [[Hresp Hself] | (amt & card & ai & Hresp & _ & Hself)]; cbv zeta in *.
  - rewrite Hresp. cbn [is_fraud].
    destruct Hself as [-> | ->]; [done|]. by rewrite counted_pruned.
  - rewrite Hself. destruct (is_fraud _) eqn:Hfraud.
    + by rewrite counted_pruned.
    + split; [done|]. split; [by apply counted_recorded|].
      rewrite Hresp, response_of_is_fraud in Hfraud.
      apply orb_false_iff in Hfraud as [_ Hrule].
      apply orb_false_iff in Hrule as [_ Hvel].
      unfold velocity_verdict in Hvel. fold (counted (time_velocity clk)
        (default "anonymous" (demo_pb2.user_id request)) self) in Hvel.
      destruct (velocity_threshold self <=? _) eqn:Hle; [discriminate|].
      by apply Z.leb_gt in Hle.
Qed.

(** The rate limit holds over any sequence of calls of one user whose
    velocity checks read the same time [t] and whose recordings fall
    within the minute before [t]: no more transactions are accepted
    than the threshold leaves room for at the start. *)
Theorem rate_limit (self : service) (calls : list (clock * FraudCheckRequest))
  (t : float) (u : string) :
  Forall (fun call : clock * FraudCheckRequest =>
            time_velocity call.1 = t
            /\ (t - time_record call.1 <? 60)%float = true
            /\ default "anonymous" (demo_pb2.user_id call.2) = u) calls ->
  Z.of_nat (length (List.filter (fun response => negb (is_fraud response))
                      (serve self calls).2))
  <= Z.max 0 (velocity_threshold self - Z.of_nat (counted t u self)).
Proof.
  revert self. induction calls as [|[clk request] calls IH]; intros self Hcalls.
  { cbn. lia. }
  apply Forall_cons in Hcalls as [(Ht & Hrec & Hu) Hcalls]. cbn [fst snd] in Ht, Hrec, Hu.
  rewrite serve_cons. cbv zeta. cbn [snd List.filter].
  pose proof (CheckFraud_counted self clk request fresh_context) as Hstep.
  cbv zeta in Hstep. rewrite Ht, Hu in Hstep. specialize (Hstep Hrec).
  destruct Hstep as [Hthr Hcount].
  specialize (IH (CheckFraud self clk request fresh_context).1.1 Hcalls).
  rewrite Hthr in IH.
  destruct (is_fraud (CheckFraud self clk request fresh_context).2); cbn [negb].
  - rewrite Hcount in IH. exact IH.
  - destruct Hcount as [Hcount Hroom]. rewrite Hcount in IH. cbn [length]. lia.
Qed.

Lemma rate_limit_witness :
  let request := request_of (usd 100 0) (card_4532 12 2025) "test-user" in
  let calls := replicate 7 (clock_2025, request) in
  is_fraud <$> (serve (init None) calls).2 = [false; false; false; false; false; true; true]
  /\ Z.of_nat (length (List.filter (fun response => negb (is_fraud response))
                         (serve (init None) calls).2)) <= 5.
Proof.
  cbv zeta. split; [vm_compute; reflexivity|].
  apply (rate_limit (init None)
           (replicate 7 (clock_2025, request_of (usd 100 0) (card_4532 12 2025) "test-user"))
           1000.0%float "test-user").
  repeat constructor.
Defined.

(** ** Bounds *)

Section Bounds.

#[local] Open Scope float_scope.

Lemma eqb_compare x y :
  (x =? y) = true -> SFcompare (Prim2SF x) (Prim2SF y) = Some Eq.
Proof.
  rewrite FloatAxioms.eqb_spec. unfold SFeqb.
  by destruct (SFcompare _ _) as [[]|].
Qed.

(** Two floats that compare equal are not strictly ordered, either way. *)
Lemma eqb_not_ltb x y : (x =? y) = true -> (x <? y) = false /\ (y <? x) = false.
Proof.
  intros H%eqb_compare. rewrite !FloatAxioms.ltb_spec. unfold SFltb.
  rewrite (SFcompare_antisym (Prim2SF x) (Prim2SF y)), H. done.
Qed.

Lemma eqb_leb x y : (x =? y) = true -> (x <=? y) = true.
Proof.
  intros H%eqb_compare. rewrite FloatAxioms.leb_spec. unfold SFleb. by rewrite H.
Qed.

(** The bounds of the amount check: a zero amount is invalid, and an
    amount equal to the ceiling is not too high. *)
Theorem amount_bounds (self : service) (amount : float) :
  ((amount =? 0) = true -> _check_amount_fraud self amount = (true, "Invalid amount"))
  /\ ((amount =? max_amount_threshold self) = true -> (amount <=? 0) = false ->
      _check_amount_fraud self amount
      = if (amount =? 9999.99) || (amount =? 5000.00) || (amount =? 1000.00)
        then (true, "Suspicious amount pattern: $" +:+ PyFloat.format_2f amount)
        else (false, "Amount check passed")).
Proof.
  unfold _check_amount_fraud. split.
  - intros H%eqb_leb. by rewrite H.
  - intros [_ H]%eqb_not_ltb ->. rewrite H. cbn [existsb].
    by rewrite orb_false_r, orb_assoc.
Qed.

(** The bounds of the velocity check: an event exactly 60 seconds old
    is dropped, a count equal to the threshold is too many, and a daily
    sum equal to the limit passes. *)
Theorem velocity_bounds (self : service) (t : float) (u : string) (a : float) :
  let kept := last_minute t (history_of self u) in
  let daily_spending := py_sum_float (after_cutoff (t - 86400) kept) + a in
  (forall ts amt l, (t - ts =? 60) = true ->
                    last_minute t ((ts, amt) :: l) = last_minute t l)
  /\ (Z.of_nat (length kept) = velocity_threshold self ->
      snd (_check_velocity_fraud t u a self)
      = Return (true, "Too many transactions: "
                      +:+ PyStr.str_of_Z (velocity_threshold self) +:+ " in last minute"))
  /\ ((Z.of_nat (length kept) < velocity_threshold self)%Z ->
      (daily_spending =? daily_limit self) = true ->
      snd (_check_velocity_fraud t u a self) = Return (false, "Velocity check passed")).
Proof.
  cbv zeta. rewrite velocity_run. cbn [snd]. unfold velocity_verdict. split; [|split].
  - intros ts amt l [H _]%eqb_not_ltb. unfold last_minute. cbn. by rewrite H.
  - intros ->. by rewrite Z.leb_refl.
  - intros Hlt [_ H]%eqb_not_ltb.
    replace (velocity_threshold self <=? _)%Z with false by (symmetry; apply Z.leb_gt; lia).
    by rewrite H.
Qed.

Lemma amount_bounds_witness :
  _check_amount_fraud (init None) 0 = (true, "Invalid amount")
  /\ _check_amount_fraud (init None) (-0) = (true, "Invalid amount")
  /\ _check_amount_fraud (init None) 10000 = (false, "Amount check passed").
Proof.
  split; [exact (proj1 (amount_bounds (init None) 0) eq_refl)|].
  split; [exact (proj1 (amount_bounds (init None) (-0)) eq_refl)|].
  exact (proj2 (amount_bounds (init None) 10000) eq_refl eq_refl).
Defined.

Lemma velocity_bounds_witness :
  last_minute 1000 [(940, 10); (941, 10)] = [(941, 10)]
  /\ snd (_check_velocity_fraud 1000 "test-user" 10
            (with_history "test-user" (replicate 5 (999, 10))))
     = Return (true, "Too many transactions: 5 in last minute")
  /\ snd (_check_velocity_fraud 1000 "test-user" 1000
            (with_history "test-user" [(999, 49000)]))
     = Return (false, "Velocity check passed").
Proof.
  split; [|split].
  - etransitivity;
      [exact (proj1 (velocity_bounds (init None) 1000 "test-user" 10) 940 10 [(941, 10)]
                eq_refl)|].
    vm_compute. reflexivity.
  - exact (proj1 (proj2 (velocity_bounds
                           (with_history "test-user" (replicate 5 (999, 10)))
                           1000 "test-user" 10)) eq_refl).
  - exact (proj2 (proj2 (velocity_bounds (with_history "test-user" [(999, 49000)])
                           1000 "test-user" 1000)) eq_refl eq_refl).
Defined.

End Bounds.

(** ** The answer of the assessor, parsed *)

Section Clamp.

#[local] Open Scope float_scope.

(** The score read from the answer is clamped: below 0 it becomes 0,
    above 1 it becomes 1, a number in between is kept, and NaN stays
    NaN. *)
Theorem assessment_score_is_clamped (self : service) (data : transaction_data)
  (model : transaction_data -> generated) (text : string) (x : float) :
  gemini_model self = Some model ->
  model data = GenText text ->
  PyStr.contains "|" (PyStr.strip text) = true ->
  PyFloat.py_float (score_part_of text) = Some x ->
  let a := fst (_get_ai_fraud_assessment self data) in
  a = (if x <? 0 then 0 else if 1 <? x then 1 else x)
  /\ (PyFloat.is_nan x = false -> (0 <=? a) = true /\ (a <=? 1) = true)
  /\ (PyFloat.is_nan x = true -> PyFloat.is_nan a = true).
Proof.
  intros Hmodel Htext Hbar Hfloat. cbv zeta.
  unfold _get_ai_fraud_assessment, ai_assessment_try.
  rewrite Hmodel, Htext, Hbar. unfold score_part_of in Hfloat. rewrite Hfloat.
  cbn [fst]. unfold PyFloat.py_max, PyFloat.py_min.
  destruct (x <? 0) eqn:Hneg.
  - change (1 <? 0) with false. cbv iota. split; [done|]. split; [done|].
    intros Hnan%is_nan_spec. rewrite FloatAxioms.ltb_spec, Hnan in Hneg. discriminate.
  - destruct (1 <? x) eqn:Hbig.
    + split; [done|]. split; [done|].
      intros Hnan%is_nan_spec. rewrite FloatAxioms.ltb_spec, Hnan in Hbig.
      vm_compute in Hbig. discriminate.
    + split; [done|]. split; [|done].
      intros Hnum.
      assert (Prim2SF x <> S754_nan) as Hx.
      { intros H%is_nan_spec. congruence. }
      split; apply leb_of_not_ltb; try done; vm_compute; discriminate.
Qed.

Lemma assessment_score_is_clamped_witness :
  PyFloat.py_float (score_part_of "SCORE:7.5|REASON:stolen card") = Some 7.5
  /\ fst (_get_ai_fraud_assessment (answering "SCORE:7.5|REASON:stolen card")
            (snapshot clock_2025 100 "USD" (card_4532 12 2025) [])) = 1.
Proof.
  assert (PyFloat.py_float (score_part_of "SCORE:7.5|REASON:stolen card") = Some 7.5)
    as Hfloat by (vm_compute; reflexivity).
  split; [exact Hfloat|].
  destruct (assessment_score_is_clamped (answering "SCORE:7.5|REASON:stolen card")
              (snapshot clock_2025 100 "USD" (card_4532 12 2025) [])
              (fun _ => GenText "SCORE:7.5|REASON:stolen card")
              "SCORE:7.5|REASON:stolen card" 7.5 eq_refl eq_refl eq_refl Hfloat)
    as [Ha _].
  cbv zeta in Ha. rewrite Ha. reflexivity.
Defined.

End Clamp.

Lemma lstrip_nonspace c s :
  PyStr.is_space c = false -> PyStr.lstrip (String c s) = String c s.
Proof. intros H. cbn. by rewrite H. Qed.

Lemma rstrip_cons_nonspace c s :
  PyStr.is_space c = false -> PyStr.rstrip (String c s) = String c (PyStr.rstrip s).
Proof. intros H. cbn [PyStr.rstrip]. destruct (PyStr.rstrip s); by rewrite ?H. Qed.

Lemma rstrip_app p q :
  PyStr.rstrip q = q -> q <> "" -> PyStr.rstrip (p +:+ q) = p +:+ q.
Proof.
  intros Hq Hne. induction p as [|c p IH]; [done|].
  change (String c p +:+ q) with (String c (p +:+ q)).
  cbn [PyStr.rstrip]. rewrite IH.
  destruct (p +:+ q) eqn:E; [|done]. destruct p; simpl in E; [contradiction | discriminate].
Qed.

Lemma prefix_bar c s : String.prefix "|" (String c s) = Ascii.eqb c "|".
Proof.
  destruct (Ascii.eqb_spec c "|") as [->|Hne]; [by destruct s|].
  cbn [String.prefix]. destruct (ascii_dec "|" c); [congruence | done].
Qed.

Lemma contains_bar_cons c s :
  PyStr.contains "|" (String c s) = Ascii.eqb c "|" || PyStr.contains "|" s.
Proof. cbn [PyStr.contains]. by rewrite prefix_bar. Qed.

Lemma contains_bar_app p q : PyStr.contains "|" (p +:+ String "|" q) = true.
Proof.
  induction p as [|c p IH].
  - change ("" +:+ String "|" q) with (String "|" q). by rewrite contains_bar_cons.
  - change (String c p +:+ String "|" q) with (String c (p +:+ String "|" q)).
    rewrite contains_bar_cons, IH. apply orb_true_r.
Qed.

Lemma split_bar_app p q :
  PyStr.contains "|" p = false ->
  PyStr.split "|" (p +:+ String "|" q) = p :: PyStr.split "|" q.
Proof.
  induction p as [|c p IH]; intros H.
  - reflexivity.
  - rewrite contains_bar_cons in H. apply orb_false_iff in H as [Hc Hp].
    change (String c p +:+ String "|" q) with (String c (p +:+ String "|" q)).
    cbn [PyStr.split]. by rewrite Hc, IH.
Qed.

Lemma split_bar_none r : PyStr.contains "|" r = false -> PyStr.split "|" r = [r].
Proof.
  induction r as [|c r IH]; intros H; [done|].
  rewrite contains_bar_cons in H. apply orb_false_iff in H as [Hc Hr].
  cbn [PyStr.split]. by rewrite Hc, IH.
Qed.

(** Nothing is replaced in a string that does not contain [old]. *)
Lemma replace_absent old new s :
  PyStr.contains old s = false -> PyStr.replace old new s = s.
Proof.
  unfold PyStr.replace. induction s as [|c s IH]; intros H; [done|].
  cbn [PyStr.contains] in H. apply orb_false_iff in H as [Hp Hs].
  cbn [PyStr.replace_from]. by rewrite Hp, IH.
Qed.

Lemma prefix_app_refl old s : String.prefix old (old +:+ s) = true.
Proof.
  induction old as [|c old IH]; [by destruct s|].
  change (String c old +:+ s) with (String c (old +:+ s)).
  cbn [String.prefix]. by destruct (ascii_dec c c).
Qed.

Lemma replace_from_skip old new skipped s :
  PyStr.replace_from old new (String.length skipped) (skipped +:+ s)
  = PyStr.replace_from old new 0 s.
Proof.
  induction skipped as [|c skipped IH]; [done|].
  change (String c skipped +:+ s) with (String c (skipped +:+ s)).
  cbn [String.length PyStr.replace_from]. exact IH.
Qed.

(** An occurrence at the head of the string is replaced, and the
    replacement goes on after it. *)
Lemma replace_head c old new s :
  PyStr.replace (String c old) new (String c old +:+ s)
  = new +:+ PyStr.replace (String c old) new s.
Proof.
  unfold PyStr.replace.
  change (String c old +:+ s) with (String c (old +:+ s)).
  cbn [PyStr.replace_from].
  change (String c (old +:+ s)) with (String c old +:+ s).
  rewrite prefix_app_refl. cbn [String.length Nat.sub].
  by rewrite Nat.sub_0_r, replace_from_skip.
Qed.

(** An answer in the format the prompt asks for,
    [SCORE:<score>|REASON:<reason>], is read back: the score is what
    [float] makes of the score text, clamped, and the reason is the
    reason text without the blanks around it. *)
Theorem well_formed_answer_is_parsed (self : service) (data : transaction_data)
  (model : transaction_data -> generated) (s r : string) :
  gemini_model self = Some model ->
  model data = GenText ("SCORE:" +:+ s +:+ "|REASON:" +:+ r) ->
  PyStr.contains "|" s = false -> PyStr.contains "SCORE:" s = false ->
  PyStr.contains "|" r = false -> PyStr.contains "REASON:" r = false ->
  PyStr.rstrip r = r ->
  _get_ai_fraud_assessment self data
  = match PyFloat.py_float (PyStr.strip s) with
    | Some x => (PyFloat.py_min (PyFloat.py_max x 0.0) 1.0, PyStr.strip r)
    | None => (0.2%float, "AI assessment completed")
    end.
Proof.
  intros Hmodel Htext Hs Hscore Hr Hreason Hrstrip.
  unfold _get_ai_fraud_assessment, ai_assessment_try. rewrite Hmodel, Htext.
  set (p := "SCORE:" +:+ s). set (q := "REASON:" +:+ r).
  assert (PyStr.strip ("SCORE:" +:+ s +:+ "|REASON:" +:+ r) = p +:+ String "|" q) as ->.
  { unfold PyStr.strip.
    change ("SCORE:" +:+ s +:+ "|REASON:" +:+ r) with (String "S" ("CORE:" +:+ s +:+ "|REASON:" +:+ r)).
    rewrite lstrip_nonspace by reflexivity.
    change (String "S" ("CORE:" +:+ s +:+ "|REASON:" +:+ r)) with (p +:+ String "|" q).
    apply rstrip_app; [|done].
    unfold q. change (String "|" ("REASON:" +:+ r))
      with (String "|" (String "R" (String "E" (String "A" (String "S" (String "O"
             (String "N" (String ":" r)))))))).
    rewrite !rstrip_cons_nonspace by reflexivity. by rewrite Hrstrip. }
  rewrite contains_bar_app.
  assert (PyStr.contains "|" p = false) as Hp.
  { unfold p. change ("SCORE:" +:+ s)
      with (String "S" (String "C" (String "O" (String "R" (String "E" (String ":" s)))))).
    rewrite !contains_bar_cons. by rewrite Hs. }
  assert (PyStr.contains "|" q = false) as Hq.
  { unfold q. change ("REASON:" +:+ r)
      with (String "R" (String "E" (String "A" (String "S" (String "O"
             (String "N" (String ":" r))))))).
    rewrite !contains_bar_cons. by rewrite Hr. }
  rewrite split_bar_app, split_bar_none by done.
  cbn [nth length Nat.ltb Nat.leb].
  unfold p, q. rewrite !replace_head.
  change ("" +:+ PyStr.replace "SCORE:" "" s) with (PyStr.replace "SCORE:" "" s).
  change ("" +:+ PyStr.replace "REASON:" "" r) with (PyStr.replace "REASON:" "" r).
  rewrite !replace_absent by done.
  by destruct (PyFloat.py_float (PyStr.strip s)).
Qed.

Lemma well_formed_answer_is_parsed_witness :
  PyStr.rstrip "Moderate risk transaction" = "Moderate risk transaction"
  /\ _get_ai_fraud_assessment (answering "SCORE:0.3|REASON:Moderate risk transaction")
       (snapshot clock_2025 100 "USD" (card_4532 12 2025) [])
     = (0.3%float, "Moderate risk transaction").
Proof.
  split; [reflexivity|].
  etransitivity;
    [apply (well_formed_answer_is_parsed
              (answering "SCORE:0.3|REASON:Moderate risk transaction")
              (snapshot clock_2025 100 "USD" (card_4532 12 2025) [])
              (fun _ => GenText "SCORE:0.3|REASON:Moderate risk transaction")
              "0.3" "Moderate risk transaction"); reflexivity|].
  vm_compute. reflexivity.
Defined.

(** ** Floats: how far rounding can move a product or a sum *)

Section Rounding.

Lemma digits2_pos_bounds m :
  2 ^ (Z.pos (digits2_pos m) - 1) <= Z.pos m < 2 ^ Z.pos (digits2_pos m).
Proof.
  induction m as [m IH|m IH|]; cbn [digits2_pos]; [| |cbn; lia].
  - rewrite Pos2Z.inj_succ.
    replace (Z.succ (Z.pos (digits2_pos m)) - 1) with (Z.succ (Z.pos (digits2_pos m) - 1)) by lia.
    rewrite !Z.pow_succ_r by lia. lia.
  - rewrite Pos2Z.inj_succ.
    replace (Z.succ (Z.pos (digits2_pos m)) - 1) with (Z.succ (Z.pos (digits2_pos m) - 1)) by lia.
    rewrite !Z.pow_succ_r by lia. lia.
Qed.

Lemma shr_1_half mrs : 0 <= shr_m mrs -> shr_m (shr_1 mrs) = shr_m mrs / 2.
Proof.
  destruct mrs as [m r s]. cbn. destruct m as [|p|p]; [done| |lia].
  intros _. destruct p as [p|p|]; cbn [shr_m].
  - rewrite (Pos2Z.inj_xI p). apply Z.div_unique with 1; lia.
  - rewrite (Pos2Z.inj_xO p). apply Z.div_unique with 0; lia.
  - done.
Qed.

Lemma iter_pos_shr_1 n : forall mrs,
  0 <= shr_m mrs ->
  shr_m (SpecFloat.iter_pos shr_1 n mrs) = shr_m mrs / 2 ^ Z.pos n.
Proof.
  assert (forall mrs, 0 <= shr_m mrs -> 0 <= shr_m (shr_1 mrs)) as Hpos
    by apply shr_1_nonneg.
  assert (forall k mrs, 0 <= shr_m mrs -> 0 <= shr_m (SpecFloat.iter_pos shr_1 k mrs)) as Hiter.
  { intros k mrs. by apply (iter_pos_invariant shr_1 (fun x => 0 <= shr_m x)). }
  induction n as [n IH|n IH|]; intros mrs Hm; cbn [SpecFloat.iter_pos].
  - rewrite IH, IH, shr_1_half by auto.
    rewrite !Z.div_div by lia. f_equal.
    rewrite (Pos2Z.inj_xI n).
    replace (2 * Z.pos n + 1) with (1 + Z.pos n + Z.pos n) by lia.
    rewrite !Z.pow_add_r by lia. change (2 ^ 1) with 2. lia.
  - rewrite IH, IH by auto. rewrite Z.div_div by lia. f_equal.
    rewrite (Pos2Z.inj_xO n).
    replace (2 * Z.pos n) with (Z.pos n + Z.pos n) by lia.
    by rewrite Z.pow_add_r by lia.
  - rewrite shr_1_half by done. done.
Qed.

(** Shifting right is dividing by a power of two, and moves the
    exponent up by as much. *)
Lemma shr_div mrs e n :
  0 <= shr_m mrs ->
  exists k, 0 <= k /\ snd (shr mrs e n) = e + k
            /\ shr_m (fst (shr mrs e n)) = shr_m mrs / 2 ^ k
            /\ k = Z.max 0 n.
Proof.
  intros Hm. unfold shr. destruct n as [|p|p].
  - exists 0. cbn [fst snd]. rewrite Z.div_1_r. repeat split; lia.
  - exists (Z.pos p). cbn [fst snd]. rewrite iter_pos_shr_1 by done. repeat split; lia.
  - exists 0. cbn [fst snd]. rewrite Z.div_1_r. repeat split; lia.
Qed.

Lemma round_nearest_even_range m l :
  m <= round_nearest_even m l <= m + 1.
Proof. destruct l as [|[]]; cbn; [lia| |lia|lia]. destruct (Z.even m); lia. Qed.

Lemma Zdigits2_le x n : 0 <= n -> 0 <= x <= 2 ^ n -> Zdigits2 x <= n + 1.
Proof.
  intros Hn [Hx Hxn]. destruct x as [|p|p]; cbn; [lia| |lia].
  pose proof (digits2_pos_bounds p) as [Hlo _].
  destruct (Z_le_gt_dec (Z.pos (digits2_pos p)) (n + 1)) as [|Hgt]; [done|].
  assert (2 ^ (n + 1) <= 2 ^ (Z.pos (digits2_pos p) - 1)) by (apply Z.pow_le_mono_r; lia).
  assert (2 ^ n < 2 ^ (n + 1)) by (apply Z.pow_lt_mono_r; lia).
  lia.
Qed.

Lemma div_succ_le x y : 0 < y -> (x + 1) / y <= x / y + 1.
Proof.
  intros Hy. replace (x / y + 1) with ((x + 1 * y) / y) by (rewrite Z.div_add; lia).
  apply Z.div_le_mono; lia.
Qed.

(** What rounding a positive integer mantissa [M] at exponent [E] gives:
    the mantissa is [M] shifted to the new exponent, or one more; the
    new exponent is the canonical one of [M], or one more. *)
Lemma binary_round_aux_bounds (M : positive) (E : Z) :
  let fe := SpecFloat.fexp prec emax (Z.pos (digits2_pos M) + E) in
  exists m' e',
    binary_round_aux prec emax false (Z.pos M) E loc_Exact
    = match m' with
      | Z0 => S754_zero false
      | Z.pos p => if e' <=? emax - prec then S754_finite false p e' else S754_infinity false
      | Z.neg _ => S754_nan
      end
    /\ Z.max E fe <= e' <= Z.max E (fe + 1)
    /\ Z.pos M / 2 ^ (e' - E) <= m' <= Z.pos M / 2 ^ (e' - E) + 1.
Proof.
  intros fe. unfold binary_round_aux, shr_fexp.
  cbn [shr_record_of_loc Zdigits2]. fold fe.
  set (mrs0 := {| shr_m := Z.pos M; shr_r := false; shr_s := false |}).
  destruct (shr_div mrs0 E (fe - E)) as (k1 & Hk1 & He1 & Hm1 & Hk1'); [done|].
  destruct (shr mrs0 E (fe - E)) as [mrs1 e1]. cbn [fst snd] in He1, Hm1.
  cbn [shr_m mrs0] in Hm1.
  pose proof (round_nearest_even_range (shr_m mrs1) (loc_of_shr_record mrs1)) as Hr.
  set (m1r := round_nearest_even (shr_m mrs1) (loc_of_shr_record mrs1)) in *.
  assert (0 <= Z.pos M / 2 ^ k1) as Hq1 by (apply Z.div_pos; lia).
  set (mrs1' := {| shr_m := m1r; shr_r := false; shr_s := false |}).
  set (n2 := SpecFloat.fexp prec emax (Zdigits2 m1r + e1) - e1).
  destruct (shr_div mrs1' e1 n2) as (k2 & Hk2 & He2 & Hm2 & Hk2'); [cbn; lia|].
  destruct (shr mrs1' e1 n2) as [mrs2 e2]. cbn [fst snd] in He2, Hm2.
  cbn [shr_m mrs1'] in Hm2.
  exists (shr_m mrs2), e2. split; [reflexivity|].
  pose proof (digits2_pos_bounds M) as [HMlo HMhi].
  set (d := Z.pos (digits2_pos M)) in *.
  assert (prec = 53) as Hprec by reflexivity.
  assert (Zdigits2 m1r + e1 - prec <= fe + 1) as Hd.
  { destruct (Z_le_gt_dec k1 d) as [Hle|Hgt].
    - assert (Z.pos M / 2 ^ k1 < 2 ^ (d - k1)).
      { apply Z.div_lt_upper_bound; [lia|]. rewrite <- Z.pow_add_r by lia.
        by replace (k1 + (d - k1)) with d by lia. }
      assert (Zdigits2 m1r <= d - k1 + 1) by (apply Zdigits2_le; lia).
      unfold fe, SpecFloat.fexp. fold d. lia.
    - assert (Z.pos M / 2 ^ k1 = 0) as Hz.
      { apply Z.div_small. split; [lia|].
        assert (2 ^ d < 2 ^ k1) by (apply Z.pow_lt_mono_r; lia). lia. }
      assert (Zdigits2 m1r <= 0 + 1) by (apply Zdigits2_le; [lia|]; change (2 ^ 0) with 1; lia).
      subst e1. lia. }
  assert (SpecFloat.emin prec emax <= fe) as Hemin by (unfold fe, SpecFloat.fexp; lia).
  assert (e2 - E = k1 + k2) as HK by lia.
  split.
  - subst n2. unfold SpecFloat.fexp in Hk2'. lia.
  - rewrite HK, Z.pow_add_r, <- Z.div_div by lia. rewrite Hm2.
    split.
    + apply Z.div_le_mono; lia.
    + transitivity ((Z.pos M / 2 ^ k1 + 1) / 2 ^ k2).
      * apply Z.div_le_mono; lia.
      * apply div_succ_le. lia.
Qed.

Lemma digits2_pos_le M n : Z.pos M < 2 ^ n -> Z.pos (digits2_pos M) <= n.
Proof.
  intros HM. pose proof (digits2_pos_bounds M) as [Hlo _].
  destruct (Z_le_gt_dec (Z.pos (digits2_pos M)) n) as [|Hgt]; [done|].
  assert (0 <= n).
  { destruct (Z_le_gt_dec 0 n); [done|]. rewrite Z.pow_neg_r in HM; lia. }
  assert (2 ^ n <= 2 ^ (Z.pos (digits2_pos M) - 1)) by (apply Z.pow_le_mono_r; lia).
  lia.
Qed.

(** Rounding an integer mantissa whose value is below [2 ^ n] gives at
    most [2 ^ n]. *)
Lemma binary_round_aux_below (M : positive) (E n : Z) :
  Z.pos M < 2 ^ (n - E) -> E <= n - 52 -> -1021 <= n <= 1023 ->
  sf_at_most_pow2 n (binary_round_aux prec emax false (Z.pos M) E loc_Exact).
Proof.
  intros HM HE Hn.
  destruct (binary_round_aux_bounds M E) as (m' & e' & -> & He' & Hm').
  pose proof (digits2_pos_le M _ HM) as Hd.
  assert (0 <= n - E).
  { destruct (Z_le_gt_dec 0 (n - E)); [done|]. rewrite Z.pow_neg_r in HM; lia. }
  unfold SpecFloat.fexp, SpecFloat.emin in He'.
  change prec with 53 in *. change emax with 1024 in *.
  assert (0 <= Z.pos M / 2 ^ (e' - E)) by (apply Z.div_pos; lia).
  destruct m' as [|p|p]; [done| |lia].
  assert (e' <= n - 52) as Hle by lia.
  replace (e' <=? 1024 - 53) with true by (symmetry; apply Z.leb_le; lia).
  cbn [sf_at_most_pow2].
  destruct (Z.eq_dec e' (n - 52)) as [->|]; [right|left; lia].
  split; [done|].
  assert (Z.pos M / 2 ^ (n - 52 - E) < 2 ^ 52); [|lia].
  apply Z.div_lt_upper_bound; [lia|]. rewrite <- Z.pow_add_r by lia.
  by replace (n - 52 - E + 52) with (n - E) by lia.
Qed.

#[local] Open Scope float_scope.

(** A score within [0, 1], weighted by 0.3, is at most one half. *)
Lemma weighted_score_small a :
  (0 <=? a) = true -> (a <=? 1) = true ->
  sf_at_most_pow2 (-1) (Prim2SF (a * 0.3)).
Proof.
  intros Hlo Hhi. rewrite FloatAxioms.mul_spec.
  apply leb_zero_nonneg in Hlo. unfold nonneg in Hlo.
  rewrite FloatAxioms.leb_spec in Hhi.
  pose proof (Prim2SF_valid a) as Hvalid.
  change (Prim2SF 0.3) with (S754_finite false 5404319552844595 (-54)).
  change (Prim2SF 1) with (S754_finite false 4503599627370496 (-52)) in Hhi.
  destruct (Prim2SF a) as [s|s| |s m e]; try done.
  { by destruct s. }
  cbn in Hlo. subst s. unfold SF64mul. cbn [SFmul xorb].
  cbn [valid_binary] in Hvalid. unfold bounded, canonical_mantissa in Hvalid.
  apply andb_prop in Hvalid as [Hcanon%Z.eqb_eq _].
  unfold SpecFloat.fexp, SpecFloat.emin in Hcanon.
  change prec with 53%Z in Hcanon. change emax with 1024%Z in Hcanon.
  pose proof (digits2_pos_bounds m) as [Hmlo Hmhi].
  assert (Z.pos (digits2_pos m) <= 53)%Z as Hdm by lia.
  assert (Z.pos m < 2 ^ 53)%Z as Hm53.
  { eapply Z.lt_le_trans; [exact Hmhi|]. apply Z.pow_le_mono_r; lia. }
  unfold SFleb in Hhi. cbn [SFcompare] in Hhi.
  assert (e < -52 \/ (e = -52 /\ Z.pos m <= 4503599627370496))%Z as Hcase.
  { destruct (e ?= -52)%Z eqn:He; try done.
    - apply Z.compare_eq in He. right. split; [done|].
      rewrite (Pos.compare_cont_spec m 4503599627370496 Eq) in Hhi.
      cbn [Pos.switch_Eq] in Hhi.
      destruct (m ?= 4503599627370496)%positive eqn:Hc; [| |discriminate Hhi].
      + apply Pos.compare_eq in Hc. subst m. apply Z.le_refl.
      + apply Pos.compare_lt_iff, Pos2Z.pos_lt_pos in Hc. clear -Hc. lia.
    - apply Z.compare_lt_iff in He. by left. }
  apply binary_round_aux_below; [|lia|lia].
  rewrite Pos2Z.inj_mul.
  assert (2 ^ 53 = 9007199254740992)%Z as H53 by reflexivity.
  rewrite H53 in Hm53.
  destruct Hcase as [He | [-> Hm]].
  - apply Z.lt_le_trans with (2 ^ 106)%Z.
    + assert (2 ^ 106 = 81129638414606681695789005144064)%Z as -> by reflexivity.
      clear -Hm53. lia.
    + apply Z.pow_le_mono_r; lia.
  - assert (2 ^ (-1 - (-52 + -54)) = 40564819207303340847894502572032)%Z as ->
      by reflexivity.
    clear -Hm. lia.
Qed.

(** Zero plus a float that is at most one half stays there, and so
    through [min(_, 1.0)]; it is not above 0.7. *)
Lemma small_score_not_above_threshold p :
  sf_at_most_pow2 (-1) (Prim2SF p) ->
  (0.7 <? PyFloat.py_min (0.0 + p) 1.0) = false.
Proof.
  intros Hp.
  assert (sf_at_most_pow2 (-1) (Prim2SF (0.0 + p))) as Hsum.
  { rewrite FloatAxioms.add_spec. change (Prim2SF 0.0) with (S754_zero false).
    unfold SF64add. destruct (Prim2SF p) as [s|s| |s m e]; try done.
    by destruct s. }
  clear Hp. set (x := 0.0 + p) in *.
  assert (forall m e, (e < -1 - 52 \/ e = -1 - 52 /\ Z.pos m <= 2 ^ 52)%Z ->
          forall m0 e0, (-53 <= e0)%Z -> (2 ^ 52 < Z.pos m0)%Z \/ (-53 < e0)%Z ->
          SFltb (S754_finite false m0 e0) (S754_finite false m e) = false) as Hcmp.
  { intros m e He m0 e0 He0 Hm0. unfold SFltb. cbn [SFcompare].
    destruct (e0 ?= e)%Z eqn:Hc; try done.
    - apply Z.compare_eq in Hc. subst e0.
      change (Pos.compare_cont Eq m0 m) with (m0 ?= m)%positive.
      replace (m0 ?= m)%positive with Gt; [done|].
      symmetry. apply Pos.compare_gt_iff. lia.
    - change (e0 < e)%Z in Hc. exfalso. lia. }
  unfold PyFloat.py_min.
  replace (1 <? x) with false.
  - rewrite FloatAxioms.ltb_spec.
    change (Prim2SF 0.7) with (S754_finite false 6305039478318694 (-53)).
    destruct (Prim2SF x) as [s|s| |s m e]; try done. destruct s; [done|].
    apply Hcmp; [exact Hsum|lia|]. left. change (2 ^ 52)%Z with 4503599627370496%Z. lia.
  - symmetry. rewrite FloatAxioms.ltb_spec.
    change (Prim2SF 1) with (S754_finite false 4503599627370496 (-52)).
    destruct (Prim2SF x) as [s|s| |s m e]; try done. destruct s; [done|].
    apply Hcmp; [exact Hsum|lia|]. right. lia.
Qed.

#[local] Open Scope Z_scope.

Lemma iter_xO m d : Z.pos (Pos.iter xO m d) = Z.pos m * 2 ^ Z.pos d.
Proof.
  induction d as [|d IH] using Pos.peano_ind.
  - cbn [Pos.iter]. rewrite (Pos2Z.inj_xO m). change (2 ^ 1) with 2. lia.
  - rewrite Pos.iter_succ, (Pos2Z.inj_xO (Pos.iter xO m d)), IH, Pos2Z.inj_succ.
    rewrite Z.pow_succ_r by lia. lia.
Qed.

(** Aligning a mantissa to a smaller exponent keeps the value. *)
Lemma shl_align_spec mx ex ex' :
  snd (shl_align mx ex ex') = Z.min ex ex'
  /\ Z.pos (fst (shl_align mx ex ex')) = Z.pos mx * 2 ^ (ex - snd (shl_align mx ex ex')).
Proof.
  unfold shl_align. destruct (ex' - ex) as [|d|d] eqn:Hd; cbn [fst snd].
  - split; [lia|]. rewrite Z.sub_diag. change (2 ^ 0) with 1. lia.
  - split; [lia|]. rewrite Z.sub_diag. change (2 ^ 0) with 1. lia.
  - split; [lia|]. rewrite iter_xO. do 2 f_equal. lia.
Qed.

Lemma digits2_pos_shift x y k :
  0 <= k -> Z.pos y * 2 ^ k <= Z.pos x ->
  Z.pos (digits2_pos y) + k <= Z.pos (digits2_pos x).
Proof.
  intros Hk Hxy.
  pose proof (digits2_pos_bounds y) as [Hy _]. pose proof (digits2_pos_bounds x) as [_ Hx].
  set (dx := Z.pos (digits2_pos x)) in *. set (dy := Z.pos (digits2_pos y)) in *.
  destruct (Z_le_gt_dec (dy + k) dx) as [|Hgt]; [done|].
  assert (2 ^ dx <= 2 ^ (dy - 1 + k)) as H1 by (apply Z.pow_le_mono_r; lia).
  rewrite Z.pow_add_r in H1 by lia.
  assert (2 ^ (dy - 1) * 2 ^ k <= Z.pos y * 2 ^ k).
  { apply Z.mul_le_mono_nonneg_r; [apply Z.pow_nonneg; lia | done]. }
  lia.
Qed.

(** Rounding a mantissa that is worth at least the normal float
    [(mc, ec)] gives at least that float. *)
Lemma binary_round_at_least (S : positive) (ez : Z) (mc : positive) (ec : Z) :
  digits2_pos mc = 53%positive -> SpecFloat.emin prec emax <= ec -> ez <= ec ->
  Z.pos mc * 2 ^ (ec - ez) <= Z.pos S ->
  sf_at_least mc ec (binary_round prec emax false S ez).
Proof.
  intros Hnormal Hec Hez HS. unfold binary_round.
  destruct (shl_align_spec S ez (SpecFloat.fexp prec emax (Z.pos (digits2_pos S) + ez)))
    as [He2 Hm2].
  destruct (shl_align S ez _) as [mz ez']. cbn [fst snd] in He2, Hm2.
  destruct (binary_round_aux_bounds mz ez') as (m' & e' & -> & He' & Hm').
  cbv zeta in He'.
  assert (ez' <= ez) as Hle by lia.
  assert (Z.pos mc * 2 ^ (ec - ez') <= Z.pos mz) as Hmz.
  { rewrite Hm2. replace (ec - ez') with ((ec - ez) + (ez - ez')) by lia.
    rewrite Z.pow_add_r, Z.mul_assoc by lia.
    apply Z.mul_le_mono_nonneg_r; [apply Z.pow_nonneg; lia | done]. }
  pose proof (digits2_pos_shift mz mc (ec - ez') ltac:(lia) Hmz) as Hd.
  rewrite Hnormal in Hd.
  unfold SpecFloat.fexp in He'. unfold SpecFloat.emin in *.
  change prec with 53 in *. change emax with 1024 in *.
  assert (ec <= e') as Hece by lia.
  assert (Z.pos mc <= Z.pos mz / 2 ^ (ec - ez')) as Hfloor.
  { apply Z.div_le_lower_bound; [apply Z.pow_pos_nonneg; lia | lia]. }
  assert (1 <= Z.pos mz / 2 ^ (e' - ez')) as Hpos.
  { apply Z.div_le_lower_bound; [apply Z.pow_pos_nonneg; lia|]. rewrite Z.mul_1_r.
    pose proof (digits2_pos_bounds mz) as [Hlo _].
    eapply Z.le_trans; [|exact Hlo]. apply Z.pow_le_mono_r; lia. }
  destruct m' as [|p|p]; [lia| |lia].
  destruct (e' <=? 1024 - 53); [|done].
  cbn [sf_at_least].
  destruct (Z.eq_dec e' ec) as [->|]; [right|left; lia].
  split; [done|]. lia.
Qed.

(** Adding a float that is not below zero to a normal positive float
    does not give less. *)
Lemma SFadd_at_least (mc : positive) (ec : Z) (p : spec_float) :
  digits2_pos mc = 53%positive -> SpecFloat.emin prec emax <= ec ->
  sf_nonneg p ->
  sf_at_least mc ec (SFadd prec emax (S754_finite false mc ec) p).
Proof.
  intros Hnormal Hec Hp. destruct p as [s|s| |s mp ep]; cbn [SFadd]; try done.
  - cbn. right. split; [done | lia].
  - cbn in Hp. by subst s.
  - cbn in Hp. subst s. cbn [cond_Zopp].
    destruct (shl_align_spec mc ec (Z.min ec ep)) as [He1 Hm1].
    destruct (shl_align_spec mp ep (Z.min ec ep)) as [He2 Hm2].
    set (a := fst (shl_align mc ec (Z.min ec ep))) in *.
    set (b := fst (shl_align mp ep (Z.min ec ep))) in *.
    change (Z.pos a + Z.pos b) with (Z.pos (a + b)).
    cbn [binary_normalize].
    apply binary_round_at_least; [done | done | lia |].
    rewrite Pos2Z.inj_add, Hm1, He1.
    replace (Z.min ec (Z.min ec ep)) with (Z.min ec ep) by lia. lia.
Qed.

Lemma sf_at_least_leb mc ec x :
  sf_at_least mc ec x -> SFleb (S754_finite false mc ec) x = true.
Proof.
  destruct x as [s|s| |s m e]; cbn [sf_at_least]; try done.
  - by destruct s.
  - destruct s; [done|]. intros He. unfold SFleb. cbn [SFcompare].
    destruct (ec ?= e) eqn:Hc; [|done|].
    + rewrite (Pos.compare_cont_spec mc m Eq). cbn [Pos.switch_Eq].
      destruct (mc ?= m)%positive eqn:Hm; [done|done|].
      apply Pos.compare_gt_iff, Pos2Z.pos_lt_pos in Hm. exfalso.
      apply Z.compare_eq in Hc. lia.
    + change (ec > e) in Hc. exfalso. lia.
Qed.

Lemma sf_at_least_ltb mc ec x mt et :
  sf_at_least mc ec x -> et < ec \/ (et = ec /\ Z.pos mt < Z.pos mc) ->
  SFltb (S754_finite false mt et) x = true.
Proof.
  destruct x as [s|s| |s m e]; cbn [sf_at_least]; try done.
  - by destruct s.
  - destruct s; [done|]. intros He Ht. unfold SFltb. cbn [SFcompare].
    destruct (et ?= e) eqn:Hc; [|done|].
    + rewrite (Pos.compare_cont_spec mt m Eq). cbn [Pos.switch_Eq].
      apply Z.compare_eq in Hc.
      replace (mt ?= m)%positive with Lt; [done|].
      symmetry. apply Pos.compare_lt_iff, Pos2Z.pos_lt_pos.
      change (Z.pos mt < Z.pos m). lia.
    + change (et > e) in Hc. exfalso. lia.
Qed.

End Rounding.

(** ** The assessor and the decision *)

Section Decision.

#[local] Open Scope float_scope.

(** Whatever the assessor answers, the response is fraud exactly when a
    check produced a reason: 0.3 times a score within [0, 1] is not
    above 0.7, and a NaN is above nothing. *)
Lemma response_of_decision self data card amt vel :
  is_fraud (response_of card amt vel (_get_ai_fraud_assessment self data))
  = negb (fst card) || fst amt || fst vel.
Proof.
  rewrite response_of_is_fraud.
  destruct (negb (fst card) || fst amt || fst vel) eqn:Hrule; [apply orb_true_r|].
  rewrite orb_false_r.
  apply orb_false_iff in Hrule as [[Hc%negb_false_iff Ha]%orb_false_iff Hv].
  pose proof (assessment_score_range self data) as Hai. cbv zeta in Hai.
  destruct Hai as [Hnan | [Hlo Hhi]].
  - pose proof (response_score_nan card amt vel _ Hnan) as Hr%is_nan_spec.
    rewrite FloatAxioms.ltb_spec, Hr. reflexivity.
  - unfold response_of. cbn [risk_score]. rewrite Hc, Ha, Hv. cbn [negb].
    by apply small_score_not_above_threshold, weighted_score_small.
Qed.

Lemma request_amount_result request self self0 :
  snd (request_amount request self) = snd (request_amount request self0).
Proof.
  unfold request_amount, getattr, int_to_float, raise, mbind, M_bind, mret, M_ret.
  destruct (demo_pb2.amount request) as [money|]; [|done].
  destruct (PyFloat.of_int (nanos money)); [|done].
  by destruct (PyFloat.of_int (units money)).
Qed.

(** The assessor never decides: with another assessor, or none, the
    same call gives the same verdict, sets the same status on the
    context and leaves the same histories.  Only the score and the
    reason of an accepted transaction can differ. *)
Theorem assessor_never_decides (self : service) (clk : clock)
  (request : FraudCheckRequest) (ctx : context)
  (model : option (transaction_data -> generated)) :
  let out := CheckFraud self clk request ctx in
  let out' := CheckFraud (set_model self model) clk request ctx in
  is_fraud out'.2 = is_fraud out.2
  /\ out'.1.2 = out.1.2
  /\ transaction_history out'.1.1 = transaction_history out.1.1.
Proof.
  cbv zeta. unfold CheckFraud. rewrite !CheckFraud_try_run.
  pose proof (request_amount_result request (set_model self model) self) as Hamt.
  destruct (request_amount request (set_model self model)) as [s1 r1].
  destruct (request_amount request self) as [s2 r2].
  cbn [snd] in Hamt. subst r2.
  destruct r1 as [amt|e]; [|done].
  cbv zeta.
  destruct (demo_pb2.credit_card request) as [card|]; [|done].
  destruct (demo_pb2.amount request) as [money|]; [|done].
  cbn [fst snd]. rewrite !response_of_decision.
  change (_check_amount_fraud (set_model self model) amt)
    with (_check_amount_fraud self amt).
  change (history_of (set_model self model)) with (history_of self).
  change (velocity_verdict (set_model self model)) with (velocity_verdict self).
  split; [done|]. split; [done|].
  by destruct (negb _ || _ || _).
Qed.

(** When the call returns normally, the verdict is that of the three
    checks, whatever the assessor answered. *)
Theorem verdict_is_that_of_the_checks (self : service) (clk : clock)
  (request : FraudCheckRequest) (self' : service) (response : FraudCheckResponse) :
  CheckFraud_try clk request self = (self', Return response) ->
  exists amt velocity,
    let uid := default "anonymous" (demo_pb2.user_id request) in
    let card := _validate_credit_card (now_validate clk) (demo_pb2.credit_card request) in
    let amount := _check_amount_fraud self amt in
    request_amount request self = (self, Return amt)
    /\ snd (_check_velocity_fraud (time_velocity clk) uid amt self) = Return velocity
    /\ is_fraud response = negb (fst card) || fst amount || fst velocity.
Proof.
  intros Htry.
  destruct (CheckFraud_try_returns _ _ _ _ _ Htry)
    as (amt & money & card & Hamt & _ & Hcard & Hresp & _).
  cbv zeta in Hresp. exists amt. eexists. cbv zeta.
  rewrite velocity_run, Hcard. split; [done|]. split; [reflexivity|].
  rewrite Hresp. apply response_of_decision.
Qed.

Lemma verdict_is_that_of_the_checks_witness :
  let self := answering "SCORE:1.0|REASON:certainly a fraud" in
  let request := request_of (usd 100 0) (card_4532 12 2025) "test-user" in
  let response :=
    {| is_fraud := false; risk_score := 0.3; reason := "certainly a fraud" |} in
  CheckFraud_try clock_2025 request self
  = (recorded (1000.5, 100) "test-user" (pruned 1000.0 "test-user" self), Return response)
  /\ exists amt velocity,
       request_amount request self = (self, Return amt)
       /\ snd (_check_velocity_fraud 1000.0 "test-user" amt self) = Return velocity
       /\ false = negb (fst (_validate_credit_card (now_validate clock_2025)
                               (Some (card_4532 12 2025))))
                  || fst (_check_amount_fraud self amt) || fst velocity.
Proof.
  cbv zeta.
  assert (CheckFraud_try clock_2025
            (request_of (usd 100 0) (card_4532 12 2025) "test-user")
            (answering "SCORE:1.0|REASON:certainly a fraud")
          = (recorded (1000.5, 100) "test-user"
               (pruned 1000.0 "test-user" (answering "SCORE:1.0|REASON:certainly a fraud")),
             Return {| is_fraud := false; risk_score := 0.3;
                       reason := "certainly a fraud" |}))
    as Htry by (vm_compute; reflexivity).
  split; [exact Htry|].
  exact (verdict_is_that_of_the_checks _ _ _ _ _ Htry).
Defined.

(** A weight sum [c] (a normal positive float) plus a summand that is
    not below zero, through [min(_, 1.0)]. *)
Lemma sum_at_least c p mc ec :
  Prim2SF c = S754_finite false mc ec ->
  digits2_pos mc = 53%positive -> (SpecFloat.emin prec emax <= ec)%Z ->
  nonneg p ->
  sf_at_least mc ec (Prim2SF (c + p)).
Proof.
  intros Hc Hn He Hp. rewrite FloatAxioms.add_spec, Hc. by apply SFadd_at_least.
Qed.

Lemma clamped_sum_above t c p mc ec mt et :
  Prim2SF c = S754_finite false mc ec ->
  digits2_pos mc = 53%positive -> (SpecFloat.emin prec emax <= ec)%Z ->
  Prim2SF t = S754_finite false mt et ->
  (et < ec \/ (et = ec /\ Z.pos mt < Z.pos mc))%Z ->
  (t <? 1) = true ->
  nonneg p ->
  (t <? PyFloat.py_min (c + p) 1) = true.
Proof.
  intros Hc Hn He Ht Hlt Ht1 Hp. unfold PyFloat.py_min.
  destruct (1 <? c + p); [done|].
  rewrite FloatAxioms.ltb_spec, Ht.
  eapply sf_at_least_ltb; [by eapply sum_at_least | done].
Qed.

Lemma clamped_sum_at_least c p mc ec :
  Prim2SF c = S754_finite false mc ec ->
  digits2_pos mc = 53%positive -> (SpecFloat.emin prec emax <= ec)%Z ->
  (c <=? 1) = true ->
  nonneg p ->
  (c <=? PyFloat.py_min (c + p) 1) = true.
Proof.
  intros Hc Hn He Hc1 Hp. unfold PyFloat.py_min.
  destruct (1 <? c + p); [done|].
  rewrite FloatAxioms.leb_spec, Hc.
  eapply sf_at_least_leb. by eapply sum_at_least.
Qed.

Lemma clamped_sum_one c p mc ec :
  Prim2SF c = S754_finite false mc ec ->
  digits2_pos mc = 53%positive -> (SpecFloat.emin prec emax <= ec)%Z ->
  (-52 < ec \/ (-52 = ec /\ 4503599627370496 < Z.pos mc))%Z ->
  nonneg p ->
  PyFloat.py_min (c + p) 1 = 1.
Proof.
  intros Hc Hn He Hlt Hp. unfold PyFloat.py_min.
  replace (1 <? c + p) with true; [done|]. symmetry.
  rewrite FloatAxioms.ltb_spec.
  change (Prim2SF 1) with (S754_finite false 4503599627370496 (-52)).
  eapply sf_at_least_ltb; [by eapply sum_at_least | done].
Qed.

(** The score of the response is at least what the checks alone give,
    and above 0.7 when the card check failed, as soon as the score of
    the assessment is a number. *)
Lemma response_of_score_at_least card amt vel ai :
  (0 <=? fst ai) = true ->
  (rule_score (negb (fst card)) (fst amt) (fst vel)
   <=? risk_score (response_of card amt vel ai)) = true
  /\ (fst card = false -> (0.7 <? risk_score (response_of card amt vel ai)) = true).
Proof.
  intros Hai. unfold response_of. cbn [risk_score].
  assert (nonneg (fst ai * 0.3)) as Hp by (by apply mul_03_nonneg, leb_zero_nonneg).
  set (p := fst ai * 0.3) in *. clearbody p.
  destruct (fst card), (fst amt), (fst vel); cbv [negb rule_score];
    match goal with
    | |- context [PyFloat.py_min (?c + p) _] =>
        let c' := eval vm_compute in c in change c with c'
    end.
  all: split;
    [first
       [ apply py_min_one_range, add_nonneg; [vm_compute; done | done]
       | eapply clamped_sum_at_least;
           [vm_compute; reflexivity | reflexivity | discriminate | reflexivity | done]
       | erewrite clamped_sum_one;
           [reflexivity | vm_compute; reflexivity | reflexivity | discriminate
           | first [left; reflexivity | right; split; reflexivity] | done] ]
    | first
       [ discriminate
       | intros _; eapply clamped_sum_above;
           [vm_compute; reflexivity | reflexivity | discriminate | vm_compute; reflexivity
           | first [left; reflexivity | right; split; reflexivity] | reflexivity | done] ] ].
Qed.

(** The assessor never lowers the score: when the call returns
    normally and the score is a number, it is at least the clamped sum
    of the weights of the checks that found something (0.8 for the
    card, 0.6 for the amount, 0.7 for the velocity), and it is above
    0.7 whenever the card was refused. *)
Theorem assessor_never_lowers_score (self : service) (clk : clock)
  (request : FraudCheckRequest) (self' : service) (response : FraudCheckResponse) :
  CheckFraud_try clk request self = (self', Return response) ->
  exists amt velocity,
    let uid := default "anonymous" (demo_pb2.user_id request) in
    let card := _validate_credit_card (now_validate clk) (demo_pb2.credit_card request) in
    let amount := _check_amount_fraud self amt in
    request_amount request self = (self, Return amt)
    /\ snd (_check_velocity_fraud (time_velocity clk) uid amt self) = Return velocity
    /\ (PyFloat.is_nan (risk_score response) = true
        \/ ((rule_score (negb (fst card)) (fst amount) (fst velocity)
             <=? risk_score response) = true
            /\ (fst card = false -> (0.7 <? risk_score response) = true))).
Proof.
  intros Htry.
  destruct (CheckFraud_try_returns _ _ _ _ _ Htry)
    as (amt & money & card & Hamt & _ & Hcard & Hresp & _).
  cbv zeta in Hresp. exists amt. eexists. cbv zeta.
  rewrite velocity_run, Hcard. split; [done|]. split; [reflexivity|].
  rewrite Hresp.
  match goal with
  | |- context [_get_ai_fraud_assessment ?s ?d] =>
      pose proof (assessment_score_range s d) as Hai;
      destruct (_get_ai_fraud_assessment s d) as [a ai_reason]
  end.
  cbv zeta in Hai. cbn [fst] in Hai. destruct Hai as [Hnan | [Hlo _]].
  - left. by apply response_score_nan.
  - right. by apply response_of_score_at_least.
Qed.

Lemma assessor_never_lowers_score_witness :
  let self := answering "SCORE:0.5|REASON:unusual" in
  let request := request_of (usd 100 0) (card_4532 1 2020) "test-user" in
  let response :=
    {| is_fraud := true; risk_score := 0.95000000000000007;
       reason := "Credit card expired" |} in
  CheckFraud_try clock_2025 request self = (pruned 1000.0 "test-user" self, Return response)
  /\ (0.8 <=? risk_score response) = true
  /\ (0.7 <? risk_score response) = true.
Proof.
  cbv zeta.
  assert (CheckFraud_try clock_2025
            (request_of (usd 100 0) (card_4532 1 2020) "test-user")
            (answering "SCORE:0.5|REASON:unusual")
          = (pruned 1000.0 "test-user" (answering "SCORE:0.5|REASON:unusual"),
             Return {| is_fraud := true; risk_score := 0.95000000000000007;
                       reason := "Credit card expired" |}))
    as Htry by (vm_compute; reflexivity).
  split; [exact Htry|].
  destruct (assessor_never_lowers_score _ _ _ _ _ Htry)
    as (amt & velocity & Hamt & Hvel & [Hnan | [Hscore Habove]]).
  - vm_compute in Hnan. discriminate.
  - cbv zeta in Hscore, Habove. split; [|apply Habove; vm_compute; reflexivity].
    assert (amt = 100) as -> by (vm_compute in Hamt; congruence).
    assert (velocity = (false, "Velocity check passed"%string)) as ->
      by (vm_compute in Hvel; congruence).
    exact Hscore.
Defined.

Lemma risk_score_nan_only_from_answer_witness :
  let self := answering "SCORE:nan|REASON:unclear" in
  let request := request_of (usd 100 0) (card_4532 12 2025) "test-user" in
  PyFloat.is_nan (risk_score (snd (CheckFraud self clock_2025 request fresh_context))) = true
  /\ exists model data text score,
       gemini_model self = Some model /\ model data = GenText text
       /\ PyFloat.py_float (score_part_of text) = Some score
       /\ PyFloat.is_nan score = true.
Proof.
  cbv zeta.
  assert (PyFloat.is_nan
            (risk_score
               (snd (CheckFraud (answering "SCORE:nan|REASON:unclear") clock_2025
                       (request_of (usd 100 0) (card_4532 12 2025) "test-user")
                       fresh_context))) = true) as H by (vm_compute; reflexivity).
  split; [exact H|].
  exact (risk_score_nan_only_from_answer _ _ _ _ H).
Defined.

End Decision.

(** ** Start-up: the profiler *)

(** The profiler is started until it succeeds and at most three times;
    one second is slept after each failure, also after the third; the
    warning that the code has for giving up is never logged, since
    [retry < 4] holds for every [retry] of [range(1, 4)]. *)
Theorem profiler_retries (environ : gmap string string) (start : nat -> option string) :
  let trace := initStackdriverProfiling environ start in
  existsb is_warning trace = false
  /\ match first_success start 0 3 with
     | Some k =>
         starts trace = S k /\ total_sleep trace = Z.of_nat k
         /\ last trace = Some (LogInfo "Successfully started Stackdriver Profiler.")
     | None =>
         starts trace = 3%nat /\ total_sleep trace = 3
         /\ last trace = Some (Sleep 1)
         /\ LogInfo "Sleeping 30 seconds to retry Stackdriver Profiler agent initialization"
            ∈ trace
     end.
Proof.
  cbv zeta. unfold initStackdriverProfiling.
  generalize (environ !! "GCP_PROJECT_ID"). intros project_id.
  cbn [profiling_loop first_success].
  destruct (start 0%nat) as [e0|]; [|by repeat split].
  destruct (start 1%nat) as [e1|]; [|by repeat split].
  destruct (start 2%nat) as [e2|]; [|by repeat split].
  repeat split. cbn. rewrite !list_elem_of_In. cbn. auto 20.
Qed.

